(** * rawsql-ts: SELECT parsers and the SQL formatter

    A shallow embedding of the parser routines ([SelectClauseParser],
    [SelectQueryParser], [SourceParser]) and of the formatter
    ([SqlPrinter], [SqlFormatter]), and of the helpers of [RawSqlClient]
    that use the formatter and cache the files it reads, followed by the
    properties of the specification that concern them.

    JavaScript exceptions are modelled by the [Throw] outcome of the
    [Result] monad; mutable object fields ([SqlFormatter.printer],
    [SqlPrinter.linePrinter]) by explicit state passing. *)

From Stdlib Require Import String Ascii List Arith Lia Bool.
From Stdlib Require Import ZArith Permutation Sorted.
From Stdlib Require Import Numbers.DecimalString.
From Equations Require Import Equations.
Import ListNotations.
Open Scope string_scope.
Open Scope list_scope.

Set Implicit Arguments.

(* ===================================================================== *)
(** * JavaScript primitives *)
(* ===================================================================== *)

Module Js.

(** An error object: [new Error(msg)] has the name ["Error"], the given
    message and no further own property. *)
Record JsError := mkJsError {
  name : string;
  message : string;
  props : list (string * string)
}.

Definition Error (msg : string) : JsError := mkJsError "Error" msg [].

(** Reading a property of [undefined]. *)
Definition TypeError (msg : string) : JsError := mkJsError "TypeError" msg [].

Definition prop (e : JsError) (key : string) : option string :=
  option_map snd (find (fun kv => String.eqb (fst kv) key) (props e)).

(** Outcome of a call: a value, a thrown error, or [Timeout] when a loop
    of the model has used up its iteration budget. *)
Inductive Result (A : Type) : Type :=
| Ok (a : A)
| Throw (e : JsError)
| Timeout.
Arguments Ok {A} a.
Arguments Throw {A} e.
Arguments Timeout {A}.

Definition bind {A B} (r : Result A) (k : A -> Result B) : Result B :=
  match r with
  | Ok a => k a
  | Throw e => Throw e
  | Timeout => Timeout
  end.

Definition isOk {A} (r : Result A) : bool :=
  match r with Ok _ => true | _ => false end.

(** The double quote character, for template literals that contain it. *)
Definition dq : string := String "034"%char EmptyString.

(** [String(n)] for a non-negative integer. *)
Definition toString (n : nat) : string := NilEmpty.string_of_uint (Nat.to_uint n).

Definition lowerChar (c : ascii) : ascii :=
  let n := nat_of_ascii c in
  if ((65 <=? n) && (n <=? 90))%nat then ascii_of_nat (n + 32) else c.

Definition upperChar (c : ascii) : ascii :=
  let n := nat_of_ascii c in
  if ((97 <=? n) && (n <=? 122))%nat then ascii_of_nat (n - 32) else c.

Fixpoint mapChars (f : ascii -> ascii) (s : string) : string :=
  match s with
  | EmptyString => EmptyString
  | String c s' => String (f c) (mapChars f s')
  end.

(** [s.toLowerCase()] and [s.toUpperCase()], on ASCII letters. *)
Definition toLowerCase : string -> string := mapChars lowerChar.
Definition toUpperCase : string -> string := mapChars upperChar.

Definition isSpaceChar (c : ascii) : bool :=
  let n := nat_of_ascii c in
  ((n =? 32) || ((9 <=? n) && (n <=? 13)))%nat.

(** [s.trimEnd()]. *)
Fixpoint trimEnd (s : string) : string :=
  match s with
  | EmptyString => EmptyString
  | String c s' =>
      match trimEnd s' with
      | EmptyString => if isSpaceChar c then EmptyString else String c EmptyString
      | t => String c t
      end
  end.

(** [s.repeat(n)]. *)
Fixpoint repeat (s : string) (n : nat) : string :=
  match n with
  | O => EmptyString
  | S n' => s ++ repeat s n'
  end.

(** [xs.includes(x)] / [set.has(x)] on strings. *)
Definition includes (xs : list string) (x : string) : bool :=
  existsb (String.eqb x) xs.

End Js.

Import Js.

Declare Scope js_scope.
Notation "' p <- c1 ;; c2" := (Js.bind c1 (fun p => c2))
  (at level 61, p pattern, c1 at next level, right associativity) : js_scope.
Notation "x <- c1 ;; c2" := (Js.bind c1 (fun x => c2))
  (at level 61, c1 at next level, right associativity) : js_scope.
Open Scope js_scope.

(* ===================================================================== *)
(** * Lexemes *)
(* ===================================================================== *)

(** Modelled from the spec: the [TokenType] enumeration is declared in
  [models/Lexeme], which is not among the sources; the kinds are those of
  the specification's data model. *)
Inductive TokenType :=
  | Identifier | Keyword | Literal | Operator | Comma | Dot
  | OpenParen | CloseParen | OpenBracket | CloseBracket
  | ParameterT | FunctionT.

Definition TokenType_eqb (a b : TokenType) : bool :=
  match a, b with
  | Identifier, Identifier | Keyword, Keyword | Literal, Literal
  | Operator, Operator | Comma, Comma | Dot, Dot
  | OpenParen, OpenParen | CloseParen, CloseParen
  | OpenBracket, OpenBracket | CloseBracket, CloseBracket
  | ParameterT, ParameterT | FunctionT, FunctionT => true
  | _, _ => false
  end.

(** The parsers read two fields of a lexeme. *)
Record Lexeme := mkLexeme {
  type : TokenType;
  value : string
}.

(** [idx < lexemes.length && test(lexemes[idx])]: the guard every parser
  routine uses before it looks at a lexeme. *)
Definition at_ (lexemes : list Lexeme) (idx : nat) (test : Lexeme -> bool) : bool :=
  match nth_error lexemes idx with
  | Some lx => test lx
  | None => false
  end.

Definition valueIs (s : string) (lx : Lexeme) : bool := String.eqb (value lx) s.
Definition lowerValueIs (s : string) (lx : Lexeme) : bool :=
  String.eqb (toLowerCase (value lx)) s.
Definition typeIs (t : TokenType) (lx : Lexeme) : bool := TokenType_eqb (type lx) t.

(** Case analysis that keeps the equation, for the termination proofs. *)
Definition inspect {A : Type} (x : A) : { y : A | x = y } := exist _ x eq_refl.

Definition valueAt (lexemes : list Lexeme) (idx : nat) : string :=
  match nth_error lexemes idx with
  | Some lx => value lx
  | None => EmptyString
  end.

(** The message V8 attaches to [lexemes[idx].value] when [lexemes[idx]] is
  [undefined]. *)
Definition undefinedValue : JsError :=
  TypeError "Cannot read properties of undefined (reading 'value')".

(* ===================================================================== *)
(** * SelectClauseParser (src/parsers/SelectParser.ts) *)
(* ===================================================================== *)

Module SelectClauseParser.
Section Parser.

(** [ValueParser] and [SqlTokenizer] are imported from files that are not
    among the sources: they are parameters. *)
Variable ValueComponent : Type.
Variable ValueParser_Parse : list Lexeme -> nat -> Result (ValueComponent * nat).
Variable SqlTokenizer_readLexmes : string -> Result (list Lexeme).

(** [SelectComponent = SelectItem | ValueComponent]. *)
Inductive SelectComponent :=
| SelectItem (value : ValueComponent) (alias : string)
| Nameless (value : ValueComponent).

Record SelectClause := mkSelectClause { items : list SelectComponent }.

Definition ParseItem (lexemes : list Lexeme) (index : nat)
  : Result (SelectComponent * nat) :=
  ' (value, idx) <- ValueParser_Parse lexemes index ;;
  let idx := if at_ lexemes idx (valueIs "as") then S idx else idx in
  if at_ lexemes idx (typeIs Identifier) then
    let alias := valueAt lexemes idx in
    Ok (SelectItem value alias, S idx)
  else
    (* alias nameless *)
    Ok (Nameless value, idx).

(** The [while] loop of [Parse]; one unit of [fuel] per iteration. *)
Fixpoint ParseLoop (fuel : nat) (lexemes : list Lexeme)
    (items : list SelectComponent) (idx : nat)
  : Result (list SelectComponent * nat) :=
  if at_ lexemes idx (typeIs Comma) then
    match fuel with
    | O => Timeout
    | S fuel' =>
        ' (item, newIndex) <- ParseItem lexemes (S idx) ;;
        ParseLoop fuel' lexemes (items ++ [item]) newIndex
    end
  else Ok (items, idx).

Definition Parse (lexemes : list Lexeme) (index : nat)
  : Result (SelectClause * nat) :=
  match nth_error lexemes index with
  | None => Throw undefinedValue
  | Some lx =>
      if negb (valueIs "select" lx) then
        Throw (Error ("Expected 'SELECT' at index " ++ toString index))
      else
        ' (item, idx) <- ParseItem lexemes (S index) ;;
        ' (items, idx) <- ParseLoop (List.length lexemes) lexemes [item] idx ;;
        if (List.length items =? 0)%nat then
          Throw (Error ("No select items found at index " ++ toString index))
        else Ok (mkSelectClause items, idx)
  end.

Definition ParseFromText (query : string) : Result SelectClause :=
  lexemes <- SqlTokenizer_readLexmes query ;;
  ' (value, newIndex) <- Parse lexemes 0 ;;
  if (newIndex <? List.length lexemes)%nat then
    Throw (Error ("Unexpected token at index " ++ toString newIndex ++ ": "
                  ++ valueAt lexemes newIndex))
  else Ok value.

End Parser.
End SelectClauseParser.

(* ===================================================================== *)
(** * SelectQueryParser (src/parsers/SelectQueryParser.ts) *)
(* ===================================================================== *)

Module SelectQueryParser.

(** The tokenizer and the clause parsers are imported from files that are
    not among the sources.  The class collects them, with the node types
    they return. *)
Class Collaborators := {
  ValueComponent : Type;
  WithClause : Type;
  SelectClause : Type;
  FromClause : Type;
  WhereClause : Type;
  GroupByClause : Type;
  HavingClause : Type;
  OrderByClause : Type;
  WindowFrameClause : Type;
  LimitClause : Type;
  ForClause : Type;
  SqlTokenizer_readLexmes : string -> Result (list Lexeme);
  WithClauseParser_parse : list Lexeme -> nat -> Result (WithClause * nat);
  SelectClauseParser_parse : list Lexeme -> nat -> Result (SelectClause * nat);
  FromClauseParser_parse : list Lexeme -> nat -> Result (FromClause * nat);
  WhereClauseParser_parse : list Lexeme -> nat -> Result (WhereClause * nat);
  GroupByClauseParser_parse : list Lexeme -> nat -> Result (GroupByClause * nat);
  HavingClauseParser_parse : list Lexeme -> nat -> Result (HavingClause * nat);
  WindowClauseParser_parse : list Lexeme -> nat -> Result (WindowFrameClause * nat);
  OrderByClauseParser_parse : list Lexeme -> nat -> Result (OrderByClause * nat);
  LimitClauseParser_parse : list Lexeme -> nat -> Result (LimitClause * nat);
  ForClauseParser_parse : list Lexeme -> nat -> Result (ForClause * nat)
}.

Section Parser.
Context {C : Collaborators}.

(** Modelled from the spec: [models/SelectQuery] is not among the
    sources.  The query nodes are the three variants of the data model;
    [new SelectQuery(with, select, from, where, groupBy, having, orderBy,
    windowFrame, limit, for)] builds the first one. *)
Inductive SelectQuery :=
| SimpleSelect
    (withClause : option WithClause)
    (selectClause : SelectClause)
    (fromClause : option FromClause)
    (whereClause : option WhereClause)
    (groupByClause : option GroupByClause)
    (havingClause : option HavingClause)
    (orderByClause : option OrderByClause)
    (windowFrameClause : option WindowFrameClause)
    (limitClause : option LimitClause)
    (forClause : option ForClause)
| BinarySelect (op : string) (left right : SelectQuery)
| ValuesQuery (rows : list (list ValueComponent)).

Definition isBinarySelect (q : SelectQuery) : bool :=
  match q with BinarySelect _ _ _ => true | _ => false end.

Definition isSimpleSelect (q : SelectQuery) : bool :=
  match q with SimpleSelect _ _ _ _ _ _ _ _ _ _ => true | _ => false end.

(** The pattern of every optional clause:
    [if (idx < lexemes.length && lexemes[idx].value.toLowerCase() === kw)
       { r = P.parse(lexemes, idx); idx = r.newIndex; }]. *)
Definition optionalClause {A} (kw : string)
    (parser : list Lexeme -> nat -> Result (A * nat))
    (lexemes : list Lexeme) (idx : nat) : Result (option A * nat) :=
  if at_ lexemes idx (lowerValueIs kw) then
    ' (v, newIndex) <- parser lexemes idx ;; Ok (Some v, newIndex)
  else Ok (None, idx).

Definition expectedSelect (lexemes : list Lexeme) (idx : nat) : JsError :=
  Error ("Syntax error at position " ++ toString idx
         ++ ": Expected 'SELECT' keyword but found " ++ dq
         ++ (if (idx <? List.length lexemes)%nat then valueAt lexemes idx
             else "end of input")
         ++ dq ++ ". SELECT queries must start with the SELECT keyword.").

Definition parse (lexemes : list Lexeme) (index : nat)
  : Result (SelectQuery * nat) :=
  let idx := index in
  ' (withClauseResult, idx) <- optionalClause "with" WithClauseParser_parse lexemes idx ;;
  if negb (at_ lexemes idx (lowerValueIs "select")) then
    Throw (expectedSelect lexemes idx)
  else
  ' (selectClauseResult, idx) <- SelectClauseParser_parse lexemes idx ;;
  ' (fromClauseResult, idx) <- optionalClause "from" FromClauseParser_parse lexemes idx ;;
  ' (whereClauseResult, idx) <- optionalClause "where" WhereClauseParser_parse lexemes idx ;;
  ' (groupByClauseResult, idx) <- optionalClause "group by" GroupByClauseParser_parse lexemes idx ;;
  ' (havingClauseResult, idx) <- optionalClause "having" HavingClauseParser_parse lexemes idx ;;
  ' (windowFrameClauseResult, idx) <- optionalClause "window" WindowClauseParser_parse lexemes idx ;;
  ' (orderByClauseResult, idx) <- optionalClause "order by" OrderByClauseParser_parse lexemes idx ;;
  ' (limitClauseResult, idx) <- optionalClause "limit" LimitClauseParser_parse lexemes idx ;;
  ' (forClauseResult, idx) <- optionalClause "for" ForClauseParser_parse lexemes idx ;;
  Ok (SimpleSelect withClauseResult selectClauseResult fromClauseResult
        whereClauseResult groupByClauseResult havingClauseResult
        orderByClauseResult windowFrameClauseResult limitClauseResult
        forClauseResult,
      idx).

Definition unexpectedToken (lexemes : list Lexeme) (newIndex : nat) : JsError :=
  Error ("Syntax error: Unexpected token " ++ dq ++ valueAt lexemes newIndex ++ dq
         ++ " at position " ++ toString newIndex
         ++ ". The SELECT query is complete but there are additional tokens.").

Definition parseFromText (query : string) : Result SelectQuery :=
  lexemes <- SqlTokenizer_readLexmes query ;;
  ' (value, newIndex) <- parse lexemes 0 ;;
  if (newIndex <? List.length lexemes)%nat then
    Throw (unexpectedToken lexemes newIndex)
  else Ok value.

End Parser.
End SelectQueryParser.

(* ===================================================================== *)
(** * SourceParser *)
(* ===================================================================== *)

Module SourceParser.
Section Parser.

(** [SelectQueryParser.parse] reaches back here through the FROM clause
    parser, which is not among the sources; the recursion is cut by
    taking it, and [ValueParser.parseArgument], as parameters. *)
Variable ValueComponent : Type.
Variable SelectQuery : Type.
Variable SelectQueryParser_parse : list Lexeme -> nat -> Result (SelectQuery * nat).
Variable ValueParser_parseArgument :
  TokenType -> TokenType -> list Lexeme -> nat -> Result (ValueComponent * nat).

Inductive SourceComponent :=
| TableSource (namespaces : option (list string)) (table : string)
| FunctionSource (name : string) (argument : ValueComponent)
| SubQuerySource (query : SelectQuery).

(** The [while] loop of [parseTableSource]: each turn skips a dot and
    takes the identifier after it. *)
Equations? dotIdentifiers (lexemes : list Lexeme) (identifiers : list string)
    (idx : nat) : list string * nat by wf (List.length lexemes - idx) lt :=
  dotIdentifiers lexemes identifiers idx
    with inspect (at_ lexemes idx (typeIs Dot)
                  && at_ lexemes (S idx) (typeIs Identifier)) := {
    | exist _ true _ =>
        dotIdentifiers lexemes (identifiers ++ [valueAt lexemes (S idx)]) (S (S idx));
    | exist _ false _ => (identifiers, idx) }.
Proof.
  apply andb_prop in e. destruct e as [_ e]. unfold at_ in e.
  destruct (nth_error lexemes (S idx)) eqn:E; [|discriminate].
  assert (S idx < List.length lexemes) by (apply nth_error_Some; congruence).
  lia.
Qed.

Definition parseTableSource (lexemes : list Lexeme) (index : nat)
  : Result (SourceComponent * nat) :=
  match nth_error lexemes index with
  | None => Throw undefinedValue
  | Some lx =>
      let '(identifiers, idx) := dotIdentifiers lexemes [value lx] (S index) in
      if (1 <? List.length identifiers)%nat then
        let lastIdentifier := List.last identifiers EmptyString in
        Ok (TableSource (Some (List.removelast identifiers)) lastIdentifier, idx)
      else
        Ok (TableSource None (List.hd EmptyString identifiers), idx)
  end.

Definition parseFunctionSource (lexemes : list Lexeme) (index : nat)
  : Result (SourceComponent * nat) :=
  match nth_error lexemes index with
  | None => Throw undefinedValue
  | Some lx =>
      let functionName := value lx in
      ' (argument, idx) <-
          ValueParser_parseArgument OpenParen CloseParen lexemes (S index) ;;
      Ok (FunctionSource functionName argument, idx)
  end.

Definition parseSubQuerySource (lexemes : list Lexeme) (index : nat)
  : Result (SourceComponent * nat) :=
  ' (selectQuery, idx) <- SelectQueryParser_parse lexemes index ;;
  Ok (SubQuerySource selectQuery, idx).

(** [if (idx < lexemes.length && lexemes[idx].type == CloseParen) idx++
     else throw ...], after a parenthesised source. *)
Definition closeParen (lexemes : list Lexeme)
    (result : SourceComponent * nat) : Result (SourceComponent * nat) :=
  let '(v, idx) := result in
  if at_ lexemes idx (typeIs CloseParen) then Ok (v, S idx)
  else Throw (Error ("Expected closing parenthesis at index " ++ toString idx)).

Equations? parseParenSource (lexemes : list Lexeme) (index : nat)
  : Result (SourceComponent * nat) by wf (List.length lexemes - index) lt :=
  parseParenSource lexemes index with inspect (nth_error lexemes (S index)) := {
    | exist _ None _ =>
        Throw (Error ("Unexpected end of input at index " ++ toString (S index)));
    | exist _ (Some lx) _ =>
        if valueIs "select" lx then
          result <- parseSubQuerySource lexemes (S index) ;;
          closeParen lexemes result
        else if typeIs OpenParen lx then
          result <- parseParenSource lexemes (S index) ;;
          closeParen lexemes result
        else
          Throw (Error ("Expected 'SELECT' or '(' at index " ++ toString (S index))) }.
Proof.
  assert (nth_error lexemes (S index) <> None) as H by (simpl; congruence).
  apply nth_error_Some in H. lia.
Qed.

Definition parse (lexemes : list Lexeme) (index : nat)
  : Result (SourceComponent * nat) :=
  if at_ lexemes index (typeIs OpenParen) then parseParenSource lexemes index
  else if at_ lexemes index (typeIs FunctionT) then parseFunctionSource lexemes index
  else parseTableSource lexemes index.

End Parser.
End SourceParser.

(* ===================================================================== *)
(** * Print tokens *)
(* ===================================================================== *)

Module SqlPrintToken.

(** Modelled from the spec: [models/SqlPrintToken] is not among the
    sources.  The token kinds are those the specification lists; [other]
    stands for the remaining text tokens (spaces, parentheses, dots). *)
Inductive SqlPrintTokenType :=
| container | keyword | identifier | literal | operator | comma
| parameter | comment | other.

(** Modelled from the spec: the container kinds are the members of
    [SqlPrintTokenContainerType] that [SqlPrinter] names, with the query
    containers of the data model; [NoContainer] is the kind of a token
    that is not a container. *)
Inductive SqlPrintTokenContainerType :=
| NoContainer
| SelectClause | FromClause | WhereClause | GroupByClause | HavingClause
| WindowFrameExpression | PartitionByClause | OrderByClause | WindowClause
| LimitClause | OffsetClause | SubQuerySource | BinarySelectQueryOperator
| Values | WithClause | SwitchCaseArgument | CaseKeyValuePair
| CaseThenValue | ElseClause | CaseElseValue | CaseExpression
| CommonTable | JoinClause
| SimpleSelectQuery | BinarySelectQuery | ValuesQuery
| ColumnReference | TableSource | SelectItem.

Definition type_eq_dec (a b : SqlPrintTokenType) : {a = b} + {a <> b}.
Proof. decide equality. Defined.

Definition containerType_eq_dec (a b : SqlPrintTokenContainerType)
  : {a = b} + {a <> b}.
Proof. decide equality. Defined.

Definition typeEq (a b : SqlPrintTokenType) : bool :=
  if type_eq_dec a b then true else false.

Definition containerEq (a b : SqlPrintTokenContainerType) : bool :=
  if containerType_eq_dec a b then true else false.

#[local] Unset Elimination Schemes.
Inductive t := mk {
  type : SqlPrintTokenType;
  text : string;
  containerType : SqlPrintTokenContainerType;
  keywordTokens : list t;
  innerTokens : list t
}.
#[local] Set Elimination Schemes.

End SqlPrintToken.

Abbreviation SqlPrintToken := SqlPrintToken.t.

(* ===================================================================== *)
(** * LinePrinter *)
(* ===================================================================== *)

Module LinePrinter.

Record PrintLine := mkLine { level : nat; text : string }.

(** Modelled from the spec: [LinePrinter] is imported from
    [./LinePrinter], which is not among the sources.  It keeps the lines
    written so far, each with its indentation level; the last one is the
    current line buffer.  [SqlPrinter] uses its constructor, the field
    [lines], [getCurrentLine], [appendText], [appendNewline] and
    [print]. *)
Record t := mk {
  indentChar : string;
  indentSize : nat;
  newline : string;
  lines : list PrintLine
}.

Definition withLines (lp : t) (ls : list PrintLine) : t :=
  mk (indentChar lp) (indentSize lp) (newline lp) ls.

(** Applies [f] to the last element. *)
Fixpoint mapLast {A} (f : A -> A) (l : list A) : list A :=
  match l with
  | [] => []
  | [x] => [f x]
  | x :: l' => x :: mapLast f l'
  end.

(** Closes the current line, if it has text, with the newline string
    (trailing blanks dropped) and opens a new line at [level]. *)
Definition appendNewline (level : nat) (lp : t) : t :=
  let close (l : PrintLine) :=
    if String.eqb (text l) EmptyString then l
    else mkLine (LinePrinter.level l) (trimEnd (text l) ++ newline lp) in
  withLines lp (mapLast close (lines lp) ++ [mkLine level EmptyString]).

Definition new (indentChar : string) (indentSize : nat) (newline : string) : t :=
  appendNewline 0 (mk indentChar indentSize newline []).

(** The current line, as its position in [lines]: the printer holds on to
    the line object while later calls write to it. *)
Definition getCurrentLine (lp : t) : nat := List.length (lines lp) - 1.

Definition lineText (lp : t) (line : nat) : string :=
  match nth_error (lines lp) line with
  | Some l => text l
  | None => EmptyString
  end.

(** Appends to the current line; a blank at the start of a line is
    dropped. *)
Definition appendText (s : string) (lp : t) : t :=
  if String.eqb s " " && String.eqb (lineText lp (getCurrentLine lp)) EmptyString
  then lp
  else withLines lp (mapLast (fun l => mkLine (level l) (text l ++ s)) (lines lp)).

Definition indent (lp : t) (level : nat) : string :=
  Js.repeat (indentChar lp) (indentSize lp * level).

(** A line as it is written out: its indentation, then its text. *)
Definition renderLine (lp : t) (l : PrintLine) : string :=
  if String.eqb (text l) EmptyString then EmptyString
  else indent lp (level l) ++ text l.

Definition print (lp : t) : string :=
  trimEnd (String.concat EmptyString (map (renderLine lp) (lines lp))).

End LinePrinter.

(* ===================================================================== *)
(** * SqlPrinter (packages/core/src/transformers/SqlPrinter.ts) *)
(* ===================================================================== *)

Inductive BreakStyle := BreakNone | BreakBefore | BreakAfter.
Inductive KeywordCase := CaseNone | CaseUpper | CaseLower.

Module SqlPrinterOptions.

Record t := mk {
  indentChar : option string;
  indentSize : option nat;
  newline : option string;
  commaBreak : option BreakStyle;
  andBreak : option BreakStyle;
  keywordCase : option KeywordCase;
  exportComment : option bool;
  strictCommentPlacement : option bool;
  indentIncrementContainerTypes : option (list SqlPrintToken.SqlPrintTokenContainerType);
  cteOneline : option bool;
  cteOnelineDependency : option bool;
  cteOnelineSet : option (list string);
  importComments : option (list string)
}.

End SqlPrinterOptions.

Module SqlPrinter.

Import SqlPrintToken.

(** The fields of a printer other than [linePrinter], which [print]
    creates anew and which is threaded through [appendToken]. *)
Record t := mk {
  indentChar : string;
  indentSize : nat;
  newline : string;
  commaBreak : BreakStyle;
  andBreak : BreakStyle;
  keywordCase : KeywordCase;
  exportComment : bool;
  strictCommentPlacement : bool;
  cteOneline : bool;
  cteOnelineDependency : bool;
  cteOnelineSet : list string;
  importComments : list string;
  indentIncrementContainers : list SqlPrintTokenContainerType
}.

(** [a ?? b]. *)
Definition orElse {A} (a : option A) (b : A) : A :=
  match a with Some x => x | None => b end.

Definition defaultIndentIncrementContainers : list SqlPrintTokenContainerType :=
  [ SelectClause; FromClause; WhereClause; GroupByClause; HavingClause;
    WindowFrameExpression; PartitionByClause; OrderByClause; WindowClause;
    LimitClause; OffsetClause; SubQuerySource; BinarySelectQueryOperator;
    Values; WithClause; SwitchCaseArgument; CaseKeyValuePair; CaseThenValue;
    ElseClause; CaseElseValue ].

Definition new (options : SqlPrinterOptions.t) : t :=
  mk (orElse (SqlPrinterOptions.indentChar options) EmptyString)
     (orElse (SqlPrinterOptions.indentSize options) 0)
     (orElse (SqlPrinterOptions.newline options) " ")
     (orElse (SqlPrinterOptions.commaBreak options) BreakNone)
     (orElse (SqlPrinterOptions.andBreak options) BreakNone)
     (orElse (SqlPrinterOptions.keywordCase options) CaseNone)
     (orElse (SqlPrinterOptions.exportComment options) false)
     (orElse (SqlPrinterOptions.strictCommentPlacement options) false)
     (orElse (SqlPrinterOptions.cteOneline options) false)
     (orElse (SqlPrinterOptions.cteOnelineDependency options) false)
     (orElse (SqlPrinterOptions.cteOnelineSet options) [])
     (orElse (SqlPrinterOptions.importComments options) [])
     (orElse (SqlPrinterOptions.indentIncrementContainerTypes options)
             defaultIndentIncrementContainers).

(** The assignments [printer['cteOneline'] = b] and
    [printer['importComments'] = cs]. *)
Definition set_cteOneline (b : bool) (p : t) : t :=
  mk (indentChar p) (indentSize p) (newline p) (commaBreak p) (andBreak p)
     (keywordCase p) (exportComment p) (strictCommentPlacement p)
     b (cteOnelineDependency p) (cteOnelineSet p) (importComments p)
     (indentIncrementContainers p).

Definition set_importComments (cs : list string) (p : t) : t :=
  mk (indentChar p) (indentSize p) (newline p) (commaBreak p) (andBreak p)
     (keywordCase p) (exportComment p) (strictCommentPlacement p)
     (cteOneline p) (cteOnelineDependency p) (cteOnelineSet p) cs
     (indentIncrementContainers p).

Definition shouldSkipToken (token : SqlPrintToken) : bool :=
  (List.length (innerTokens token) =? 0)%nat && String.eqb (text token) EmptyString.

Definition applyKeywordCase (p : t) (s : string) : string :=
  match keywordCase p with
  | CaseUpper => toUpperCase s
  | CaseLower => toLowerCase s
  | CaseNone => s
  end.

Definition handleKeywordToken (p : t) (token : SqlPrintToken) (level : nat)
    (lp : LinePrinter.t) : LinePrinter.t :=
  LinePrinter.appendText (applyKeywordCase p (text token)) lp.

Definition handleCommaToken (p : t) (token : SqlPrintToken) (level : nat)
    (parentContainerType : option SqlPrintTokenContainerType)
    (lp : LinePrinter.t) : LinePrinter.t :=
  let s := text token in
  if cteOneline p
     && match parentContainerType with
        | Some c => containerEq c WithClause
        | None => false
        end
  then LinePrinter.appendNewline level (LinePrinter.appendText s lp)
  else match commaBreak p with
       | BreakBefore => LinePrinter.appendText s (LinePrinter.appendNewline level lp)
       | BreakAfter => LinePrinter.appendNewline level (LinePrinter.appendText s lp)
       | BreakNone => LinePrinter.appendText s lp
       end.

Definition handleAndOperatorToken (p : t) (token : SqlPrintToken) (level : nat)
    (lp : LinePrinter.t) : LinePrinter.t :=
  let s := applyKeywordCase p (text token) in
  match andBreak p with
  | BreakBefore => LinePrinter.appendText s (LinePrinter.appendNewline level lp)
  | BreakAfter => LinePrinter.appendNewline level (LinePrinter.appendText s lp)
  | BreakNone => LinePrinter.appendText s lp
  end.

Definition handleJoinClauseToken (p : t) (token : SqlPrintToken) (level : nat)
    (lp : LinePrinter.t) : LinePrinter.t :=
  let s := applyKeywordCase p (text token) in
  LinePrinter.appendText s (LinePrinter.appendNewline level lp).

Definition handleCommentToken (p : t) (token : SqlPrintToken)
    (lp : LinePrinter.t) : LinePrinter.t :=
  if exportComment p then
    LinePrinter.appendText " " (LinePrinter.appendText (text token) lp)
  else lp.

Definition extractCteNameFromToken (token : SqlPrintToken) : option string :=
  match innerTokens token with
  | aliasToken :: _ =>
      if String.eqb (text aliasToken) EmptyString then None
      else Some (text aliasToken)
  | [] => None
  end.

Definition shouldFormatCteOneline (p : t) (token : SqlPrintToken) : bool :=
  if cteOneline p then true
  else if negb (cteOnelineDependency p) then false
  else match extractCteNameFromToken token with
       | Some cteName => includes (cteOnelineSet p) cteName
       | None => false
       end.

(** The printer [handleCteOnelineToken] creates. *)
Definition onelinePrinter (p : t) : t :=
  new (SqlPrinterOptions.mk
         (Some EmptyString) (Some 0) (Some " ")
         (Some (commaBreak p)) (Some (andBreak p)) (Some (keywordCase p))
         (Some (exportComment p)) (Some (strictCommentPlacement p))
         None (Some false) None None None).

(** The comments loop of [handleWithClauseToken]. *)
Definition appendImportComments (comments : list string) (level : nat)
    (lp : LinePrinter.t) : LinePrinter.t :=
  fold_left
    (fun lp comment =>
       LinePrinter.appendText ("    " ++ comment) (LinePrinter.appendNewline level lp))
    comments lp.

Section AppendToken.

(** [handleCteOnelineToken] prints the token it is given with a second
    printer, a call that is not on a part of the token.  [appendToken] and
    [print] are therefore first defined over the function that does this
    nested printing, and the recursion is closed below. *)
Variable nestedPrint : t -> SqlPrintToken -> nat -> string.

Definition handleCteOnelineToken (p : t) (token : SqlPrintToken) (level : nat)
    (lp : LinePrinter.t) : LinePrinter.t :=
  let onelineResult := nestedPrint (onelinePrinter p) token level in
  LinePrinter.appendText onelineResult lp.

Fixpoint appendTokenWith (p : t) (token : SqlPrintToken) (level : nat)
    (parentContainerType : option SqlPrintTokenContainerType)
    (lp : LinePrinter.t) {struct token} : LinePrinter.t :=
  if shouldSkipToken token then lp else
  match token with
  | SqlPrintToken.mk ty txt ct kts its =>
    let current := LinePrinter.getCurrentLine lp in
    (* for (...) this.appendToken(tokens[i], lvl, token.containerType) *)
    let appendAll (ts : list SqlPrintToken) (lvl : nat) (lp : LinePrinter.t)
      : LinePrinter.t :=
      fold_left (fun lp child => appendTokenWith p child lvl (Some ct) lp) ts lp in
    let rest (lp : LinePrinter.t) : LinePrinter.t :=
      (* append keyword tokens (not indented) *)
      let lp := appendAll kts level lp in
      (* indent level up *)
      if negb (String.eqb (newline p) " ")
         && negb (String.eqb (LinePrinter.lineText lp current) EmptyString)
         && existsb (containerEq ct) (indentIncrementContainers p)
      then
        let innerLevel := S level in
        let lp := LinePrinter.appendNewline innerLevel lp in
        let lp := appendAll its innerLevel lp in
        (* indent level down *)
        LinePrinter.appendNewline level lp
      else appendAll its level lp in
    if containerEq ct WithClause && (0 <? List.length (importComments p))%nat then
      (* handleWithClauseToken *)
      let lp := LinePrinter.appendText txt lp in
      let lp := appendAll its level lp in
      appendImportComments (importComments p) level lp
    else if typeEq ty keyword then
      rest (handleKeywordToken p token level lp)
    else if typeEq ty comma then
      rest (handleCommaToken p token level parentContainerType lp)
    else if typeEq ty operator && String.eqb (toLowerCase txt) "and" then
      rest (handleAndOperatorToken p token level lp)
    else if containerEq ct JoinClause then
      rest (handleJoinClauseToken p token level lp)
    else if typeEq ty comment then
      rest (handleCommentToken p token lp)
    else if containerEq ct CommonTable && shouldFormatCteOneline p token then
      handleCteOnelineToken p token level lp
    else
      rest (LinePrinter.appendText txt lp)
  end.

Definition printWith (p : t) (token : SqlPrintToken) (level : nat) : string :=
  let lp := LinePrinter.new (indentChar p) (indentSize p) (newline p) in
  let lp :=
    match LinePrinter.lines lp with
    | first :: others =>
        if negb (level =? LinePrinter.level first)%nat then
          LinePrinter.withLines lp
            (LinePrinter.mkLine level (LinePrinter.text first) :: others)
        else lp
    | [] => lp
    end in
  LinePrinter.print (appendTokenWith p token level None lp).

End AppendToken.

(** The printer made by [handleCteOnelineToken] has [cteOneline] and
    [cteOnelineDependency] off, so its own [appendToken] never reaches
    [handleCteOnelineToken]: the nested printing below it is never run. *)
Definition printOneline : t -> SqlPrintToken -> nat -> string :=
  printWith (fun _ _ _ => EmptyString).

Definition appendToken : t -> SqlPrintToken -> nat ->
    option SqlPrintTokenContainerType -> LinePrinter.t -> LinePrinter.t :=
  appendTokenWith printOneline.

Definition print : t -> SqlPrintToken -> nat -> string :=
  printWith printOneline.

End SqlPrinter.

(* ===================================================================== *)
(** * SqlFormatter *)
(* ===================================================================== *)

Inductive ParameterStyle := anonymous | indexed | named.

(** [string | { start, end }]. *)
Inductive ParameterSymbol :=
| SymbolText (s : string)
| SymbolPair (start end_ : string).

Record FormatterConfig := mkFormatterConfig {
  cfg_identifierEscape : option (string * string);
  cfg_parameterSymbol : option ParameterSymbol;
  cfg_parameterStyle : option ParameterStyle
}.

(** What [PRESETS[key]] evaluates to. *)
Inductive PresetLookup :=
| PresetConfig (config : FormatterConfig)
| InheritedMember
| Undefined.

(** The members every object literal inherits from [Object.prototype]. *)
Definition objectPrototypeKeys : list string :=
  [ "constructor"; "__proto__"; "hasOwnProperty"; "isPrototypeOf";
    "propertyIsEnumerable"; "toLocaleString"; "toString"; "valueOf";
    "__defineGetter__"; "__defineSetter__"; "__lookupGetter__";
    "__lookupSetter__" ].

Definition VALID_PRESETS : list string := ["mysql"; "postgres"; "sqlserver"; "sqlite"].

(** Modelled from the spec: the table [PRESETS] is declared in
    [SqlPrintTokenParser], which is not among the sources.  Its entries are
    the four dialect presets of the specification, with the identifier
    escape pair, parameter symbol and parameter style given there; as an
    object literal it also answers for the inherited members.  The table
    of the code may hold further presets. *)
Definition PRESETS (key : string) : PresetLookup :=
  if String.eqb key "postgres" then
    PresetConfig (mkFormatterConfig (Some (dq, dq)) (Some (SymbolText "$")) (Some indexed))
  else if String.eqb key "mysql" then
    PresetConfig (mkFormatterConfig (Some ("`", "`")) (Some (SymbolText "?")) (Some anonymous))
  else if String.eqb key "sqlite" then
    PresetConfig (mkFormatterConfig (Some (dq, dq)) (Some (SymbolText "?")) (Some anonymous))
  else if String.eqb key "sqlserver" then
    PresetConfig (mkFormatterConfig (Some ("[", "]")) (Some (SymbolText "@")) (Some named))
  else if includes objectPrototypeKeys key then InheritedMember
  else Undefined.

Module SqlFormatterOptions.

Record t := mk {
  preset : option string;
  identifierEscape : option (string * string);
  parameterSymbol : option ParameterSymbol;
  parameterStyle : option ParameterStyle;
  indentSize : option nat;
  indentChar : option string;
  newline : option string;
  keywordCase : option KeywordCase;
  commaBreak : option BreakStyle;
  andBreak : option BreakStyle;
  exportComment : option bool;
  strictCommentPlacement : option bool;
  cteOneline : option bool;
  cteOnelineDependency : option bool
}.

(** [{}], the default argument of the constructor. *)
Definition empty : t :=
  mk None None None None None None None None None None None None None None.

End SqlFormatterOptions.

(** The part of a dependency graph the formatter reads. *)
Record CTEDependencyGraph := mkGraph { leafNodes : list string }.

Module SqlFormatter.

(** The print-token lowering and the CTE dependency tracer are imported
    from files that are not among the sources; so are the node classes.
    The class collects what [format] asks of them. *)
Class Collaborators := {
  SqlComponent : Type;
  Params : Type;
  SqlPrintTokenParser_parse :
    FormatterConfig -> SqlComponent -> Result (SqlPrintToken * Params);
  instanceofSimpleSelectQuery : SqlComponent -> bool;
  CTEDependencyTracer_buildGraph : SqlComponent -> Result CTEDependencyGraph
}.

(** The two fields of a formatter: the options its lowering stage was
    built with, and its printer. *)
Record t := mk {
  parser : FormatterConfig;
  printer : SqlPrinter.t
}.

(** [options.preset] is truthy. *)
Definition truthyPreset (preset : option string) : option string :=
  match preset with
  | Some s => if String.eqb s EmptyString then None else Some s
  | None => None
  end.

(** [a ?? b] where [b] may be [undefined] as well. *)
Definition orElseOpt {A} (a b : option A) : option A :=
  match a with Some x => Some x | None => b end.

Definition printerOptions (options : SqlFormatterOptions.t)
    (cteOnelineSet : option (list string)) : SqlPrinterOptions.t :=
  SqlPrinterOptions.mk
    (SqlFormatterOptions.indentChar options)
    (SqlFormatterOptions.indentSize options)
    (SqlFormatterOptions.newline options)
    (SqlFormatterOptions.commaBreak options)
    (SqlFormatterOptions.andBreak options)
    (SqlFormatterOptions.keywordCase options)
    (SqlFormatterOptions.exportComment options)
    (SqlFormatterOptions.strictCommentPlacement options)
    None
    (SqlFormatterOptions.cteOneline options)
    (SqlFormatterOptions.cteOnelineDependency options)
    cteOnelineSet
    None.

(** The constructor, with the table [PRESETS] that it imports as a
    parameter: what the table holds is not known from the sources. *)
Definition newWith (PRESETS : string -> PresetLookup)
    (options : SqlFormatterOptions.t) : Result t :=
  let presetConfig :=
    match truthyPreset (SqlFormatterOptions.preset options) with
    | Some name => PRESETS name
    | None => Undefined
    end in
  match truthyPreset (SqlFormatterOptions.preset options), presetConfig with
  | Some name, Undefined => Throw (Error ("Invalid preset: " ++ name))
  | _, _ =>
      let config :=
        match presetConfig with
        | PresetConfig c => c
        | _ => mkFormatterConfig None None None
        end in
      let parserOptions :=
        mkFormatterConfig
          (orElseOpt (SqlFormatterOptions.identifierEscape options)
                     (cfg_identifierEscape config))
          (orElseOpt (SqlFormatterOptions.parameterSymbol options)
                     (cfg_parameterSymbol config))
          (orElseOpt (SqlFormatterOptions.parameterStyle options)
                     (cfg_parameterStyle config)) in
      let cteOnelineSet :=
        match SqlFormatterOptions.cteOnelineDependency options with
        | Some true => Some []
        | _ => None
        end in
      Ok (mk parserOptions (SqlPrinter.new (printerOptions options cteOnelineSet)))
  end.

(** The constructor with the table of the specification. *)
Definition new (options : SqlFormatterOptions.t) : Result t :=
  newWith PRESETS options.

Definition generateImportComments (cteNames : list string) : list string :=
  let CTE_FILE_EXTENSION := ".cte.sql" in
  map (fun cteName => ("/* import " ++ cteName ++ CTE_FILE_EXTENSION ++ " */")%string)
      cteNames.

Section Format.
Context {C : Collaborators}.

(** The [catch] block swallows whatever the tracer throws. *)
Definition findDirectlyReferencedCtes (query : SqlComponent) : list string :=
  match CTEDependencyTracer_buildGraph query with
  | Ok graph => leafNodes graph
  | _ => []
  end.

Record Formatted := mkFormatted {
  formattedSql : string;
  params : Params
}.

(** The printer as [format] leaves it before printing. *)
Definition preparePrinter (p : SqlPrinter.t) (sql : SqlComponent) : SqlPrinter.t :=
  if SqlPrinter.cteOnelineDependency p && instanceofSimpleSelectQuery sql then
    let directlyReferencedCtes := findDirectlyReferencedCtes sql in
    let importComments := generateImportComments directlyReferencedCtes in
    SqlPrinter.set_importComments importComments (SqlPrinter.set_cteOneline true p)
  else p.

(** [format] returns its result together with the formatter as the call
    leaves it: the assignments to the printer outlive the call. *)
Definition format (this : t) (sql : SqlComponent) : Result Formatted * t :=
  match SqlPrintTokenParser_parse (parser this) sql with
  | Ok (token, params) =>
      let printer' := preparePrinter (printer this) sql in
      let formattedSql := SqlPrinter.print printer' token 0 in
      (Ok (mkFormatted formattedSql params), mk (parser this) printer')
  | Throw e => (Throw e, this)
  | Timeout => (Timeout, this)
  end.

End Format.
End SqlFormatter.

(* ===================================================================== *)
(** * A small instance of the collaborators, for running the code *)
(* ===================================================================== *)

Module Fragment.

Definition isWordChar (c : ascii) : bool :=
  let n := nat_of_ascii c in
  (((65 <=? n) && (n <=? 90)) || ((97 <=? n) && (n <=? 122))
   || ((48 <=? n) && (n <=? 57)) || (n =? 95))%nat.

Definition isDigitChar (c : ascii) : bool :=
  let n := nat_of_ascii c in ((48 <=? n) && (n <=? 57))%nat.

Definition isPunctuation (c : ascii) : bool :=
  let n := nat_of_ascii c in
  ((n =? 40) || (n =? 41) || (n =? 44) || (n =? 46))%nat.

Definition flush (word : string) (acc : list string) : list string :=
  if String.eqb word EmptyString then acc else acc ++ [word].

(** Cuts the text into words and punctuation marks. *)
Fixpoint split (s : string) (word : string) (acc : list string)
  : Result (list string) :=
  match s with
  | EmptyString => Ok (flush word acc)
  | String c s' =>
      if isWordChar c then split s' (word ++ String c EmptyString) acc
      else if isSpaceChar c then split s' EmptyString (flush word acc)
      else if isPunctuation c then
        split s' EmptyString (flush word acc ++ [String c EmptyString])
      else Throw (mkJsError "TokenizeError" "Unknown character" [])
  end.

Definition keywords : list string :=
  [ "select"; "from"; "where"; "as"; "with"; "having"; "window"; "limit";
    "for"; "union"; "intersect"; "except"; "values"; "group"; "order";
    "by"; "all"; "and"; "or"; "not"; "group by"; "order by"; "union all" ].

Definition allDigits (s : string) : bool :=
  forallb isDigitChar (list_ascii_of_string s).

Fixpoint classify (raw : list string) : list Lexeme :=
  match raw with
  | [] => []
  | w :: rest =>
      let lx :=
        if String.eqb w "(" then mkLexeme OpenParen w
        else if String.eqb w ")" then mkLexeme CloseParen w
        else if String.eqb w "," then mkLexeme Comma w
        else if String.eqb w "." then mkLexeme Dot w
        else if allDigits w then mkLexeme Literal w
        else if includes keywords (toLowerCase w) then mkLexeme Keyword (toLowerCase w)
        else match rest with
             | next :: _ =>
                 if String.eqb next "(" then mkLexeme FunctionT w
                 else mkLexeme Identifier w
             | [] => mkLexeme Identifier w
             end in
      lx :: classify rest
  end.

(** Fuses two keywords that form a reserved phrase into one lexeme. *)
Fixpoint fuse (lexemes : list Lexeme) : list Lexeme :=
  match lexemes with
  | a :: rest =>
      match rest with
      | b :: rest' =>
          let phrase := (value a ++ " " ++ value b)%string in
          if typeIs Keyword a && typeIs Keyword b && includes keywords phrase
          then mkLexeme Keyword phrase :: fuse rest'
          else a :: fuse rest
      | [] => [a]
      end
  | [] => []
  end.

(** Modelled from the spec: [SqlTokenizer] is not among the sources.  This
    is the part of the tokenizer of the specification that the examples
    need: words, numbers, parentheses, commas and dots; keywords folded to
    lower case, identifiers as written, two-word phrases fused, a name
    directly before an opening parenthesis tagged as a function, unknown
    characters refused.  String literals, comments and operators are left
    out. *)
Definition readLexmes (query : string) : Result (list Lexeme) :=
  raw <- split query EmptyString [] ;;
  Ok (fuse (classify raw)).

Inductive Value :=
| ColumnReference (namespaces : list string) (column : string)
| LiteralValue (raw : string).

(** Modelled from the spec: [ValueParser] is not among the sources.  Of the
    expression grammar only two atoms are covered: a literal, and a column
    reference with at most one qualifier. *)
Definition ValueParser_Parse (lexemes : list Lexeme) (index : nat)
  : Result (Value * nat) :=
  match nth_error lexemes index with
  | None => Throw undefinedValue
  | Some lx =>
      if typeIs Literal lx then Ok (LiteralValue (value lx), S index)
      else if typeIs Identifier lx then
        if at_ lexemes (S index) (typeIs Dot)
           && at_ lexemes (S (S index)) (typeIs Identifier)
        then Ok (ColumnReference [value lx] (valueAt lexemes (S (S index))),
                 S (S (S index)))
        else Ok (ColumnReference [] (value lx), S index)
      else Throw (Error ("Invalid value at index " ++ toString index))
  end.

(** Modelled from the spec: [ValueParser.parseArgument] is not among the
    sources; here it reads one value between the two delimiters. *)
Definition ValueParser_parseArgument (open close : TokenType)
    (lexemes : list Lexeme) (index : nat) : Result (Value * nat) :=
  if at_ lexemes index (typeIs open) then
    ' (v, idx) <- ValueParser_Parse lexemes (S index) ;;
    if at_ lexemes idx (typeIs close) then Ok (v, S idx)
    else Throw (Error ("Expected closing parenthesis at index " ++ toString idx))
  else Throw (Error ("Expected opening parenthesis at index " ++ toString index)).

(** A clause parser that is not among the sources and that no example
    calls: it refuses its clause. *)
Definition unavailable (clause : string) (lexemes : list Lexeme) (index : nat)
  : Result (unit * nat) :=
  Throw (Error (clause ++ " is outside the fragment, at index " ++ toString index)).

(** The collaborators of [SelectQueryParser]: the select clause parser is
    the one of [SelectParser.ts]. *)
#[export] Instance parsers : SelectQueryParser.Collaborators := {|
  SelectQueryParser.ValueComponent := Value;
  SelectQueryParser.SelectClause := SelectClauseParser.SelectClause Value;
  SelectQueryParser.SqlTokenizer_readLexmes := readLexmes;
  SelectQueryParser.WithClauseParser_parse := unavailable "WITH";
  SelectQueryParser.SelectClauseParser_parse := SelectClauseParser.Parse ValueParser_Parse;
  SelectQueryParser.FromClauseParser_parse := unavailable "FROM";
  SelectQueryParser.WhereClauseParser_parse := unavailable "WHERE";
  SelectQueryParser.GroupByClauseParser_parse := unavailable "GROUP BY";
  SelectQueryParser.HavingClauseParser_parse := unavailable "HAVING";
  SelectQueryParser.WindowClauseParser_parse := unavailable "WINDOW";
  SelectQueryParser.OrderByClauseParser_parse := unavailable "ORDER BY";
  SelectQueryParser.LimitClauseParser_parse := unavailable "LIMIT";
  SelectQueryParser.ForClauseParser_parse := unavailable "FOR"
|}.

Definition lexemesOf (query : string) : list Lexeme :=
  match readLexmes query with
  | Ok lexemes => lexemes
  | _ => []
  end.

(** The index behind the parenthesis that closes the body of a common
    table: [rest] is what follows the opening parenthesis, [idx] the index
    of its first lexeme, [depth] the number of parentheses opened since. *)
Fixpoint closingParen (rest : list Lexeme) (idx depth : nat) : option nat :=
  match rest with
  | [] => None
  | lx :: rest' =>
      if typeIs OpenParen lx then closingParen rest' (S idx) (S depth)
      else if typeIs CloseParen lx then
        match depth with
        | 0 => Some (S idx)
        | S depth' => closingParen rest' (S idx) depth'
        end
      else closingParen rest' (S idx) depth
  end.

(** Modelled from the spec: [WithClauseParser] is not among the sources.
    Of the WITH clause only the extent of one common table is read,
    [with name as ( ... )] up to the parenthesis that closes the body; the
    value is the name of the table. *)
Definition WithClauseParser_parse (lexemes : list Lexeme) (index : nat)
  : Result (string * nat) :=
  if at_ lexemes index (lowerValueIs "with")
     && at_ lexemes (index + 1) (typeIs Identifier)
     && at_ lexemes (index + 2) (lowerValueIs "as")
     && at_ lexemes (index + 3) (typeIs OpenParen)
  then
    match closingParen (skipn (index + 4) lexemes) (index + 4) 0 with
    | Some newIndex => Ok (valueAt lexemes (index + 1), newIndex)
    | None =>
        Throw (Error ("Expected closing parenthesis at index "
                      ++ toString (List.length lexemes)))
    end
  else Throw (Error ("Expected a common table at index " ++ toString index)).

(** The collaborators [parsers], with this reader for the WITH clause. *)
Definition parsersWithClause : SelectQueryParser.Collaborators := {|
  SelectQueryParser.ValueComponent := Value;
  SelectQueryParser.SelectClause := SelectClauseParser.SelectClause Value;
  SelectQueryParser.SqlTokenizer_readLexmes := readLexmes;
  SelectQueryParser.WithClauseParser_parse := WithClauseParser_parse;
  SelectQueryParser.SelectClauseParser_parse := SelectClauseParser.Parse ValueParser_Parse;
  SelectQueryParser.FromClauseParser_parse := unavailable "FROM";
  SelectQueryParser.WhereClauseParser_parse := unavailable "WHERE";
  SelectQueryParser.GroupByClauseParser_parse := unavailable "GROUP BY";
  SelectQueryParser.HavingClauseParser_parse := unavailable "HAVING";
  SelectQueryParser.WindowClauseParser_parse := unavailable "WINDOW";
  SelectQueryParser.OrderByClauseParser_parse := unavailable "ORDER BY";
  SelectQueryParser.LimitClauseParser_parse := unavailable "LIMIT";
  SelectQueryParser.ForClauseParser_parse := unavailable "FOR"
|}.

End Fragment.

(* ===================================================================== *)
(** * Queries as the formatter's collaborators present them *)
(* ===================================================================== *)

Module Lowered.

Import SqlPrintToken.

(** A component together with what the absent collaborators answer about
    it: its print-token tree and parameter bag, whether it is an instance
    of [SimpleSelectQuery], and what the dependency tracer returns. *)
Record Component := mkComponent {
  token : SqlPrintToken;
  bag : list string;
  simpleSelect : bool;
  graph : Result CTEDependencyGraph
}.

#[export] Instance collaborators : SqlFormatter.Collaborators := {|
  SqlFormatter.SqlComponent := Component;
  SqlFormatter.Params := list string;
  SqlFormatter.SqlPrintTokenParser_parse := fun _ c => Ok (token c, bag c);
  SqlFormatter.instanceofSimpleSelectQuery := simpleSelect;
  SqlFormatter.CTEDependencyTracer_buildGraph := graph
|}.

Definition txt (ty : SqlPrintTokenType) (s : string) : SqlPrintToken :=
  SqlPrintToken.mk ty s NoContainer [] [].

Definition sp : SqlPrintToken := txt other " ".

(** A clause: a keyword token that is also a container. *)
Definition clause (kw : string) (ct : SqlPrintTokenContainerType)
    (inner : list SqlPrintToken) : SqlPrintToken :=
  SqlPrintToken.mk keyword kw ct [] (sp :: inner).

Definition group (ct : SqlPrintTokenContainerType) (inner : list SqlPrintToken)
  : SqlPrintToken :=
  SqlPrintToken.mk container EmptyString ct [] inner.

(** [name as (query)]. *)
Definition commonTable (name : string) (query : SqlPrintToken) : SqlPrintToken :=
  group CommonTable
    [ txt identifier name; sp; txt keyword "as"; sp; txt other "(";
      query; txt other ")" ].

(** [select id from users where active = true]. *)
Definition baseUsersQuery : SqlPrintToken :=
  group SimpleSelectQuery
    [ clause "select" SelectClause [txt identifier "id"]; sp;
      clause "from" FromClause [txt identifier "users"]; sp;
      clause "where" WhereClause
        [txt identifier "active"; sp; txt operator "="; sp; txt literal "true"] ].

(** [select b.id from base_users as b]. *)
Definition enrichedQuery : SqlPrintToken :=
  group SimpleSelectQuery
    [ clause "select" SelectClause [txt identifier "b.id"]; sp;
      clause "from" FromClause
        [txt identifier "base_users"; sp; txt keyword "as"; sp; txt identifier "b"] ].

Definition baseUsers : SqlPrintToken := commonTable "base_users" baseUsersQuery.
Definition enriched : SqlPrintToken := commonTable "enriched" enrichedQuery.

Definition withClause : SqlPrintToken :=
  clause "with" WithClause [ baseUsers; txt comma ","; sp; enriched ].

(** [with base_users as (...), enriched as (...) select * from enriched]:
    [enriched] is the only leaf of the dependency graph. *)
Definition enrichedSelectToken : SqlPrintToken :=
  group SimpleSelectQuery
    [ withClause; sp;
      clause "select" SelectClause [txt identifier "*"]; sp;
      clause "from" FromClause [txt identifier "enriched"] ].

Definition enrichedSelect : Component :=
  mkComponent enrichedSelectToken [] true (Ok (mkGraph ["enriched"])).

(** [with base_users as (...) select id from base_users union select id
    from archive]: a [BinarySelectQuery], not a [SimpleSelectQuery]. *)
Definition unionToken : SqlPrintToken :=
  group BinarySelectQuery
    [ group SimpleSelectQuery
        [ clause "with" WithClause [ baseUsers ]; sp;
          clause "select" SelectClause [txt identifier "id"]; sp;
          clause "from" FromClause [txt identifier "base_users"] ]; sp;
      SqlPrintToken.mk keyword "union" BinarySelectQueryOperator [] []; sp;
      group SimpleSelectQuery
        [ clause "select" SelectClause [txt identifier "id"]; sp;
          clause "from" FromClause [txt identifier "archive"] ] ].

Definition unionQuery : Component :=
  mkComponent unionToken [] false (Ok (mkGraph ["base_users"])).

(** [select * from users]. *)
Definition usersToken : SqlPrintToken :=
  group SimpleSelectQuery
    [ clause "select" SelectClause [txt identifier "*"]; sp;
      clause "from" FromClause [txt identifier "users"] ].

Definition lf : string := String "010"%char EmptyString.

(** [{ cteOnelineDependency: true, newline: '\n', indentSize, indentChar }]. *)
Definition dependencyOptions (indentChar : string) (indentSize : nat)
  : SqlFormatterOptions.t :=
  SqlFormatterOptions.mk None None None None (Some indentSize) (Some indentChar)
    (Some lf) None None None None None None (Some true).

(** [{ newline: '\n', indentSize, indentChar }]. *)
Definition prettyOptions (indentChar : string) (indentSize : nat)
  : SqlFormatterOptions.t :=
  SqlFormatterOptions.mk None None None None (Some indentSize) (Some indentChar)
    (Some lf) None None None None None None None.

(** The formatter a constructor call yields, when it does not throw. *)
Definition formatterOf (options : SqlFormatterOptions.t) : SqlFormatter.t :=
  match SqlFormatter.new options with
  | Ok f => f
  | _ => SqlFormatter.mk (mkFormatterConfig None None None)
           (SqlPrinter.new (SqlFormatter.printerOptions SqlFormatterOptions.empty None))
  end.

Definition sqlOf (r : Result SqlFormatter.Formatted * SqlFormatter.t) : string :=
  match fst r with
  | Ok f => SqlFormatter.formattedSql f
  | _ => EmptyString
  end.

End Lowered.

(* ===================================================================== *)
(** * RawSqlClient: file cache, column names, presets (src/unnamed/part_000) *)
(* ===================================================================== *)

Module RawSqlClient.

(** A value of type [any], as [isColumnConfig] and [extractColumnName]
    look at it: a string; an object, of which only the properties [column]
    and [from] are read; or any other value ([undefined], [null], a
    boolean, a number, ...), of which only the truthiness matters. *)
Inductive JsValue :=
| JString (s : string)
| JObject (column from : JsValue)
| JOther (truthy : bool).

(** [undefined], as the value of a property that is not there. *)
Definition JUndefined : JsValue := JOther false.

Definition truthy (v : JsValue) : bool :=
  match v with
  | JString s => negb (String.eqb s EmptyString)
  | JObject _ _ => true
  | JOther b => b
  end.

(** [typeof v === 'string']. *)
Definition isString (v : JsValue) : bool :=
  match v with JString _ => true | _ => false end.

(** The truthiness of what [isColumnConfig] returns. *)
Definition isColumnConfig (value : JsValue) : bool :=
  match value with
  | JObject column from => isString column || isString from
  | _ => false
  end.

(** [value.column] and [value.from]. *)
Definition columnOf (value : JsValue) : JsValue :=
  match value with JObject column _ => column | _ => JUndefined end.

Definition fromOf (value : JsValue) : JsValue :=
  match value with JObject _ from => from | _ => JUndefined end.

(** The warning written to the console in debug mode is not modelled. *)
Definition extractColumnName (key : string) (value : JsValue) : JsValue :=
  if isString value then value
  else if isColumnConfig value then
    if truthy (columnOf value) then columnOf value
    else if truthy (fromOf value) then fromOf value
    else JString key
  else JString key.

(** [provider] is [undefined] or a string; so is the result. *)
Definition getPresetFromProvider (provider : option string) : option string :=
  match provider with
  | None => None
  | Some p =>
      if String.eqb p EmptyString then None
      else
        let lower := toLowerCase p in
        if String.eqb lower "postgresql" || String.eqb lower "postgres" then Some "postgres"
        else if String.eqb lower "mysql" then Some "mysql"
        else if String.eqb lower "sqlite" then Some "sqlite"
        else if String.eqb lower "sqlserver" || String.eqb lower "mssql" then Some "sqlserver"
        else None
  end.

(** [new SqlFormatter({ preset: this.getPresetFromProvider(provider) })]. *)
Definition newFormatterFor (provider : option string) : Result SqlFormatter.t :=
  SqlFormatter.new
    (SqlFormatterOptions.mk (getPresetFromProvider provider)
       None None None None None None None None None None None None None).

(** The two options the cache helpers read: the truthiness of
    [enableFileCache], and [cacheMaxSize], a number of entries
    ([None] when the option is [undefined]). *)
Record Options := mkOptions {
  enableFileCache : bool;
  cacheMaxSize : option nat
}.

(** What the helpers ask of the file system: [fs.existsSync], and the
    [mtimeMs] of [fs.statSync], which throws for a missing file.
    Timestamps are milliseconds; they are only compared with each other,
    and are taken as integers here. *)
Record FileSystem := mkFileSystem {
  existsSync : string -> bool;
  mtimeMs : string -> Z
}.

Definition statSync (fs : FileSystem) (path : string) : Result Z :=
  if existsSync fs path then Ok (mtimeMs fs path)
  else Throw (Error ("ENOENT: no such file or directory, stat '" ++ path ++ "'")).

Section FileCache.

Variable T : Type.

Record CacheEntry := mkEntry { content : T; timestamp : Z }.

(** A [Map<string, { content, timestamp }>]: the entries in insertion
    order, each key once. *)
Definition Cache := list (string * CacheEntry).

Definition size (cache : Cache) : nat := List.length cache.

Definition get (cache : Cache) (key : string) : option CacheEntry :=
  option_map snd (find (fun kv => String.eqb (fst kv) key) cache).

Definition has (cache : Cache) (key : string) : bool :=
  match get cache key with Some _ => true | None => false end.

(** [cache.set(key, entry)]: a key that is present keeps its place. *)
Fixpoint set (key : string) (entry : CacheEntry) (cache : Cache) : Cache :=
  match cache with
  | [] => [(key, entry)]
  | kv :: rest =>
      if String.eqb (fst kv) key then (key, entry) :: rest
      else kv :: set key entry rest
  end.

Definition delete (key : string) (cache : Cache) : Cache :=
  filter (fun kv => negb (String.eqb (fst kv) key)) cache.

(** [entries.sort(([, a], [, b]) => a.timestamp - b.timestamp)]: oldest
    first; the sort is stable, entries with equal timestamps keep their
    order. *)
Fixpoint insertByTimestamp (kv : string * CacheEntry) (sorted : Cache) : Cache :=
  match sorted with
  | [] => [kv]
  | kv' :: rest =>
      if (timestamp (snd kv) <=? timestamp (snd kv'))%Z then kv :: sorted
      else kv' :: insertByTimestamp kv rest
  end.

Definition sortByTimestamp (cache : Cache) : Cache :=
  fold_right insertByTimestamp [] cache.

(** [Math.floor(maxSize * 0.9)], for sizes far below 2^53. *)
Definition targetSizeFor (maxSize : nat) : nat := 9 * maxSize / 10.

Definition evictCacheIfNeeded (options : Options) (cache : Cache) : Cache :=
  let maxSize := match cacheMaxSize options with Some n => n | None => 1000 end in
  if (maxSize =? 0)%nat || (size cache <=? maxSize)%nat then cache
  else
    let targetSize := targetSizeFor maxSize in
    let entriesToRemove := size cache - targetSize in
    if (entriesToRemove <=? 0)%nat then cache
    else
      let sortedEntries := sortByTimestamp cache in
      fold_left (fun cache kv => delete (fst kv) cache)
        (firstn entriesToRemove sortedEntries) cache.

(** Returns the cached content, or [undefined], and the cache as the call
    leaves it.  The parameters [originalPath] and [cacheType] are used in
    the debug messages only, which are not modelled. *)
Definition checkFileCache (options : Options) (fs : FileSystem) (cache : Cache)
    (actualPath : string) : option T * Cache :=
  if negb (enableFileCache options) || negb (has cache actualPath) then (None, cache)
  else if negb (existsSync fs actualPath) then (None, delete actualPath cache)
  else
    match get cache actualPath with
    | Some cachedEntry =>
        let currentTimestamp := mtimeMs fs actualPath in
        if (timestamp cachedEntry =? currentTimestamp)%Z
        then (Some (content cachedEntry), cache)
        else (None, delete actualPath cache)
    | None => (None, cache)
    end.

Definition setCacheEntry (options : Options) (fs : FileSystem) (cache : Cache)
    (actualPath : string) (content : T) : Result Cache :=
  if enableFileCache options then
    timestamp <- statSync fs actualPath ;;
    Ok (evictCacheIfNeeded options (set actualPath (mkEntry content timestamp) cache))
  else Ok cache.

End FileCache.
End RawSqlClient.

(* ===================================================================== *)
(** * Notions used in the statements *)
(* ===================================================================== *)

(** Induction on print tokens: the hypothesis for a token speaks of its
    keyword tokens and of its inner tokens. *)
Section TokenInduction.

Variable P : SqlPrintToken -> Prop.
Hypothesis step :
  forall ty txt ct kts its,
    Forall P kts -> Forall P its -> P (SqlPrintToken.mk ty txt ct kts its).

Fixpoint token_induction (token : SqlPrintToken) : P token :=
  match token with
  | SqlPrintToken.mk ty txt ct kts its =>
      let all :=
        fix all (ts : list SqlPrintToken) : Forall P ts :=
          match ts with
          | [] => Forall_nil P
          | child :: ts' => Forall_cons child (token_induction child) (all ts')
          end in
      step ty txt ct (all kts) (all its)
  end.

End TokenInduction.

(** [select a, b] as [parse] returns it under the [Fragment] instance. *)
Definition selectAB : SelectQueryParser.SelectQuery (C := Fragment.parsers) :=
  SelectQueryParser.SimpleSelect (C := Fragment.parsers) None
    (SelectClauseParser.mkSelectClause
       [ SelectClauseParser.Nameless (Fragment.ColumnReference [] "a");
         SelectClauseParser.Nameless (Fragment.ColumnReference [] "b") ])
    None None None None None None None None.

Definition setOperators : list string := ["union"; "union all"; "intersect"; "except"].

Definition selectA : SelectQueryParser.SelectQuery (C := Fragment.parsers) :=
  SelectQueryParser.SimpleSelect (C := Fragment.parsers) None
    (SelectClauseParser.mkSelectClause
       [ SelectClauseParser.Nameless (Fragment.ColumnReference [] "a") ])
    None None None None None None None None.

(** What C7 asks of the error thrown at the end of the input: a
    [ParseError] with [found = "end of input"] that also carries an
    offset, the expected alternatives and a context. *)
Definition isParseErrorAtEndOfInput (e : JsError) : Prop :=
  name e = "ParseError"
  /\ prop e "found" = Some "end of input"
  /\ prop e "offset" <> None
  /\ prop e "expected" <> None
  /\ prop e "context" <> None.

Definition endOfInputMessage (idx : nat) : string :=
  "Syntax error at position " ++ toString idx
  ++ ": Expected 'SELECT' keyword but found " ++ dq ++ "end of input" ++ dq
  ++ ". SELECT queries must start with the SELECT keyword.".

Definition withPreset (name : string) : SqlFormatterOptions.t :=
  SqlFormatterOptions.mk (Some name) None None None None None None None None
    None None None None None.


Definition importComment (cteName : string) : string :=
  "/* import " ++ cteName ++ ".cte.sql */".


(** [new SqlFormatter({ cteOnelineDependency: true, newline: '\n',
    indentSize: 2, indentChar: ' ' })]. *)
Definition dependencyFormatter : SqlFormatter.t :=
  Lowered.formatterOf (Lowered.dependencyOptions " " 2).

(** One of the clause parsers that [parse] calls throws [e] on these
    lexemes. *)
Definition thrownByClauseParser `{C : SelectQueryParser.Collaborators}
    (lexemes : list Lexeme) (e : JsError) : Prop :=
  exists i,
    SelectQueryParser.WithClauseParser_parse lexemes i = Throw e
    \/ SelectQueryParser.SelectClauseParser_parse lexemes i = Throw e
    \/ SelectQueryParser.FromClauseParser_parse lexemes i = Throw e
    \/ SelectQueryParser.WhereClauseParser_parse lexemes i = Throw e
    \/ SelectQueryParser.GroupByClauseParser_parse lexemes i = Throw e
    \/ SelectQueryParser.HavingClauseParser_parse lexemes i = Throw e
    \/ SelectQueryParser.WindowClauseParser_parse lexemes i = Throw e
    \/ SelectQueryParser.OrderByClauseParser_parse lexemes i = Throw e
    \/ SelectQueryParser.LimitClauseParser_parse lexemes i = Throw e
    \/ SelectQueryParser.ForClauseParser_parse lexemes i = Throw e.

(** The keywords that open the clauses [parse] looks for after the select
    clause. *)
Definition clauseKeywords : list string :=
  ["from"; "where"; "group by"; "having"; "window"; "order by"; "limit"; "for"].

(** [first (. name)*] *)
Definition qualifiedName (first : Lexeme) (names : list string) : list Lexeme :=
  first :: flat_map (fun name => [mkLexeme Dot "."; mkLexeme Identifier name]) names.

(** The lexemes do not go on with a dot and an identifier. *)
Definition endsName (rest : list Lexeme) : Prop :=
  at_ rest 0 (typeIs Dot) && at_ rest 1 (typeIs Identifier) = false.

(** [depth] opening parentheses, the last one at [index + depth - 1],
    enclose the subquery that starts at [index + depth]. *)
Definition nestedSubQuery (VC SQ : Type)
    (sel : list Lexeme -> nat -> Result (SQ * nat))
    (lexemes : list Lexeme) (index depth : nat)
    (v : SourceParser.SourceComponent VC SQ) (n : nat) : Prop :=
  exists q m,
    1 <= depth
    /\ (forall i, 1 <= i < depth ->
          at_ lexemes (index + i)
            (fun lx => typeIs OpenParen lx && negb (valueIs "select" lx)) = true)
    /\ at_ lexemes (index + depth) (valueIs "select") = true
    /\ sel lexemes (index + depth) = Ok (q, m)
    /\ v = SourceParser.SubQuerySource VC q
    /\ n = m + depth
    /\ (forall i, i < depth -> at_ lexemes (m + i) (typeIs CloseParen) = true).

(** The errors that [parseParenSource] throws itself, for the index [i]. *)
Definition parenSourceError (i : nat) (e : JsError) : Prop :=
  e = Error ("Unexpected end of input at index " ++ toString i)
  \/ e = Error ("Expected 'SELECT' or '(' at index " ++ toString i)
  \/ e = Error ("Expected closing parenthesis at index " ++ toString i).

(** [printer.strictCommentPlacement = b] *)
Definition set_strictCommentPlacement (b : bool) (p : SqlPrinter.t) : SqlPrinter.t :=
  SqlPrinter.mk (SqlPrinter.indentChar p) (SqlPrinter.indentSize p)
    (SqlPrinter.newline p) (SqlPrinter.commaBreak p) (SqlPrinter.andBreak p)
    (SqlPrinter.keywordCase p) (SqlPrinter.exportComment p) b
    (SqlPrinter.cteOneline p) (SqlPrinter.cteOnelineDependency p)
    (SqlPrinter.cteOnelineSet p) (SqlPrinter.importComments p)
    (SqlPrinter.indentIncrementContainers p).

(** The options with [strictCommentPlacement] replaced. *)
Definition withStrictCommentPlacement (b : option bool) (o : SqlFormatterOptions.t)
  : SqlFormatterOptions.t :=
  SqlFormatterOptions.mk
    (SqlFormatterOptions.preset o)
    (SqlFormatterOptions.identifierEscape o) (SqlFormatterOptions.parameterSymbol o)
    (SqlFormatterOptions.parameterStyle o) (SqlFormatterOptions.indentSize o)
    (SqlFormatterOptions.indentChar o) (SqlFormatterOptions.newline o)
    (SqlFormatterOptions.keywordCase o) (SqlFormatterOptions.commaBreak o)
    (SqlFormatterOptions.andBreak o) (SqlFormatterOptions.exportComment o)
    b (SqlFormatterOptions.cteOneline o)
    (SqlFormatterOptions.cteOnelineDependency o).

(** The formatter after [format] has been called on each query of
    [history] in turn. *)
Definition formatAll `{C : SqlFormatter.Collaborators} (this : SqlFormatter.t)
    (history : list SqlFormatter.SqlComponent) : SqlFormatter.t :=
  fold_left (fun f sql => snd (SqlFormatter.format f sql)) history this.

(** A printer with the two fields that [format] assigns put back to their
    initial values. *)
Definition resetDependencyState (p : SqlPrinter.t) : SqlPrinter.t :=
  SqlPrinter.set_importComments [] (SqlPrinter.set_cteOneline false p).

(** A configuration object as its TypeScript type describes it: [column]
    and [from] are strings or missing. *)
Definition stringOrMissing (v : RawSqlClient.JsValue) : Prop :=
  RawSqlClient.isString v = true \/ v = RawSqlClient.JUndefined.

(** ** The file cache of [RawSqlClient] *)

(** [this.options.cacheMaxSize ?? 1000]. *)
Definition maxSizeOf (options : RawSqlClient.Options) : nat :=
  match RawSqlClient.cacheMaxSize options with Some n => n | None => 1000 end.

Section CacheNotions.

Variable T : Type.

(** The keys of a cache, in insertion order. *)
Definition keys (cache : RawSqlClient.Cache T) : list string := map fst cache.

(** The entry [a] is not more recent than the entry [b]. *)
Definition olderOrEqual (a b : string * RawSqlClient.CacheEntry T) : Prop :=
  (RawSqlClient.timestamp (snd a) <= RawSqlClient.timestamp (snd b))%Z.

(** [entriesToRemove], when the cache is over its limit. *)
Definition entriesToRemove (options : RawSqlClient.Options)
    (cache : RawSqlClient.Cache T) : nat :=
  RawSqlClient.size cache - RawSqlClient.targetSizeFor (maxSizeOf options).

(** The keys [evictCacheIfNeeded] deletes, when the cache is over its
    limit. *)
Definition evictedKeys (options : RawSqlClient.Options)
    (cache : RawSqlClient.Cache T) : list string :=
  keys (firstn (entriesToRemove options cache) (RawSqlClient.sortByTimestamp cache)).

(** The cache has a limit and holds more entries than that. *)
Definition overLimit (options : RawSqlClient.Options)
    (cache : RawSqlClient.Cache T) : bool :=
  negb ((maxSizeOf options =? 0)%nat
        || (RawSqlClient.size cache <=? maxSizeOf options)%nat).

End CacheNotions.

(** A cache limited to two entries, a few SQL files and caches of their
    contents, for running the cache helpers. *)
Definition twoEntries : RawSqlClient.Options :=
  RawSqlClient.mkOptions true (Some 2).

Definition sqlFiles : RawSqlClient.FileSystem :=
  RawSqlClient.mkFileSystem
    (fun path => negb (String.eqb path "gone.sql"))
    (fun path => if String.eqb path "old.sql" then 1%Z else 20%Z).

Definition threeFiles : RawSqlClient.Cache string :=
  [("a.sql", RawSqlClient.mkEntry "select a" 30%Z);
   ("b.sql", RawSqlClient.mkEntry "select b" 10%Z);
   ("c.sql", RawSqlClient.mkEntry "select c" 20%Z)].

Definition twoFiles : RawSqlClient.Cache string :=
  [("a.sql", RawSqlClient.mkEntry "select a" 30%Z);
   ("gone.sql", RawSqlClient.mkEntry "select 1" 20%Z)].

Definition oneFile : RawSqlClient.Cache string :=
  [("c.sql", RawSqlClient.mkEntry "select c" 20%Z)].

(* ===================================================================== *)
(** * Properties *)
(* ===================================================================== *)

Lemma fold_left_ext_Forall {A B} (f g : A -> B -> A) (l : list B) :
  Forall (fun b => forall a, f a b = g a b) l ->
  forall a, fold_left f l a = fold_left g l a.
Proof.
  induction 1 as [|b l Hb _ IH]; intro a; simpl.
  - reflexivity.
  - rewrite Hb. apply IH.
Qed.

(** ** The nested printer of [handleCteOnelineToken] *)

Lemma onelinePrinter_cteOneline p :
  SqlPrinter.cteOneline (SqlPrinter.onelinePrinter p) = false.
Proof. reflexivity. Qed.

Lemma onelinePrinter_cteOnelineDependency p :
  SqlPrinter.cteOnelineDependency (SqlPrinter.onelinePrinter p) = false.
Proof. reflexivity. Qed.

Lemma onelinePrinter_newline p :
  SqlPrinter.newline (SqlPrinter.onelinePrinter p) = " ".
Proof. reflexivity. Qed.

Lemma shouldFormatCteOneline_off p token :
  SqlPrinter.cteOneline p = false ->
  SqlPrinter.cteOnelineDependency p = false ->
  SqlPrinter.shouldFormatCteOneline p token = false.
Proof.
  intros H1 H2. unfold SqlPrinter.shouldFormatCteOneline. now rewrite H1, H2.
Qed.

(** A printer with both flags off never asks for nested printing. *)
Lemma appendTokenWith_flags_off f g token :
  forall p level parent lp,
    SqlPrinter.cteOneline p = false ->
    SqlPrinter.cteOnelineDependency p = false ->
    SqlPrinter.appendTokenWith f p token level parent lp
    = SqlPrinter.appendTokenWith g p token level parent lp.
Proof.
  induction token as [ty txt ct kts its IHk IHi] using token_induction.
  intros p level parent lp H1 H2.
  assert (EK : forall lvl lp0,
    fold_left (fun lp1 child => SqlPrinter.appendTokenWith f p child lvl (Some ct) lp1) kts lp0
    = fold_left (fun lp1 child => SqlPrinter.appendTokenWith g p child lvl (Some ct) lp1) kts lp0).
  { intros lvl lp0. apply fold_left_ext_Forall.
    eapply Forall_impl; [|exact IHk]. intros child Hc a. now apply Hc. }
  assert (EI : forall lvl lp0,
    fold_left (fun lp1 child => SqlPrinter.appendTokenWith f p child lvl (Some ct) lp1) its lp0
    = fold_left (fun lp1 child => SqlPrinter.appendTokenWith g p child lvl (Some ct) lp1) its lp0).
  { intros lvl lp0. apply fold_left_ext_Forall.
    eapply Forall_impl; [|exact IHi]. intros child Hc a. now apply Hc. }
  cbn [SqlPrinter.appendTokenWith].
  rewrite shouldFormatCteOneline_off by assumption. rewrite andb_false_r.
  rewrite !EK, !EI. reflexivity.
Qed.

Lemma printWith_flags_off f g p token level :
  SqlPrinter.cteOneline p = false ->
  SqlPrinter.cteOnelineDependency p = false ->
  SqlPrinter.printWith f p token level = SqlPrinter.printWith g p token level.
Proof.
  intros H1 H2. unfold SqlPrinter.printWith.
  now rewrite (@appendTokenWith_flags_off f g token p level None _ H1 H2).
Qed.

(** The recursion of the source: the nested printing is [print] itself, run
    by the one-line printer. *)
Lemma handleCteOnelineToken_print p token level lp :
  SqlPrinter.handleCteOnelineToken SqlPrinter.printOneline p token level lp
  = LinePrinter.appendText
      (SqlPrinter.print (SqlPrinter.onelinePrinter p) token level) lp.
Proof.
  unfold SqlPrinter.handleCteOnelineToken, SqlPrinter.print, SqlPrinter.printOneline.
  f_equal. apply printWith_flags_off; reflexivity.
Qed.

(** ** Parser routines *)

Lemma at_out_of_range lexemes idx test :
  List.length lexemes <= idx -> at_ lexemes idx test = false.
Proof.
  intros H. unfold at_. apply nth_error_None in H. now rewrite H.
Qed.

(** Case analysis on the steps of a routine written in the [Result] monad. *)
Ltac bind_cases H :=
  repeat match type of H with
  | Js.bind ?r _ = _ =>
      let E := fresh "E" in
      destruct r as [[? ?]| |] eqn:E; simpl in H; try discriminate H
  | (if ?b then _ else _) = _ =>
      let E := fresh "E" in
      destruct b eqn:E; try discriminate H
  end.

(** *** The iteration budget of [SelectClauseParser.Parse]

    A value parser that returns, and that moves its cursor forward when it
    succeeds, never lets the loop of [Parse] run out of budget. *)

Section ParseBudget.

Variable VC : Type.
Variable valueParser : list Lexeme -> nat -> Result (VC * nat).
Hypothesis returns : forall lexemes i, valueParser lexemes i <> Timeout.
Hypothesis advances :
  forall lexemes i v n, valueParser lexemes i = Ok (v, n) -> i < n.

Lemma ParseItem_advances lexemes index item newIndex :
  SelectClauseParser.ParseItem valueParser lexemes index = Ok (item, newIndex) ->
  index < newIndex.
Proof.
  unfold SelectClauseParser.ParseItem. intros H.
  destruct (valueParser lexemes index) as [[v n]| |] eqn:E; simpl in H;
    try discriminate H.
  apply advances in E.
  destruct (at_ lexemes n (valueIs "as"));
    match type of H with (if ?b then _ else _) = _ => destruct b end;
    inversion H; subst; lia.
Qed.

Lemma ParseItem_returns lexemes index :
  SelectClauseParser.ParseItem valueParser lexemes index <> Timeout.
Proof.
  unfold SelectClauseParser.ParseItem.
  destruct (valueParser lexemes index) as [[v n]| |] eqn:E; simpl.
  - destruct (at_ lexemes n (valueIs "as"));
      match goal with |- (if ?b then _ else _) <> _ => destruct b end;
      discriminate.
  - discriminate.
  - now apply returns in E.
Qed.

Lemma ParseLoop_returns lexemes fuel :
  forall items idx,
    List.length lexemes <= idx + fuel ->
    SelectClauseParser.ParseLoop valueParser fuel lexemes items idx <> Timeout.
Proof.
  induction fuel as [|fuel IH]; intros items idx Hfuel.
  - simpl. rewrite at_out_of_range by lia. discriminate.
  - simpl. destruct (at_ lexemes idx (typeIs Comma)); [|discriminate].
    destruct (SelectClauseParser.ParseItem valueParser lexemes (S idx))
      as [[item newIndex]| |] eqn:E; simpl.
    + apply IH. apply ParseItem_advances in E. lia.
    + discriminate.
    + now apply ParseItem_returns in E.
Qed.

Lemma Parse_returns lexemes index :
  SelectClauseParser.Parse valueParser lexemes index <> Timeout.
Proof.
  unfold SelectClauseParser.Parse.
  destruct (nth_error lexemes index) as [lx|]; [|discriminate].
  destruct (negb (valueIs "select" lx)); [discriminate|].
  destruct (SelectClauseParser.ParseItem valueParser lexemes (S index))
    as [[item idx]| |] eqn:E; simpl.
  - destruct (SelectClauseParser.ParseLoop valueParser (List.length lexemes)
                lexemes [item] idx) as [[items idx']| |] eqn:EL; simpl.
    + destruct (List.length items =? 0)%nat; discriminate.
    + discriminate.
    + apply ParseLoop_returns in EL; [contradiction|lia].
  - discriminate.
  - now apply ParseItem_returns in E.
Qed.

End ParseBudget.

Lemma optionalClause_out_of_range `{C : SelectQueryParser.Collaborators} {A}
    kw (parser : list Lexeme -> nat -> Result (A * nat)) lexemes idx :
  List.length lexemes <= idx ->
  SelectQueryParser.optionalClause kw parser lexemes idx = Ok (None, idx).
Proof.
  intros H. unfold SelectQueryParser.optionalClause.
  now rewrite at_out_of_range.
Qed.

(** [parse] only ever builds the node [new SelectQuery(...)]. *)
Lemma parse_builds_SimpleSelect `{C : SelectQueryParser.Collaborators}
    lexemes index q n :
  SelectQueryParser.parse lexemes index = Ok (q, n) ->
  SelectQueryParser.isSimpleSelect q = true
  /\ SelectQueryParser.isBinarySelect q = false.
Proof.
  intros H. unfold SelectQueryParser.parse in H.
  bind_cases H. inversion H; subst. split; reflexivity.
Qed.

Lemma parseFromText_trailing `{C : SelectQueryParser.Collaborators}
    query lexemes q n :
  SelectQueryParser.SqlTokenizer_readLexmes query = Ok lexemes ->
  SelectQueryParser.parse lexemes 0 = Ok (q, n) ->
  n < List.length lexemes ->
  SelectQueryParser.parseFromText query
  = Throw (SelectQueryParser.unexpectedToken lexemes n).
Proof.
  intros HT HP Hn. unfold SelectQueryParser.parseFromText.
  rewrite HT. simpl. rewrite HP. simpl.
  apply Nat.ltb_lt in Hn. now rewrite Hn.
Qed.

Lemma parseFromText_ok `{C : SelectQueryParser.Collaborators} query q :
  SelectQueryParser.parseFromText query = Ok q ->
  exists lexemes n,
    SelectQueryParser.SqlTokenizer_readLexmes query = Ok lexemes
    /\ SelectQueryParser.parse lexemes 0 = Ok (q, n)
    /\ List.length lexemes <= n.
Proof.
  unfold SelectQueryParser.parseFromText. intros H.
  destruct (SelectQueryParser.SqlTokenizer_readLexmes query)
    as [lexemes| |] eqn:HT; simpl in H; try discriminate H.
  destruct (SelectQueryParser.parse lexemes 0) as [[v n]| |] eqn:HP;
    simpl in H; try discriminate H.
  destruct (n <? List.length lexemes)%nat eqn:Hn; try discriminate H.
  inversion H; subst. exists lexemes, n.
  split; [reflexivity|]. split; [exact HP|]. apply Nat.ltb_ge. exact Hn.
Qed.

Lemma parseParenSource_unfold (VC SQ : Type)
    (sel : list Lexeme -> nat -> Result (SQ * nat)) lexemes index :
  SourceParser.parseParenSource VC sel lexemes index =
  match nth_error lexemes (S index) with
  | None => Throw (Error ("Unexpected end of input at index " ++ toString (S index)))
  | Some lx =>
      if valueIs "select" lx then
        result <- SourceParser.parseSubQuerySource VC sel lexemes (S index) ;;
        SourceParser.closeParen lexemes result
      else if typeIs OpenParen lx then
        result <- SourceParser.parseParenSource VC sel lexemes (S index) ;;
        SourceParser.closeParen lexemes result
      else Throw (Error ("Expected 'SELECT' or '(' at index " ++ toString (S index)))
  end.
Proof.
  funelim (SourceParser.parseParenSource VC sel lexemes index);
    match goal with e : nth_error _ _ = _ |- _ => rewrite e end; reflexivity.
Qed.

(** C9: [SelectQueryParser.parseFromText] never ignores trailing input.  If
    [parse] returns with lexemes left over, the call throws the
    "Unexpected token" error; if the call returns a query, [parse] returned
    it with its cursor at (or beyond) the end of the lexemes the tokenizer
    produced. *)
Theorem C9_parseFromText_consumes_all_lexemes :
  forall (C : SelectQueryParser.Collaborators) (query : string),
    (forall lexemes q n,
        SelectQueryParser.SqlTokenizer_readLexmes query = Ok lexemes ->
        SelectQueryParser.parse lexemes 0 = Ok (q, n) ->
        n < List.length lexemes ->
        SelectQueryParser.parseFromText query
        = Throw (SelectQueryParser.unexpectedToken lexemes n))
    /\ (forall q,
        SelectQueryParser.parseFromText query = Ok q ->
        exists lexemes n,
          SelectQueryParser.SqlTokenizer_readLexmes query = Ok lexemes
          /\ SelectQueryParser.parse lexemes 0 = Ok (q, n)
          /\ List.length lexemes <= n).
Proof.
  intros C query. split.
  - intros lexemes q n. apply parseFromText_trailing.
  - intros q. apply parseFromText_ok.
Qed.

Lemma C9_parseFromText_consumes_all_lexemes_witness :
  SelectQueryParser.parseFromText (C := Fragment.parsers) "select a union select b"
  = Throw (SelectQueryParser.unexpectedToken
             (Fragment.lexemesOf "select a union select b") 2)
  /\ exists lexemes n,
       Fragment.readLexmes "select a, b" = Ok lexemes
       /\ SelectQueryParser.parse (C := Fragment.parsers) lexemes 0 = Ok (selectAB, n)
       /\ List.length lexemes <= n.
Proof.
  split.
  - eapply (proj1 (C9_parseFromText_consumes_all_lexemes
                     Fragment.parsers "select a union select b")).
    + reflexivity.
    + reflexivity.
    + simpl. lia.
  - apply (proj2 (C9_parseFromText_consumes_all_lexemes
                    Fragment.parsers "select a, b")).
    reflexivity.
Defined.

(** C5 (as the code has it): [SelectQueryParser.parse] has no production
    for set operators.  Whatever it returns is the [SimpleSelect] node,
    never a [BinarySelect]; when the lexeme at the returned cursor is
    UNION, UNION ALL, INTERSECT or EXCEPT it has not been consumed, and
    [parseFromText] throws the "Unexpected token" error for it. *)
Theorem C5_parse_stops_before_set_operator :
  forall (C : SelectQueryParser.Collaborators) (query : string)
         (lexemes : list Lexeme) (q : SelectQueryParser.SelectQuery)
         (n : nat) (lx : Lexeme),
    SelectQueryParser.SqlTokenizer_readLexmes query = Ok lexemes ->
    SelectQueryParser.parse lexemes 0 = Ok (q, n) ->
    nth_error lexemes n = Some lx ->
    In (toLowerCase (value lx)) setOperators ->
    SelectQueryParser.isSimpleSelect q = true
    /\ SelectQueryParser.isBinarySelect q = false
    /\ SelectQueryParser.parseFromText query
       = Throw (SelectQueryParser.unexpectedToken lexemes n).
Proof.
  intros C query lexemes q n lx HT HP Hlx _.
  destruct (parse_builds_SimpleSelect _ _ HP) as [Hs Hb].
  repeat split; try assumption.
  eapply parseFromText_trailing; eauto.
  apply nth_error_Some. congruence.
Qed.

Lemma C5_parse_stops_before_set_operator_witness :
  SelectQueryParser.isSimpleSelect selectA = true
  /\ SelectQueryParser.isBinarySelect selectA = false
  /\ SelectQueryParser.parseFromText (C := Fragment.parsers) "select a union select b"
     = Throw (SelectQueryParser.unexpectedToken
                (Fragment.lexemesOf "select a union select b") 2).
Proof.
  apply (@C5_parse_stops_before_set_operator Fragment.parsers
           "select a union select b"
           (Fragment.lexemesOf "select a union select b")
           selectA 2 (mkLexeme Keyword "union")).
  - reflexivity.
  - reflexivity.
  - reflexivity.
  - simpl. auto.
Defined.

(** C5, as stated, fails on [select a union select b]: the lexeme after the
    completed select is [union], and the result of [parse] is the plain
    select with the cursor still on [union], not a [BinarySelect]; the
    text as a whole is refused. *)
Lemma C5_set_operator_counterexample :
  at_ (Fragment.lexemesOf "select a union select b") 2 (lowerValueIs "union") = true
  /\ SelectQueryParser.parse (C := Fragment.parsers)
       (Fragment.lexemesOf "select a union select b") 0 = Ok (selectA, 2)
  /\ ~ (exists op left right n,
          SelectQueryParser.parse (C := Fragment.parsers)
            (Fragment.lexemesOf "select a union select b") 0
          = Ok (SelectQueryParser.BinarySelect op left right, n))
  /\ isOk (SelectQueryParser.parseFromText (C := Fragment.parsers)
             "select a union select b") = false.
Proof.
  assert (E : SelectQueryParser.parse (C := Fragment.parsers)
                (Fragment.lexemesOf "select a union select b") 0
              = Ok (selectA, 2)) by reflexivity.
  repeat split; try exact E.
  intros (op & left & right & n & H). rewrite E in H. discriminate H.
Qed.

(** C6 (as the code has it): after an opening parenthesis the source
    parser accepts [select] or another opening parenthesis and nothing
    else.  A lexeme such as [values] in that place makes
    [parseParenSource], and so [SourceParser.parse], throw
    "Expected 'SELECT' or '(' at index i". *)
Theorem C6_paren_source_accepts_only_select :
  forall (VC SQ : Type)
         (sel : list Lexeme -> nat -> Result (SQ * nat))
         (arg : TokenType -> TokenType -> list Lexeme -> nat -> Result (VC * nat))
         (lexemes : list Lexeme) (index : nat) (lx : Lexeme),
    at_ lexemes index (typeIs OpenParen) = true ->
    nth_error lexemes (S index) = Some lx ->
    valueIs "select" lx = false ->
    typeIs OpenParen lx = false ->
    SourceParser.parse sel arg lexemes index
    = Throw (Error ("Expected 'SELECT' or '(' at index " ++ toString (S index))).
Proof.
  intros VC SQ sel arg lexemes index lx Hopen Hlx Hsel Hparen.
  unfold SourceParser.parse. rewrite Hopen.
  rewrite parseParenSource_unfold, Hlx, Hsel, Hparen. reflexivity.
Qed.

Lemma C6_paren_source_accepts_only_select_witness :
  SourceParser.parse (SelectQueryParser.parse (C := Fragment.parsers))
    Fragment.ValueParser_parseArgument (Fragment.lexemesOf "(values (1))") 0
  = Throw (Error "Expected 'SELECT' or '(' at index 1").
Proof.
  apply (@C6_paren_source_accepts_only_select _ _
           (SelectQueryParser.parse (C := Fragment.parsers))
           Fragment.ValueParser_parseArgument
           (Fragment.lexemesOf "(values (1))") 0 (mkLexeme Keyword "values"));
    reflexivity.
Defined.

(** C6, as stated, fails on [(values (1))]: the lexeme after the opening
    parenthesis begins a VALUES query, and the source parser throws
    instead of returning a source node. *)
Lemma C6_values_source_counterexample :
  at_ (Fragment.lexemesOf "(values (1))") 0 (typeIs OpenParen) = true
  /\ at_ (Fragment.lexemesOf "(values (1))") 1 (lowerValueIs "values") = true
  /\ SourceParser.parse (SelectQueryParser.parse (C := Fragment.parsers))
       Fragment.ValueParser_parseArgument (Fragment.lexemesOf "(values (1))") 0
     = Throw (Error "Expected 'SELECT' or '(' at index 1")
  /\ isOk (SourceParser.parse (SelectQueryParser.parse (C := Fragment.parsers))
             Fragment.ValueParser_parseArgument
             (Fragment.lexemesOf "(values (1))") 0) = false.
Proof. repeat split. Qed.

(** C7 (as the code has it): where the lexemes end in the middle of a
    production, the two routines throw a plain [Error] that carries a
    message and nothing else.  [SelectQueryParser.parse], where it needs
    SELECT, at the start or after a WITH clause that has been read,
    reports the position and [found "end of input"] in the message text.
    [parseParenSource] reports "Unexpected end of input at index i" right
    after the opening parenthesis, and "Expected closing parenthesis at
    index i" where the subquery, or the nested parenthesised source, ends
    with the lexemes. *)
Theorem C7_end_of_input_errors :
  forall (C : SelectQueryParser.Collaborators) (VC SQ : Type)
         (sel : list Lexeme -> nat -> Result (SQ * nat)),
    (forall (lexemes : list Lexeme) (idx : nat),
        List.length lexemes <= idx ->
        SelectQueryParser.parse lexemes idx
        = Throw (mkJsError "Error" (endOfInputMessage idx) []))
    /\ (forall (lexemes : list Lexeme) (index : nat)
               (withClause : SelectQueryParser.WithClause) (idx : nat),
        at_ lexemes index (lowerValueIs "with") = true ->
        SelectQueryParser.WithClauseParser_parse lexemes index = Ok (withClause, idx) ->
        List.length lexemes <= idx ->
        SelectQueryParser.parse lexemes index
        = Throw (mkJsError "Error" (endOfInputMessage idx) []))
    /\ (forall (lexemes : list Lexeme) (index : nat),
        List.length lexemes <= S index ->
        SourceParser.parseParenSource VC sel lexemes index
        = Throw (mkJsError "Error"
                   ("Unexpected end of input at index " ++ toString (S index)) []))
    /\ (forall (lexemes : list Lexeme) (index : nat) (q : SQ) (m : nat),
        at_ lexemes (S index) (valueIs "select") = true ->
        sel lexemes (S index) = Ok (q, m) ->
        List.length lexemes <= m ->
        SourceParser.parseParenSource VC sel lexemes index
        = Throw (mkJsError "Error"
                   ("Expected closing parenthesis at index " ++ toString m) []))
    /\ (forall (lexemes : list Lexeme) (index : nat)
               (v : SourceParser.SourceComponent VC SQ) (n : nat),
        at_ lexemes (S index) (valueIs "select") = false ->
        at_ lexemes (S index) (typeIs OpenParen) = true ->
        SourceParser.parseParenSource VC sel lexemes (S index) = Ok (v, n) ->
        List.length lexemes <= n ->
        SourceParser.parseParenSource VC sel lexemes index
        = Throw (mkJsError "Error"
                   ("Expected closing parenthesis at index " ++ toString n) [])).
Proof.
  intros C VC SQ sel.
  split; [|split; [|split; [|split]]].
  - intros lexemes idx H. unfold SelectQueryParser.parse.
    rewrite optionalClause_out_of_range by assumption. simpl.
    rewrite at_out_of_range by assumption. simpl.
    unfold SelectQueryParser.expectedSelect, endOfInputMessage, Error.
    apply Nat.ltb_ge in H. now rewrite H.
  - intros lexemes index withClause idx Hwith Hparse H.
    unfold SelectQueryParser.parse, SelectQueryParser.optionalClause.
    rewrite Hwith, Hparse. simpl.
    rewrite at_out_of_range by assumption. simpl.
    unfold SelectQueryParser.expectedSelect, endOfInputMessage, Error.
    apply Nat.ltb_ge in H. now rewrite H.
  - intros lexemes index H. rewrite parseParenSource_unfold.
    apply nth_error_None in H. now rewrite H.
  - intros lexemes index q m Hsel Hq H. rewrite parseParenSource_unfold.
    unfold at_ in Hsel.
    destruct (nth_error lexemes (S index)) as [lx|]; [|discriminate Hsel].
    rewrite Hsel. unfold SourceParser.parseSubQuerySource. rewrite Hq. simpl.
    unfold SourceParser.closeParen. now rewrite at_out_of_range by assumption.
  - intros lexemes index v n Hsel Hopen Hv H. rewrite parseParenSource_unfold.
    unfold at_ in Hsel, Hopen.
    destruct (nth_error lexemes (S index)) as [lx|]; [|discriminate Hopen].
    rewrite Hsel, Hopen, Hv. simpl.
    unfold SourceParser.closeParen. now rewrite at_out_of_range by assumption.
Qed.

Lemma C7_end_of_input_errors_witness :
  SelectQueryParser.parse (C := Fragment.parsers) (Fragment.lexemesOf "with") 1
  = Throw (mkJsError "Error" (endOfInputMessage 1) [])
  /\ SelectQueryParser.parse (C := Fragment.parsersWithClause)
       (Fragment.lexemesOf "with t as (select a)") 0
     = Throw (mkJsError "Error" (endOfInputMessage 7) [])
  /\ SourceParser.parseParenSource Fragment.Value
       (SelectQueryParser.parse (C := Fragment.parsers)) (Fragment.lexemesOf "(") 0
     = Throw (mkJsError "Error" "Unexpected end of input at index 1" [])
  /\ SourceParser.parseParenSource Fragment.Value
       (SelectQueryParser.parse (C := Fragment.parsers))
       (Fragment.lexemesOf "(select a") 0
     = Throw (mkJsError "Error" "Expected closing parenthesis at index 3" [])
  /\ SourceParser.parseParenSource Fragment.Value
       (SelectQueryParser.parse (C := Fragment.parsers))
       (Fragment.lexemesOf "((select a)") 0
     = Throw (mkJsError "Error" "Expected closing parenthesis at index 5" []).
Proof.
  destruct (@C7_end_of_input_errors Fragment.parsers Fragment.Value _
              (SelectQueryParser.parse (C := Fragment.parsers)))
    as (HP & _ & HS & HQ & HN).
  destruct (@C7_end_of_input_errors Fragment.parsersWithClause Fragment.Value _
              (SelectQueryParser.parse (C := Fragment.parsers)))
    as (_ & HW & _).
  split; [|split; [|split; [|split]]].
  - apply HP. simpl. lia.
  - apply (HW (Fragment.lexemesOf "with t as (select a)") 0 "t" 7).
    + reflexivity.
    + reflexivity.
    + simpl. lia.
  - apply (HS (Fragment.lexemesOf "(") 0). simpl. lia.
  - apply (HQ (Fragment.lexemesOf "(select a") 0 selectA 3).
    + reflexivity.
    + reflexivity.
    + simpl. lia.
  - apply (HN (Fragment.lexemesOf "((select a)") 0
             (SourceParser.SubQuerySource Fragment.Value selectA) 5).
    + reflexivity.
    + reflexivity.
    + reflexivity.
    + simpl. lia.
Defined.

(** C7, as stated, fails on the empty input and on a text that ends after
    its WITH clause: [SelectQueryParser.parse] reaches the end of the
    lexemes where it needs SELECT, and what it throws is an [Error] with a
    message only, not a [ParseError] with a [found] field. *)
Lemma C7_structured_error_counterexample :
  SelectQueryParser.parse (C := Fragment.parsers) [] 0
  = Throw (mkJsError "Error" (endOfInputMessage 0) [])
  /\ ~ isParseErrorAtEndOfInput (mkJsError "Error" (endOfInputMessage 0) [])
  /\ SelectQueryParser.parse (C := Fragment.parsersWithClause)
       (Fragment.lexemesOf "with t as (select a)") 0
     = Throw (mkJsError "Error" (endOfInputMessage 7) [])
  /\ ~ isParseErrorAtEndOfInput (mkJsError "Error" (endOfInputMessage 7) []).
Proof.
  split; [reflexivity|]. split; [intros [H _]; discriminate H|].
  split; [reflexivity|]. intros [H _]. discriminate H.
Qed.

(** C10: in [ParseItem], when the value is followed by [as] and the lexeme
    after [as] is not an identifier (or there is none), the [as] is
    consumed and the item is returned without an alias; no error is
    raised.  In particular a select clause that ends in a trailing [as]
    parses: [Parse] returns the single nameless item with the cursor at
    the end, and [ParseFromText] returns the clause. *)
Theorem C10_as_without_alias_is_consumed :
  forall (VC : Type)
         (valueParser : list Lexeme -> nat -> Result (VC * nat))
         (tokenizer : string -> Result (list Lexeme))
         (lexemes : list Lexeme) (index : nat) (v : VC) (n : nat),
    valueParser lexemes index = Ok (v, n) ->
    at_ lexemes n (valueIs "as") = true ->
    at_ lexemes (S n) (typeIs Identifier) = false ->
    SelectClauseParser.ParseItem valueParser lexemes index
    = Ok (SelectClauseParser.Nameless v, S n)
    /\ (forall query,
          tokenizer query = Ok lexemes ->
          at_ lexemes 0 (valueIs "select") = true ->
          index = 1 ->
          List.length lexemes = S n ->
          SelectClauseParser.Parse valueParser lexemes 0
          = Ok (SelectClauseParser.mkSelectClause [SelectClauseParser.Nameless v], S n)
          /\ SelectClauseParser.ParseFromText valueParser tokenizer query
             = Ok (SelectClauseParser.mkSelectClause [SelectClauseParser.Nameless v])).
Proof.
  intros VC valueParser tokenizer lexemes index v n HV Has Hid.
  assert (HI : SelectClauseParser.ParseItem valueParser lexemes index
               = Ok (SelectClauseParser.Nameless v, S n)).
  { unfold SelectClauseParser.ParseItem. rewrite HV. simpl.
    rewrite Has, Hid. reflexivity. }
  split; [exact HI|].
  intros query HT Hsel -> Hlen.
  assert (HP : SelectClauseParser.Parse valueParser lexemes 0
               = Ok (SelectClauseParser.mkSelectClause
                       [SelectClauseParser.Nameless v], S n)).
  { unfold SelectClauseParser.Parse. unfold at_ in Hsel.
    destruct (nth_error lexemes 0) as [lx|] eqn:E0; [|discriminate].
    rewrite Hsel. simpl. rewrite HI. simpl.
    assert (HL : SelectClauseParser.ParseLoop valueParser (List.length lexemes)
                   lexemes [SelectClauseParser.Nameless v] (S n)
                 = Ok ([SelectClauseParser.Nameless v], S n)).
    { destruct (List.length lexemes) eqn:EL; [discriminate|].
      simpl. rewrite at_out_of_range by lia. reflexivity. }
    rewrite HL. reflexivity. }
  split; [exact HP|].
  unfold SelectClauseParser.ParseFromText. rewrite HT. simpl. rewrite HP. simpl.
  rewrite Hlen, Nat.ltb_irrefl. reflexivity.
Qed.

Lemma C10_as_without_alias_is_consumed_witness :
  SelectClauseParser.ParseItem Fragment.ValueParser_Parse
    (Fragment.lexemesOf "select a as") 1
  = Ok (SelectClauseParser.Nameless (Fragment.ColumnReference [] "a"), 3)
  /\ SelectClauseParser.ParseFromText Fragment.ValueParser_Parse
       Fragment.readLexmes "select a as"
     = Ok (SelectClauseParser.mkSelectClause
             [SelectClauseParser.Nameless (Fragment.ColumnReference [] "a")]).
Proof.
  destruct (@C10_as_without_alias_is_consumed Fragment.Value
              Fragment.ValueParser_Parse Fragment.readLexmes
              (Fragment.lexemesOf "select a as") 1
              (Fragment.ColumnReference [] "a") 2
              eq_refl eq_refl eq_refl) as [HI HQ].
  split; [exact HI|].
  exact (proj2 (HQ "select a as" eq_refl eq_refl eq_refl eq_refl)).
Defined.

(** ** The constructor of the formatter *)

Lemma PRESETS_valid name :
  In name VALID_PRESETS -> exists config, PRESETS name = PresetConfig config.
Proof.
  simpl. intros [<-|[<-|[<-|[<-|[]]]]]; eexists; reflexivity.
Qed.

(** C8 (as the code has it): the constructor looks the preset name up in
    the table [PRESETS], which it imports; the statement holds for every
    table.  A non-empty name for which the table has no member makes the
    constructor throw a plain [Error] with the message
    "Invalid preset: <name>"; there is no [PresetError].  A name for which
    the table has a member is accepted, and an empty name is taken as no
    preset: in both cases the constructor returns. *)
Theorem C8_preset_lookup :
  forall (presets : string -> PresetLookup)
         (options : SqlFormatterOptions.t) (name : string),
    SqlFormatterOptions.preset options = Some name ->
    (name <> EmptyString -> presets name = Undefined ->
     SqlFormatter.newWith presets options
     = Throw (mkJsError "Error" ("Invalid preset: " ++ name) []))
    /\ (presets name <> Undefined ->
        isOk (SqlFormatter.newWith presets options) = true)
    /\ (name = EmptyString ->
        isOk (SqlFormatter.newWith presets options) = true).
Proof.
  intros presets options name Hp. unfold SqlFormatter.newWith. rewrite Hp.
  repeat split.
  - intros Hne Hu. unfold SqlFormatter.truthyPreset.
    apply String.eqb_neq in Hne. rewrite Hne, Hu. reflexivity.
  - intros Hd. unfold SqlFormatter.truthyPreset.
    destruct (String.eqb name EmptyString); [reflexivity|].
    destruct (presets name); [reflexivity|reflexivity|contradiction].
  - intros ->. reflexivity.
Qed.

Lemma C8_preset_lookup_witness :
  SqlFormatter.newWith PRESETS (withPreset "no-such-preset")
  = Throw (mkJsError "Error" "Invalid preset: no-such-preset" [])
  /\ isOk (SqlFormatter.newWith PRESETS (withPreset "postgres")) = true
  /\ isOk (SqlFormatter.newWith PRESETS (withPreset EmptyString)) = true.
Proof.
  destruct (@C8_preset_lookup PRESETS (withPreset "no-such-preset")
              "no-such-preset" eq_refl) as [Hthrow _].
  destruct (@C8_preset_lookup PRESETS (withPreset "postgres") "postgres" eq_refl)
    as (_ & Hok & _).
  destruct (@C8_preset_lookup PRESETS (withPreset EmptyString) EmptyString eq_refl)
    as (_ & _ & Hempty).
  split; [|split].
  - apply Hthrow; [discriminate|reflexivity].
  - apply Hok. discriminate.
  - apply Hempty. reflexivity.
Defined.

(** C8, as stated, fails twice, whatever the table holds.  The empty
    preset name is none of the four names, and the constructor does not
    fail; and where the constructor fails, for a name that the table does
    not have, it fails with an [Error], not with a [PresetError]. *)
Lemma C8_preset_error_counterexample :
  ~ In EmptyString VALID_PRESETS
  /\ (forall presets : string -> PresetLookup,
        isOk (SqlFormatter.newWith presets (withPreset EmptyString)) = true)
  /\ ~ In "no-such-preset" VALID_PRESETS
  /\ (forall presets : string -> PresetLookup,
        presets "no-such-preset" = Undefined ->
        SqlFormatter.newWith presets (withPreset "no-such-preset")
        = Throw (mkJsError "Error" "Invalid preset: no-such-preset" []))
  /\ name (mkJsError "Error" "Invalid preset: no-such-preset" []) <> "PresetError".
Proof.
  split; [simpl; intuition discriminate|].
  split; [intros presets; reflexivity|].
  split; [simpl; intuition discriminate|].
  split; [|discriminate].
  intros presets Hu. unfold SqlFormatter.newWith. cbn. rewrite Hu. reflexivity.
Qed.

(** ** Dependency-based CTE formatting *)

Lemma preparePrinter_dependency `{C : SqlFormatter.Collaborators} p sql :
  SqlPrinter.cteOnelineDependency p = true ->
  SqlFormatter.instanceofSimpleSelectQuery sql = true ->
  SqlFormatter.preparePrinter p sql
  = SqlPrinter.set_importComments
      (SqlFormatter.generateImportComments (SqlFormatter.findDirectlyReferencedCtes sql))
      (SqlPrinter.set_cteOneline true p).
Proof.
  intros H1 H2. unfold SqlFormatter.preparePrinter. now rewrite H1, H2.
Qed.

Lemma shouldFormatCteOneline_on p token :
  SqlPrinter.cteOneline p = true ->
  SqlPrinter.shouldFormatCteOneline p token = true.
Proof. intros H. unfold SqlPrinter.shouldFormatCteOneline. now rewrite H. Qed.

(** A [CommonTable] container goes to [handleCteOnelineToken] as soon as
    [shouldFormatCteOneline] says so. *)
Lemma appendToken_CommonTable p cte level parent lp :
  SqlPrintToken.type cte = SqlPrintToken.container ->
  SqlPrintToken.containerType cte = SqlPrintToken.CommonTable ->
  SqlPrintToken.innerTokens cte <> [] ->
  SqlPrinter.shouldFormatCteOneline p cte = true ->
  SqlPrinter.appendToken p cte level parent lp
  = LinePrinter.appendText
      (SqlPrinter.print (SqlPrinter.onelinePrinter p) cte level) lp.
Proof.
  destruct cte as [ty txt ct kts its]. simpl. intros -> -> Hits Hshould.
  rewrite <- handleCteOnelineToken_print.
  unfold SqlPrinter.appendToken. cbn [SqlPrinter.appendTokenWith].
  unfold SqlPrinter.shouldSkipToken. cbn [SqlPrintToken.innerTokens].
  destruct its as [|child its']; [congruence|].
  cbn [List.length Nat.eqb andb].
  rewrite Hshould. reflexivity.
Qed.

(** With [cteOnelineDependency] on, [format] of a [SimpleSelectQuery]
    switches the printer's [cteOneline] on before it prints.  From then on
    [shouldFormatCteOneline] answers yes for every token, leaf of the
    dependency graph or not, and every [CommonTable] container is written
    through the nested one-line printer, whose newline is a blank.  The
    per-name set is left as it was. *)
Lemma dependency_mode_renders_every_cte_oneline :
  forall (C : SqlFormatter.Collaborators) (this : SqlFormatter.t)
         (sql : SqlFormatter.SqlComponent) (token : SqlPrintToken)
         (ps : SqlFormatter.Params),
    SqlPrinter.cteOnelineDependency (SqlFormatter.printer this) = true ->
    SqlFormatter.instanceofSimpleSelectQuery sql = true ->
    SqlFormatter.SqlPrintTokenParser_parse (SqlFormatter.parser this) sql
    = Ok (token, ps) ->
    exists p' : SqlPrinter.t,
      SqlFormatter.format this sql
      = (Ok (SqlFormatter.mkFormatted (SqlPrinter.print p' token 0) ps),
         SqlFormatter.mk (SqlFormatter.parser this) p')
      /\ SqlPrinter.cteOneline p' = true
      /\ SqlPrinter.cteOnelineSet p' = SqlPrinter.cteOnelineSet (SqlFormatter.printer this)
      /\ (forall cte, SqlPrinter.shouldFormatCteOneline p' cte = true)
      /\ (forall cte level parent lp,
            SqlPrintToken.type cte = SqlPrintToken.container ->
            SqlPrintToken.containerType cte = SqlPrintToken.CommonTable ->
            SqlPrintToken.innerTokens cte <> [] ->
            SqlPrinter.appendToken p' cte level parent lp
            = LinePrinter.appendText
                (SqlPrinter.print (SqlPrinter.onelinePrinter p') cte level) lp)
      /\ SqlPrinter.newline (SqlPrinter.onelinePrinter p') = " ".
Proof.
  intros C this sql token ps Hdep Hsimple Hparse.
  exists (SqlFormatter.preparePrinter (SqlFormatter.printer this) sql).
  assert (Hone : SqlPrinter.cteOneline
                   (SqlFormatter.preparePrinter (SqlFormatter.printer this) sql) = true)
    by (rewrite preparePrinter_dependency by assumption; reflexivity).
  split; [|split; [|split; [|split; [|split]]]].
  - unfold SqlFormatter.format. rewrite Hparse. reflexivity.
  - exact Hone.
  - rewrite preparePrinter_dependency by assumption. reflexivity.
  - intros cte. now apply shouldFormatCteOneline_on.
  - intros cte level parent lp Hty Hct Hits.
    apply appendToken_CommonTable; try assumption.
    now apply shouldFormatCteOneline_on.
  - reflexivity.
Qed.

(** C1: the code does not do what the claim (and the constructor's
    comment, and the test of the dependency mode) says.  The formatter is
    constructed with [{ cteOnelineDependency: true, newline: '\n',
    indentSize: 2, indentChar: ' ' }], so [cteOneline] is off; the query
    is the [SimpleSelectQuery] [with base_users as (...), enriched as
    (...) select * from enriched], of which the tracer's only leaf is
    [enriched].  [format] never fills the per-name set; it switches
    [cteOneline] on instead, and [base_users], which is not a leaf, is
    written on one line exactly as [enriched] is.  Formatted normally,
    that is by the formatter without the flag, [base_users] takes seven
    lines. *)
Theorem C1_non_leaf_cte_is_printed_on_one_line :
  SqlPrinter.cteOnelineDependency (SqlFormatter.printer dependencyFormatter) = true
  /\ SqlPrinter.cteOneline (SqlFormatter.printer dependencyFormatter) = false
  /\ SqlFormatter.instanceofSimpleSelectQuery (Collaborators := Lowered.collaborators)
       Lowered.enrichedSelect = true
  /\ SqlFormatter.findDirectlyReferencedCtes (C := Lowered.collaborators)
       Lowered.enrichedSelect = ["enriched"]
  /\ SqlPrinter.extractCteNameFromToken Lowered.baseUsers = Some "base_users"
  /\ SqlPrinter.cteOnelineSet
       (SqlFormatter.printer
          (snd (SqlFormatter.format (C := Lowered.collaborators)
                  dependencyFormatter Lowered.enrichedSelect))) = []
  /\ SqlPrinter.shouldFormatCteOneline
       (SqlFormatter.printer
          (snd (SqlFormatter.format (C := Lowered.collaborators)
                  dependencyFormatter Lowered.enrichedSelect)))
       Lowered.baseUsers = true
  /\ Lowered.sqlOf
       (SqlFormatter.format (C := Lowered.collaborators)
          dependencyFormatter Lowered.enrichedSelect)
     = String.concat Lowered.lf
         [ "with base_users as (select id from users where active = true),";
           "enriched as (select b.id from base_users as b)";
           "    /* import enriched.cte.sql */ select";
           "  *";
           "from";
           "  enriched" ]
  /\ Lowered.sqlOf
       (SqlFormatter.format (C := Lowered.collaborators)
          (Lowered.formatterOf (Lowered.prettyOptions " " 2)) Lowered.enrichedSelect)
     = String.concat Lowered.lf
         [ "with";
           "  base_users as (select"; "    id"; "  from"; "    users";
           "  where"; "    active = true";
           "  ), enriched as (select"; "    b.id"; "  from"; "    base_users as b";
           "  )";
           "select"; "  *"; "from"; "  enriched" ].
Proof. repeat split. Qed.

(** ** Import comments *)







Lemma generateImportComments_map names :
  SqlFormatter.generateImportComments names = map importComment names.
Proof. reflexivity. Qed.









(** ** Repeated calls of [format] on one formatter *)

(** C3: on one formatter, [format] of the same [BinarySelectQuery] gives two
    different texts, depending on whether a [SimpleSelectQuery] was
    formatted in between.  The first call leaves the formatter as it was
    constructed and prints the CTE over several lines.  The call on the
    [SimpleSelectQuery] switches [cteOneline] on and stores its import
    comments in the printer; neither is reset, so the next call on the
    union prints the CTE on one line and carries the import comment of the
    other query. *)
Theorem C3_format_depends_on_earlier_calls :
  snd (SqlFormatter.format (C := Lowered.collaborators)
         dependencyFormatter Lowered.unionQuery)
  = dependencyFormatter
  /\ Lowered.sqlOf
       (SqlFormatter.format (C := Lowered.collaborators)
          dependencyFormatter Lowered.unionQuery)
     = String.concat Lowered.lf
         [ "with"; "  base_users as (select"; "    id"; "  from"; "    users";
           "  where"; "    active = true"; "  )";
           "select"; "  id"; "from"; "  base_users";
           "union"; "select"; "  id"; "from"; "  archive" ]
  /\ Lowered.sqlOf
       (SqlFormatter.format (C := Lowered.collaborators)
          (snd (SqlFormatter.format (C := Lowered.collaborators)
                  dependencyFormatter Lowered.enrichedSelect))
          Lowered.unionQuery)
     = String.concat Lowered.lf
         [ "with base_users as (select id from users where active = true)";
           "    /* import enriched.cte.sql */ select"; "  id"; "from"; "  base_users";
           "union"; "select"; "  id"; "from"; "  archive" ]
  /\ Lowered.sqlOf
       (SqlFormatter.format (C := Lowered.collaborators)
          dependencyFormatter Lowered.unionQuery)
     <> Lowered.sqlOf
          (SqlFormatter.format (C := Lowered.collaborators)
             (snd (SqlFormatter.format (C := Lowered.collaborators)
                     dependencyFormatter Lowered.enrichedSelect))
             Lowered.unionQuery).
Proof.
  split; [reflexivity|]. split; [reflexivity|]. split; [reflexivity|].
  vm_compute. discriminate.
Qed.

(* ===================================================================== *)
(** * Further properties of the code *)
(* ===================================================================== *)

(** ** Select clauses *)

Lemma at_true_inv lexemes idx test :
  at_ lexemes idx test = true ->
  exists lx, nth_error lexemes idx = Some lx /\ test lx = true.
Proof.
  unfold at_. destruct (nth_error lexemes idx) as [lx|]; [|discriminate].
  intros H. now exists lx.
Qed.

Lemma typeIs_eq t lx : typeIs t lx = true <-> type lx = t.
Proof. unfold typeIs. destruct (type lx), t; simpl; split; congruence. Qed.

(** X1: what [ParseItem] returns.  The value is what the value parser
    returned; an [as] right after it is skipped; the item carries an alias
    exactly when the next lexeme is an identifier, the alias is that
    lexeme's value and the cursor moves past it.  An item without alias is
    never followed by an identifier. *)
Theorem X1_ParseItem_alias_is_identifier :
  forall (VC : Type) (valueParser : list Lexeme -> nat -> Result (VC * nat))
         (lexemes : list Lexeme) (index : nat)
         (item : SelectClauseParser.SelectComponent VC) (m : nat),
    SelectClauseParser.ParseItem valueParser lexemes index = Ok (item, m) ->
    exists v n,
      valueParser lexemes index = Ok (v, n)
      /\ ((item = SelectClauseParser.Nameless v
           /\ at_ lexemes m (typeIs Identifier) = false
           /\ m = (if at_ lexemes n (valueIs "as") then S n else n))
          \/ (exists lx,
                item = SelectClauseParser.SelectItem v (value lx)
                /\ nth_error lexemes (m - 1) = Some lx
                /\ type lx = Identifier
                /\ m = S (if at_ lexemes n (valueIs "as") then S n else n))).
Proof.
  intros VC valueParser lexemes index item m H.
  unfold SelectClauseParser.ParseItem in H.
  destruct (valueParser lexemes index) as [[v n]| |] eqn:EV; simpl in H;
    try discriminate H.
  exists v, n. split; [reflexivity|].
  set (k := if at_ lexemes n (valueIs "as") then S n else n) in *.
  destruct (at_ lexemes k (typeIs Identifier)) eqn:EI; inversion H; subst.
  - right. destruct (at_true_inv _ _ _ EI) as (lx & Hlx & Hty).
    exists lx. simpl. rewrite Nat.sub_0_r.
    unfold valueAt. rewrite Hlx. repeat split; try assumption.
    now apply typeIs_eq.
  - left. repeat split. exact EI.
Qed.

Lemma X1_ParseItem_alias_is_identifier_witness :
  exists v n,
    Fragment.ValueParser_Parse (Fragment.lexemesOf "select a as b, c") 1 = Ok (v, n)
    /\ ((SelectClauseParser.SelectItem (Fragment.ColumnReference [] "a") "b"
         = SelectClauseParser.Nameless v
         /\ at_ (Fragment.lexemesOf "select a as b, c") 4 (typeIs Identifier) = false
         /\ 4 = (if at_ (Fragment.lexemesOf "select a as b, c") n (valueIs "as")
                 then S n else n))
        \/ (exists lx,
              SelectClauseParser.SelectItem (Fragment.ColumnReference [] "a") "b"
              = SelectClauseParser.SelectItem v (value lx)
              /\ nth_error (Fragment.lexemesOf "select a as b, c") (4 - 1) = Some lx
              /\ type lx = Identifier
              /\ 4 = S (if at_ (Fragment.lexemesOf "select a as b, c") n (valueIs "as")
                        then S n else n))).
Proof.
  apply (@X1_ParseItem_alias_is_identifier Fragment.Value Fragment.ValueParser_Parse
           (Fragment.lexemesOf "select a as b, c") 1).
  reflexivity.
Defined.

Lemma ParseLoop_ok (VC : Type) (valueParser : list Lexeme -> nat -> Result (VC * nat))
    lexemes fuel :
  forall items idx items' n,
    SelectClauseParser.ParseLoop valueParser fuel lexemes items idx = Ok (items', n) ->
    (exists more, items' = items ++ more)
    /\ at_ lexemes n (typeIs Comma) = false.
Proof.
  induction fuel as [|fuel IH]; intros items idx items' n H; simpl in H.
  - destruct (at_ lexemes idx (typeIs Comma)) eqn:E; [discriminate|].
    inversion H; subst. split; [exists []; now rewrite app_nil_r|exact E].
  - destruct (at_ lexemes idx (typeIs Comma)) eqn:E.
    + destruct (SelectClauseParser.ParseItem valueParser lexemes (S idx))
        as [[item newIndex]| |]; simpl in H; try discriminate H.
      apply IH in H as [[more ->] Hn]. split; [|exact Hn].
      exists (item :: more). now rewrite <- app_assoc.
    + inversion H; subst. split; [exists []; now rewrite app_nil_r|exact E].
Qed.

(** X2: when [SelectClauseParser.Parse] returns a clause, the lexeme at
    the start index is [select], the clause has at least one item, the
    first being the item parsed right after the keyword, and the returned
    cursor is not on a comma. *)
Theorem X2_Parse_clause_shape :
  forall (VC : Type) (valueParser : list Lexeme -> nat -> Result (VC * nat))
         (lexemes : list Lexeme) (index : nat)
         (clause : SelectClauseParser.SelectClause VC) (n : nat),
    SelectClauseParser.Parse valueParser lexemes index = Ok (clause, n) ->
    at_ lexemes index (valueIs "select") = true
    /\ at_ lexemes n (typeIs Comma) = false
    /\ exists first m rest,
         SelectClauseParser.ParseItem valueParser lexemes (S index) = Ok (first, m)
         /\ SelectClauseParser.items clause = first :: rest.
Proof.
  intros VC valueParser lexemes index clause n H.
  unfold SelectClauseParser.Parse in H. unfold at_.
  destruct (nth_error lexemes index) as [lx|] eqn:E0; [|discriminate H].
  destruct (valueIs "select" lx) eqn:Es; simpl in H; [|discriminate H].
  destruct (SelectClauseParser.ParseItem valueParser lexemes (S index))
    as [[first m]| |] eqn:EI; simpl in H; try discriminate H.
  destruct (SelectClauseParser.ParseLoop valueParser (List.length lexemes)
              lexemes [first] m) as [[items n']| |] eqn:EL; simpl in H;
    try discriminate H.
  destruct (List.length items =? 0)%nat; [discriminate H|].
  inversion H; subst. apply ParseLoop_ok in EL as [[more ->] Hn].
  split; [reflexivity|]. split; [exact Hn|].
  exists first, m, more. split; reflexivity.
Qed.

Lemma X2_Parse_clause_shape_witness :
  at_ (Fragment.lexemesOf "select a as b, c") 0 (valueIs "select") = true
  /\ at_ (Fragment.lexemesOf "select a as b, c") 6 (typeIs Comma) = false
  /\ exists first m rest,
       SelectClauseParser.ParseItem Fragment.ValueParser_Parse
         (Fragment.lexemesOf "select a as b, c") 1 = Ok (first, m)
       /\ [SelectClauseParser.SelectItem (Fragment.ColumnReference [] "a") "b";
           SelectClauseParser.Nameless (Fragment.ColumnReference [] "c")]
          = first :: rest.
Proof.
  apply (@X2_Parse_clause_shape Fragment.Value Fragment.ValueParser_Parse
           (Fragment.lexemesOf "select a as b, c") 0
           (SelectClauseParser.mkSelectClause
              [SelectClauseParser.SelectItem (Fragment.ColumnReference [] "a") "b";
               SelectClauseParser.Nameless (Fragment.ColumnReference [] "c")]) 6).
  reflexivity.
Defined.

Lemma ParseLoop_cursor (VC : Type)
    (valueParser : list Lexeme -> nat -> Result (VC * nat)) :
  (forall lexemes i v n, valueParser lexemes i = Ok (v, n) -> i < n) ->
  forall lexemes fuel items idx items' n,
    SelectClauseParser.ParseLoop valueParser fuel lexemes items idx = Ok (items', n) ->
    idx <= n.
Proof.
  intros Hadv lexemes fuel.
  induction fuel as [|fuel IH]; intros items idx items' n H; simpl in H.
  - destruct (at_ lexemes idx (typeIs Comma)); [discriminate|].
    inversion H; lia.
  - destruct (at_ lexemes idx (typeIs Comma)); [|inversion H; lia].
    destruct (SelectClauseParser.ParseItem valueParser lexemes (S idx))
      as [[item newIndex]| |] eqn:E; simpl in H; try discriminate H.
    apply IH in H. pose proof (@ParseItem_advances _ valueParser Hadv _ _ _ _ E). lia.
Qed.

(** X3: with a value parser that returns and moves its cursor forward,
    the comma loop of [SelectClauseParser.Parse] terminates, and a clause
    that is returned covers at least two lexemes, the keyword and a
    value. *)
Theorem X3_Parse_terminates_and_advances :
  forall (VC : Type) (valueParser : list Lexeme -> nat -> Result (VC * nat)),
    (forall lexemes i, valueParser lexemes i <> Timeout) ->
    (forall lexemes i v n, valueParser lexemes i = Ok (v, n) -> i < n) ->
    forall (lexemes : list Lexeme) (index : nat),
      SelectClauseParser.Parse valueParser lexemes index <> Timeout
      /\ (forall clause n,
            SelectClauseParser.Parse valueParser lexemes index = Ok (clause, n) ->
            index + 2 <= n).
Proof.
  intros VC valueParser Hret Hadv lexemes index. split.
  - now apply Parse_returns.
  - intros clause n H. unfold SelectClauseParser.Parse in H.
    destruct (nth_error lexemes index) as [lx|]; [|discriminate H].
    destruct (negb (valueIs "select" lx)); [discriminate H|].
    destruct (SelectClauseParser.ParseItem valueParser lexemes (S index))
      as [[first m]| |] eqn:EI; simpl in H; try discriminate H.
    destruct (SelectClauseParser.ParseLoop valueParser (List.length lexemes)
                lexemes [first] m) as [[items n']| |] eqn:EL; simpl in H;
      try discriminate H.
    destruct (List.length items =? 0)%nat; [discriminate H|].
    inversion H; subst.
    pose proof (@ParseItem_advances _ valueParser Hadv _ _ _ _ EI).
    pose proof (@ParseLoop_cursor _ valueParser Hadv _ _ _ _ _ _ EL). lia.
Qed.

Lemma Fragment_ValueParser_returns lexemes i :
  Fragment.ValueParser_Parse lexemes i <> Timeout.
Proof.
  unfold Fragment.ValueParser_Parse.
  destruct (nth_error lexemes i) as [lx|]; [|discriminate].
  destruct (typeIs Literal lx); [discriminate|].
  destruct (typeIs Identifier lx); [|discriminate].
  destruct (_ && _); discriminate.
Qed.

Lemma Fragment_ValueParser_advances lexemes i v n :
  Fragment.ValueParser_Parse lexemes i = Ok (v, n) -> i < n.
Proof.
  unfold Fragment.ValueParser_Parse.
  destruct (nth_error lexemes i) as [lx|]; [|discriminate].
  destruct (typeIs Literal lx); [intros H; inversion H; lia|].
  destruct (typeIs Identifier lx); [|discriminate].
  destruct (_ && _); intros H; inversion H; lia.
Qed.

Lemma X3_Parse_terminates_and_advances_witness :
  SelectClauseParser.Parse Fragment.ValueParser_Parse
    (Fragment.lexemesOf "select a, b.c x") 0 <> Timeout
  /\ (exists clause,
        SelectClauseParser.Parse Fragment.ValueParser_Parse
          (Fragment.lexemesOf "select a, b.c x") 0 = Ok (clause, 7))
  /\ 0 + 2 <= 7.
Proof.
  destruct (@X3_Parse_terminates_and_advances Fragment.Value
              Fragment.ValueParser_Parse Fragment_ValueParser_returns
              Fragment_ValueParser_advances
              (Fragment.lexemesOf "select a, b.c x") 0) as [H1 H2].
  split; [exact H1|]. split; [eexists; reflexivity|].
  eapply H2. reflexivity.
Defined.

Lemma optionalClause_throw `{C : SelectQueryParser.Collaborators} {A}
    kw (parser : list Lexeme -> nat -> Result (A * nat)) lexemes idx e :
  SelectQueryParser.optionalClause kw parser lexemes idx = Throw e ->
  parser lexemes idx = Throw e.
Proof.
  unfold SelectQueryParser.optionalClause.
  destruct (at_ lexemes idx (lowerValueIs kw)); [|discriminate].
  destruct (parser lexemes idx) as [[v n]| |]; simpl; congruence.
Qed.

Ltac clause_step H :=
  match type of H with
  | Js.bind (SelectQueryParser.optionalClause ?kw ?p ?l ?i) _ = Throw ?e =>
      let E := fresh "E" in
      destruct (SelectQueryParser.optionalClause kw p l i) as [[? ?]| |] eqn:E;
      simpl in H;
      [ | inversion H; subst; apply optionalClause_throw in E | discriminate H ]
  end.

(** X4: an error of [SelectQueryParser.parse] is either its own
    "Expected 'SELECT' keyword" error or, unchanged, the error that one of
    the clause parsers threw. *)
Theorem X4_parse_errors_are_not_wrapped :
  forall (C : SelectQueryParser.Collaborators) (lexemes : list Lexeme)
         (index : nat) (e : JsError),
    SelectQueryParser.parse lexemes index = Throw e ->
    (exists idx, e = SelectQueryParser.expectedSelect lexemes idx)
    \/ thrownByClauseParser lexemes e.
Proof.
  intros C lexemes index e H. unfold SelectQueryParser.parse in H.
  clause_step H; [|right; eexists; eauto].
  match type of H with (if ?b then _ else _) = _ => destruct b end.
  { inversion H. left. eexists. reflexivity. }
  match type of H with
  | Js.bind ?r _ = _ => destruct r as [[? ?]| |] eqn:ES; simpl in H
  end; [ | inversion H; subst; right; eexists; eauto | discriminate H ].
  do 8 (clause_step H; [|right; eexists; eauto 12]).
  discriminate H.
Qed.

Lemma X4_parse_errors_are_not_wrapped_witness :
  (exists idx,
      SelectQueryParser.expectedSelect (Fragment.lexemesOf "from t") 0
      = SelectQueryParser.expectedSelect (Fragment.lexemesOf "from t") idx)
  \/ thrownByClauseParser (C := Fragment.parsers) (Fragment.lexemesOf "from t")
       (SelectQueryParser.expectedSelect (Fragment.lexemesOf "from t") 0).
Proof.
  apply (@X4_parse_errors_are_not_wrapped Fragment.parsers
           (Fragment.lexemesOf "from t") 0).
  reflexivity.
Defined.

Lemma optionalClause_absent `{C : SelectQueryParser.Collaborators} {A}
    kw (parser : list Lexeme -> nat -> Result (A * nat)) lexemes idx :
  at_ lexemes idx (lowerValueIs kw) = false ->
  SelectQueryParser.optionalClause kw parser lexemes idx = Ok (None, idx).
Proof. intros H. unfold SelectQueryParser.optionalClause. now rewrite H. Qed.

(** X5: a query that starts with [select] (in any case) and whose select
    clause is followed by none of the keywords FROM, WHERE, GROUP BY,
    HAVING, WINDOW, ORDER BY, LIMIT and FOR parses to a query with the
    select clause only, and the cursor stays where the select clause
    ended. *)
Theorem X5_parse_select_list_only :
  forall (C : SelectQueryParser.Collaborators) (lexemes : list Lexeme)
         (index : nat) (selectClause : SelectQueryParser.SelectClause) (n : nat),
    at_ lexemes index (lowerValueIs "select") = true ->
    SelectQueryParser.SelectClauseParser_parse lexemes index = Ok (selectClause, n) ->
    (forall kw, In kw clauseKeywords -> at_ lexemes n (lowerValueIs kw) = false) ->
    SelectQueryParser.parse lexemes index
    = Ok (SelectQueryParser.SimpleSelect None selectClause
            None None None None None None None None, n).
Proof.
  intros C lexemes index selectClause n Hsel Hparse Hnone.
  unfold SelectQueryParser.parse.
  assert (Hwith : at_ lexemes index (lowerValueIs "with") = false).
  { unfold at_ in *. destruct (nth_error lexemes index) as [lx|]; [|reflexivity].
    unfold lowerValueIs in *. apply String.eqb_eq in Hsel. rewrite Hsel. reflexivity. }
  rewrite (optionalClause_absent _ _ _ _ Hwith). simpl.
  rewrite Hsel. simpl. rewrite Hparse. simpl.
  repeat (rewrite optionalClause_absent by (apply Hnone; simpl; auto 10); simpl).
  reflexivity.
Qed.

Lemma X5_parse_select_list_only_witness :
  SelectQueryParser.parse (C := Fragment.parsers)
    (Fragment.lexemesOf "SELECT a union select b") 0
  = Ok (selectA, 2).
Proof.
  apply (@X5_parse_select_list_only Fragment.parsers
           (Fragment.lexemesOf "SELECT a union select b") 0).
  - reflexivity.
  - reflexivity.
  - intros kw Hkw. simpl in Hkw.
    repeat (destruct Hkw as [<-|Hkw]; [reflexivity|]). contradiction.
Defined.

(** X26: [SelectClauseParser.ParseFromText] accepts a text only as one
    whole select clause.  When it returns a clause, the lexemes of the
    text begin with [select], [Parse] read them all, and the clause has at
    least one item; when [Parse] returns with lexemes left over, the call
    throws "Unexpected token at index i: v" for the first of them. *)
Theorem X26_ParseFromText_takes_a_whole_clause :
  forall (VC : Type) (valueParser : list Lexeme -> nat -> Result (VC * nat))
         (tokenizer : string -> Result (list Lexeme)) (query : string),
    (forall clause,
        SelectClauseParser.ParseFromText valueParser tokenizer query = Ok clause ->
        exists lexemes n,
          tokenizer query = Ok lexemes
          /\ at_ lexemes 0 (valueIs "select") = true
          /\ SelectClauseParser.Parse valueParser lexemes 0 = Ok (clause, n)
          /\ List.length lexemes <= n
          /\ SelectClauseParser.items clause <> [])
    /\ (forall lexemes clause n,
          tokenizer query = Ok lexemes ->
          SelectClauseParser.Parse valueParser lexemes 0 = Ok (clause, n) ->
          n < List.length lexemes ->
          SelectClauseParser.ParseFromText valueParser tokenizer query
          = Throw (Error ("Unexpected token at index " ++ toString n ++ ": "
                          ++ valueAt lexemes n))).
Proof.
  intros VC valueParser tokenizer query. split.
  - intros clause H. unfold SelectClauseParser.ParseFromText in H.
    destruct (tokenizer query) as [lexemes| |]; simpl in H; try discriminate H.
    destruct (SelectClauseParser.Parse valueParser lexemes 0)
      as [[value n]| |] eqn:EP; simpl in H; try discriminate H.
    destruct (n <? List.length lexemes)%nat eqn:En; [discriminate H|].
    inversion H; subst value. apply Nat.ltb_ge in En.
    exists lexemes, n. split; [reflexivity|].
    assert (Hshape : at_ lexemes 0 (valueIs "select") = true
                     /\ SelectClauseParser.items clause <> []).
    { unfold SelectClauseParser.Parse in EP. unfold at_.
      destruct (nth_error lexemes 0) as [lx|]; [|discriminate EP].
      destruct (valueIs "select" lx); simpl in EP; [|discriminate EP].
      destruct (SelectClauseParser.ParseItem valueParser lexemes 1)
        as [[first m]| |]; simpl in EP; try discriminate EP.
      destruct (SelectClauseParser.ParseLoop valueParser (List.length lexemes)
                  lexemes [first] m) as [[items n']| |] eqn:EL; simpl in EP;
        try discriminate EP.
      destruct (List.length items =? 0)%nat; [discriminate EP|].
      inversion EP; subst. apply ParseLoop_ok in EL as [[more ->] _].
      split; [reflexivity|]. simpl. discriminate. }
    destruct Hshape as [Hselect Hitems]. repeat split; assumption.
  - intros lexemes clause n HT HP Hn.
    unfold SelectClauseParser.ParseFromText. rewrite HT. simpl. rewrite HP. simpl.
    apply Nat.ltb_lt in Hn. now rewrite Hn.
Qed.

Lemma X26_ParseFromText_takes_a_whole_clause_witness :
  (exists lexemes n,
      Fragment.readLexmes "select a, b" = Ok lexemes
      /\ at_ lexemes 0 (valueIs "select") = true
      /\ SelectClauseParser.Parse Fragment.ValueParser_Parse lexemes 0
         = Ok (SelectClauseParser.mkSelectClause
                 [SelectClauseParser.Nameless (Fragment.ColumnReference [] "a");
                  SelectClauseParser.Nameless (Fragment.ColumnReference [] "b")], n)
      /\ List.length lexemes <= n
      /\ [SelectClauseParser.Nameless (Fragment.ColumnReference [] "a");
          SelectClauseParser.Nameless (Fragment.ColumnReference [] "b")] <> [])
  /\ SelectClauseParser.ParseFromText Fragment.ValueParser_Parse Fragment.readLexmes
       "select a from t"
     = Throw (Error "Unexpected token at index 2: from").
Proof.
  split.
  - destruct (@X26_ParseFromText_takes_a_whole_clause Fragment.Value
                Fragment.ValueParser_Parse Fragment.readLexmes "select a, b")
      as [Hok _].
    apply (Hok (SelectClauseParser.mkSelectClause
                  [SelectClauseParser.Nameless (Fragment.ColumnReference [] "a");
                   SelectClauseParser.Nameless (Fragment.ColumnReference [] "b")])).
    reflexivity.
  - destruct (@X26_ParseFromText_takes_a_whole_clause Fragment.Value
                Fragment.ValueParser_Parse Fragment.readLexmes "select a from t")
      as [_ Hrest].
    apply (Hrest (Fragment.lexemesOf "select a from t")
             (SelectClauseParser.mkSelectClause
                [SelectClauseParser.Nameless (Fragment.ColumnReference [] "a")]) 2).
    + reflexivity.
    + reflexivity.
    + simpl. lia.
Defined.

(** ** Sources *)

Lemma dotIdentifiers_unfold lexemes identifiers idx :
  SourceParser.dotIdentifiers lexemes identifiers idx =
  if at_ lexemes idx (typeIs Dot) && at_ lexemes (S idx) (typeIs Identifier)
  then SourceParser.dotIdentifiers lexemes
         (identifiers ++ [valueAt lexemes (S idx)]) (S (S idx))
  else (identifiers, idx).
Proof.
  funelim (SourceParser.dotIdentifiers lexemes identifiers idx);
    match goal with e : _ && _ = _ |- _ => rewrite e end; reflexivity.
Qed.

Lemma nth_error_skip (pre l : list Lexeme) k :
  nth_error (pre ++ l) (List.length pre + k) = nth_error l k.
Proof.
  rewrite nth_error_app2 by lia. f_equal. lia.
Qed.

Lemma at_skip (pre l : list Lexeme) k test :
  at_ (pre ++ l) (List.length pre + k) test = at_ l k test.
Proof. unfold at_. now rewrite nth_error_skip. Qed.

Lemma valueAt_skip (pre l : list Lexeme) k :
  valueAt (pre ++ l) (List.length pre + k) = valueAt l k.
Proof. unfold valueAt. now rewrite nth_error_skip. Qed.

Lemma dotIdentifiers_names names :
  forall pre rest identifiers,
    endsName rest ->
    SourceParser.dotIdentifiers
      (pre ++ flat_map (fun name => [mkLexeme Dot "."; mkLexeme Identifier name]) names
           ++ rest)
      identifiers (List.length pre)
    = (identifiers ++ names, List.length pre + 2 * List.length names).
Proof.
  induction names as [|name names IH]; intros pre rest identifiers Hrest.
  - rewrite dotIdentifiers_unfold. cbn [flat_map app].
    assert (A : at_ (pre ++ rest) (List.length pre) (typeIs Dot)
                && at_ (pre ++ rest) (S (List.length pre)) (typeIs Identifier) = false).
    { replace (S (List.length pre)) with (List.length pre + 1) by lia.
      rewrite <- (Nat.add_0_r (List.length pre)) at 1.
      rewrite !at_skip. exact Hrest. }
    rewrite A, app_nil_r. f_equal. simpl. lia.
  - rewrite dotIdentifiers_unfold. cbn [flat_map app].
    set (tail := flat_map (fun name => [mkLexeme Dot "."; mkLexeme Identifier name]) names
                 ++ rest).
    assert (A1 : at_ (pre ++ mkLexeme Dot "." :: mkLexeme Identifier name :: tail)
                   (List.length pre) (typeIs Dot) = true).
    { rewrite <- (Nat.add_0_r (List.length pre)). now rewrite at_skip. }
    assert (A2 : at_ (pre ++ mkLexeme Dot "." :: mkLexeme Identifier name :: tail)
                   (S (List.length pre)) (typeIs Identifier) = true).
    { replace (S (List.length pre)) with (List.length pre + 1) by lia.
      now rewrite at_skip. }
    assert (A3 : valueAt (pre ++ mkLexeme Dot "." :: mkLexeme Identifier name :: tail)
                   (S (List.length pre)) = name).
    { replace (S (List.length pre)) with (List.length pre + 1) by lia.
      now rewrite valueAt_skip. }
    rewrite A1, A2, A3. cbn [andb].
    specialize (IH (pre ++ [mkLexeme Dot "."; mkLexeme Identifier name]) rest
                  (identifiers ++ [name]) Hrest).
    rewrite <- !app_assoc in IH. cbn [app] in IH.
    rewrite length_app in IH. cbn [List.length] in IH.
    replace (List.length pre + 2) with (S (S (List.length pre))) in IH by lia.
    fold tail in IH. rewrite IH. f_equal. cbn [List.length]. lia.
Qed.

(** X6: [parseTableSource] reads a dotted name [n0.n1. ... .nk] in full:
    the last name is the table, the names before it are the namespaces
    (none for a single name), and the cursor is behind the last name. *)
Theorem X6_parseTableSource_qualified_name :
  forall (VC SQ : Type) (pre rest : list Lexeme) (first : Lexeme)
         (names : list string),
    endsName rest ->
    SourceParser.parseTableSource VC SQ
      (pre ++ qualifiedName first names ++ rest) (List.length pre)
    = Ok (match names with
          | [] => SourceParser.TableSource VC SQ None (value first)
          | _ => SourceParser.TableSource VC SQ
                   (Some (removelast (value first :: names)))
                   (last (value first :: names) EmptyString)
          end,
          List.length pre + 1 + 2 * List.length names).
Proof.
  intros VC SQ pre rest first names Hrest.
  unfold SourceParser.parseTableSource, qualifiedName.
  rewrite <- (Nat.add_0_r (List.length pre)) at 1.
  rewrite nth_error_skip. cbn [app nth_error].
  pose proof (@dotIdentifiers_names names (pre ++ [first]) rest [value first] Hrest) as H.
  rewrite <- app_assoc, length_app in H. cbn [app List.length] in H.
  replace (S (List.length pre)) with (List.length pre + 1) by lia.
  rewrite H. cbn [app].
  destruct names as [|name names'].
  - reflexivity.
  - cbn [List.length]. replace (1 <? S (S (List.length names')))%nat with true
      by (symmetry; apply Nat.ltb_lt; lia).
    reflexivity.
Qed.

Lemma X6_parseTableSource_qualified_name_witness :
  SourceParser.parseTableSource Fragment.Value unit
    (Fragment.lexemesOf "from public.users.u x") 1
  = Ok (SourceParser.TableSource Fragment.Value unit (Some ["public"; "users"]) "u", 6).
Proof.
  exact (@X6_parseTableSource_qualified_name Fragment.Value unit
           [mkLexeme Keyword "from"] [mkLexeme Identifier "x"]
           (mkLexeme Identifier "public") ["users"; "u"] eq_refl).
Defined.

Lemma dotIdentifiers_bounds lexemes :
  forall k identifiers idx,
    List.length lexemes - idx <= k ->
    exists more n,
      SourceParser.dotIdentifiers lexemes identifiers idx = (identifiers ++ more, n)
      /\ n = idx + 2 * List.length more
      /\ (idx <= List.length lexemes -> n <= List.length lexemes).
Proof.
  induction k as [|k IH]; intros identifiers idx Hk;
    rewrite dotIdentifiers_unfold;
    destruct (at_ lexemes idx (typeIs Dot)
              && at_ lexemes (S idx) (typeIs Identifier)) eqn:E.
  - apply andb_prop in E as [_ E]. unfold at_ in E.
    destruct (nth_error lexemes (S idx)) eqn:En; [|discriminate].
    assert (S idx < List.length lexemes) by (apply nth_error_Some; congruence). lia.
  - exists [], idx. rewrite app_nil_r. simpl. repeat split; lia.
  - apply andb_prop in E as [_ E]. unfold at_ in E.
    destruct (nth_error lexemes (S idx)) eqn:En; [|discriminate].
    assert (S idx < List.length lexemes) by (apply nth_error_Some; congruence).
    destruct (IH (identifiers ++ [valueAt lexemes (S idx)]) (S (S idx)))
      as (more & n & Hd & Hn & Hb); [lia|].
    exists (valueAt lexemes (S idx) :: more), n. rewrite Hd, <- app_assoc.
    simpl. repeat split; try lia.
  - exists [], idx. rewrite app_nil_r. simpl. repeat split; lia.
Qed.

(** X7: [SourceParser.parse] does not look at the type of the lexeme it
    takes for a table name.  Whatever lexeme is at the cursor, unless it
    is an opening parenthesis or a function name, the call returns a
    table source whose first name is that lexeme's value, and the cursor
    moves forward without leaving the lexemes. *)
Theorem X7_parse_takes_any_lexeme_as_table_name :
  forall (VC SQ : Type)
         (sel : list Lexeme -> nat -> Result (SQ * nat))
         (arg : TokenType -> TokenType -> list Lexeme -> nat -> Result (VC * nat))
         (lexemes : list Lexeme) (index : nat) (lx : Lexeme),
    nth_error lexemes index = Some lx ->
    type lx <> OpenParen ->
    type lx <> FunctionT ->
    exists namespaces table n,
      SourceParser.parse sel arg lexemes index
      = Ok (SourceParser.TableSource VC SQ namespaces table, n)
      /\ index < n <= List.length lexemes
      /\ (namespaces = None -> table = value lx /\ n = S index)
      /\ (forall ns, namespaces = Some ns -> hd_error (ns ++ [table]) = Some (value lx)).
Proof.
  intros VC SQ sel arg lexemes index lx Hlx Hp Hf.
  assert (Hin : index < List.length lexemes) by (apply nth_error_Some; congruence).
  unfold SourceParser.parse, at_. rewrite Hlx.
  replace (typeIs OpenParen lx) with false
    by (symmetry; apply not_true_is_false; now rewrite typeIs_eq).
  replace (typeIs FunctionT lx) with false
    by (symmetry; apply not_true_is_false; now rewrite typeIs_eq).
  unfold SourceParser.parseTableSource. rewrite Hlx.
  destruct (@dotIdentifiers_bounds lexemes (List.length lexemes) [value lx] (S index))
    as (more & n & Hd & Hn & Hb); [lia|].
  rewrite Hd. cbn [app List.length].
  destruct more as [|name more].
  - simpl in Hn, Hb. exists None, (value lx), n.
    split; [reflexivity|]. split; [lia|].
    split; [intros _; split; [reflexivity|lia] | discriminate].
  - replace (1 <? S (List.length (name :: more)))%nat with true
      by (symmetry; apply Nat.ltb_lt; simpl; lia).
    eexists _, _, n. split; [reflexivity|]. split; [lia|]. split; [discriminate|].
    intros ns Hns. inversion Hns; subst. reflexivity.
Qed.

Lemma X7_parse_takes_any_lexeme_as_table_name_witness :
  exists namespaces table n,
    SourceParser.parse (SelectQueryParser.parse (C := Fragment.parsers))
      Fragment.ValueParser_parseArgument (Fragment.lexemesOf "from , x") 1
    = Ok (SourceParser.TableSource Fragment.Value _ namespaces table, n)
    /\ 1 < n <= 3
    /\ (namespaces = None -> table = "," /\ n = 2)
    /\ (forall ns, namespaces = Some ns -> hd_error (ns ++ [table]) = Some ",").
Proof.
  apply (@X7_parse_takes_any_lexeme_as_table_name _ _
           (SelectQueryParser.parse (C := Fragment.parsers))
           Fragment.ValueParser_parseArgument
           (Fragment.lexemesOf "from , x") 1 (mkLexeme Comma ","));
    [reflexivity | discriminate | discriminate].
Defined.

(** X8: at the end of the lexemes [SourceParser.parse] has no error of
    its own: reading [lexemes[idx].value] throws a [TypeError]. *)
Theorem X8_parse_at_end_of_input :
  forall (VC SQ : Type)
         (sel : list Lexeme -> nat -> Result (SQ * nat))
         (arg : TokenType -> TokenType -> list Lexeme -> nat -> Result (VC * nat))
         (lexemes : list Lexeme) (index : nat),
    List.length lexemes <= index ->
    SourceParser.parse sel arg lexemes index = Throw undefinedValue
    /\ name undefinedValue = "TypeError".
Proof.
  intros VC SQ sel arg lexemes index H.
  unfold SourceParser.parse. rewrite !at_out_of_range by assumption.
  unfold SourceParser.parseTableSource.
  apply nth_error_None in H. rewrite H. split; reflexivity.
Qed.

Lemma X8_parse_at_end_of_input_witness :
  SourceParser.parse (SelectQueryParser.parse (C := Fragment.parsers))
    Fragment.ValueParser_parseArgument (Fragment.lexemesOf "from") 1
  = Throw undefinedValue
  /\ name undefinedValue = "TypeError".
Proof.
  apply (@X8_parse_at_end_of_input _ _
           (SelectQueryParser.parse (C := Fragment.parsers))
           Fragment.ValueParser_parseArgument (Fragment.lexemesOf "from") 1).
  simpl. lia.
Defined.

Lemma closeParen_ok (VC SQ : Type) lexemes
    (v v' : SourceParser.SourceComponent VC SQ) i n :
  SourceParser.closeParen lexemes (v, i) = Ok (v', n) ->
  v' = v /\ n = S i /\ at_ lexemes i (typeIs CloseParen) = true.
Proof.
  unfold SourceParser.closeParen.
  destruct (at_ lexemes i (typeIs CloseParen)); [|discriminate].
  intros H. inversion H. auto.
Qed.

Lemma parseParenSource_sound (VC SQ : Type)
    (sel : list Lexeme -> nat -> Result (SQ * nat)) lexemes :
  forall k index v n,
    List.length lexemes - index <= k ->
    SourceParser.parseParenSource VC sel lexemes index = Ok (v, n) ->
    exists depth, nestedSubQuery sel lexemes index depth v n.
Proof.
  induction k as [|k IH]; intros index v n Hk H;
    rewrite parseParenSource_unfold in H;
    destruct (nth_error lexemes (S index)) as [lx|] eqn:E; try discriminate H.
  - assert (S index < List.length lexemes) by (apply nth_error_Some; congruence). lia.
  - assert (Hlt : S index < List.length lexemes) by (apply nth_error_Some; congruence).
    destruct (valueIs "select" lx) eqn:Es.
    + unfold SourceParser.parseSubQuerySource in H.
      destruct (sel lexemes (S index)) as [[q m]| |] eqn:Eq; simpl in H;
        try discriminate H.
      apply closeParen_ok in H as (-> & -> & Hc).
      exists 1, q, m. replace (index + 1) with (S index) by lia.
      repeat split; try lia; try assumption.
      * unfold at_. now rewrite E.
      * intros i Hi. replace i with 0 by lia. now rewrite Nat.add_0_r.
    + destruct (typeIs OpenParen lx) eqn:Ep; [|discriminate H].
      destruct (SourceParser.parseParenSource VC sel lexemes (S index))
        as [[v0 n0]| |] eqn:Er; simpl in H; try discriminate H.
      apply closeParen_ok in H as (-> & -> & Hc).
      apply IH in Er as (depth & q & m & Hd & Hopen & Hsel & Hq & -> & -> & Hclose);
        [|lia].
      exists (S depth), q, m.
      replace (index + S depth) with (S index + depth) by lia.
      repeat split; try lia; try assumption.
      * intros i Hi. destruct (Nat.eq_dec i 1) as [->|Hne].
        -- replace (index + 1) with (S index) by lia.
           unfold at_. rewrite E, Ep, Es. reflexivity.
        -- replace (index + i) with (S index + (i - 1)) by lia.
           apply Hopen. lia.
      * intros i Hi. destruct (Nat.eq_dec i depth) as [->|Hne];
          [exact Hc|apply Hclose; lia].
Qed.

(** X9: the source that [parseParenSource] returns is a subquery source.
    Behind the parenthesis at [index], which the caller has seen, come
    [depth - 1] further opening parentheses and the query that the select
    parser read; the query is followed by [depth] closing parentheses, and
    the cursor is behind the last of them. *)
Theorem X9_parseParenSource_balanced :
  forall (VC SQ : Type) (sel : list Lexeme -> nat -> Result (SQ * nat))
         (lexemes : list Lexeme) (index : nat)
         (v : SourceParser.SourceComponent VC SQ) (n : nat),
    SourceParser.parseParenSource VC sel lexemes index = Ok (v, n) ->
    exists depth, nestedSubQuery sel lexemes index depth v n.
Proof.
  intros. eapply parseParenSource_sound; eauto.
Qed.

(** X10: conversely, a select query in any number of balanced
    parentheses is returned as a subquery source, with the cursor behind
    the last closing parenthesis. *)
Theorem X10_parseParenSource_accepts_nesting :
  forall (VC SQ : Type) (sel : list Lexeme -> nat -> Result (SQ * nat))
         (lexemes : list Lexeme) (depth index : nat)
         (v : SourceParser.SourceComponent VC SQ) (n : nat),
    nestedSubQuery sel lexemes index depth v n ->
    SourceParser.parseParenSource VC sel lexemes index = Ok (v, n).
Proof.
  intros VC SQ sel lexemes depth.
  induction depth as [|depth IH]; intros index v n (q & m & Hd & Hopen & Hsel & Hq & -> & -> & Hclose);
    [lia|].
  rewrite parseParenSource_unfold.
  destruct depth as [|depth'].
  - replace (index + 1) with (S index) in * by lia.
    unfold at_ in Hsel. destruct (nth_error lexemes (S index)) as [lx|]; [|discriminate].
    rewrite Hsel. unfold SourceParser.parseSubQuerySource. rewrite Hq. simpl.
    specialize (Hclose 0 ltac:(lia)). rewrite Nat.add_0_r in Hclose. rewrite Hclose.
    do 2 f_equal. lia.
  - pose proof (Hopen 1 ltac:(lia)) as H1.
    replace (index + 1) with (S index) in H1 by lia.
    unfold at_ in H1. destruct (nth_error lexemes (S index)) as [lx|]; [|discriminate].
    apply andb_prop in H1 as [Hp Hs]. apply negb_true_iff in Hs. rewrite Hs, Hp.
    rewrite (IH (S index) (SourceParser.SubQuerySource VC q) (m + S depth')).
    + simpl. specialize (Hclose (S depth') ltac:(lia)). rewrite Hclose.
      do 2 f_equal. lia.
    + exists q, m. replace (S index + S depth') with (index + S (S depth')) by lia.
      repeat split; try lia; try assumption.
      * intros i Hi. replace (S index + i) with (index + S i) by lia.
        apply Hopen. lia.
      * intros i Hi. apply Hclose. lia.
Qed.

Lemma X9_parseParenSource_balanced_witness :
  exists depth,
    nestedSubQuery (SelectQueryParser.parse (C := Fragment.parsers))
      (Fragment.lexemesOf "((select a, b))") 0 depth
      (SourceParser.SubQuerySource Fragment.Value selectAB) 8.
Proof.
  apply (@X9_parseParenSource_balanced Fragment.Value _
           (SelectQueryParser.parse (C := Fragment.parsers))
           (Fragment.lexemesOf "((select a, b))") 0).
  reflexivity.
Defined.

Lemma X10_parseParenSource_accepts_nesting_witness :
  SourceParser.parseParenSource Fragment.Value
    (SelectQueryParser.parse (C := Fragment.parsers))
    (Fragment.lexemesOf "((select a, b))") 0
  = Ok (SourceParser.SubQuerySource Fragment.Value selectAB, 8).
Proof.
  apply (@X10_parseParenSource_accepts_nesting Fragment.Value _
           (SelectQueryParser.parse (C := Fragment.parsers))
           (Fragment.lexemesOf "((select a, b))") 2 0).
  exists selectAB, 6. split; [lia|]. split.
  - intros i Hi. replace i with 1 by lia. reflexivity.
  - split; [reflexivity|]. split; [reflexivity|]. split; [reflexivity|].
    split; [reflexivity|].
    intros i Hi. destruct i as [|[|i]]; [reflexivity|reflexivity|lia].
Defined.

Lemma closeParen_throw (VC SQ : Type) lexemes
    (v : SourceParser.SourceComponent VC SQ) i e :
  SourceParser.closeParen lexemes (v, i) = Throw e ->
  at_ lexemes i (typeIs CloseParen) = false
  /\ e = Error ("Expected closing parenthesis at index " ++ toString i).
Proof.
  unfold SourceParser.closeParen.
  destruct (at_ lexemes i (typeIs CloseParen)); [discriminate|].
  intros H. inversion H. auto.
Qed.

(** X11: [parseParenSource] throws one of its three errors ("Unexpected
    end of input", "Expected 'SELECT' or '('", "Expected closing
    parenthesis"), or, unchanged, the error of the select parser called
    at a [select]. *)
Theorem X11_parseParenSource_errors :
  forall (VC SQ : Type) (sel : list Lexeme -> nat -> Result (SQ * nat))
         (lexemes : list Lexeme) (index : nat) (e : JsError),
    SourceParser.parseParenSource VC sel lexemes index = Throw e ->
    (exists i, parenSourceError i e)
    \/ (exists i, at_ lexemes i (valueIs "select") = true
                  /\ sel lexemes i = Throw e).
Proof.
  intros VC SQ sel lexemes index e.
  remember (List.length lexemes - index) as k eqn:Hk.
  assert (Hle : List.length lexemes - index <= k) by lia. clear Hk.
  revert index Hle.
  induction k as [|k IH]; intros index Hk H;
    rewrite parseParenSource_unfold in H;
    destruct (nth_error lexemes (S index)) as [lx|] eqn:E.
  - assert (S index < List.length lexemes) by (apply nth_error_Some; congruence). lia.
  - inversion H. left. exists (S index). left. reflexivity.
  - assert (Hlt : S index < List.length lexemes) by (apply nth_error_Some; congruence).
    destruct (valueIs "select" lx) eqn:Es.
    + unfold SourceParser.parseSubQuerySource in H.
      destruct (sel lexemes (S index)) as [[q m]| |] eqn:Eq; simpl in H;
        try discriminate H.
      * apply closeParen_throw in H as [Hc ->]. left.
        exists m. right. right. reflexivity.
      * inversion H; subst. right. exists (S index).
        split; [|exact Eq]. unfold at_. now rewrite E.
    + destruct (typeIs OpenParen lx) eqn:Ep.
      * destruct (SourceParser.parseParenSource VC sel lexemes (S index))
          as [[v0 n0]| |] eqn:Er; simpl in H; try discriminate H.
        -- apply closeParen_throw in H as [Hc ->]. left.
           exists n0. right. right. reflexivity.
        -- inversion H; subst. apply IH in Er; [exact Er|lia].
      * inversion H. left. exists (S index). right. left. reflexivity.
  - inversion H. left. exists (S index). left. reflexivity.
Qed.

Lemma X11_parseParenSource_errors_witness :
  (exists i, parenSourceError i (Error "Expected closing parenthesis at index 5"))
  \/ (exists i,
        at_ (Fragment.lexemesOf "((select a)") i (valueIs "select") = true
        /\ SelectQueryParser.parse (C := Fragment.parsers)
             (Fragment.lexemesOf "((select a)") i
           = Throw (Error "Expected closing parenthesis at index 5")).
Proof.
  apply (@X11_parseParenSource_errors Fragment.Value _
           (SelectQueryParser.parse (C := Fragment.parsers))
           (Fragment.lexemesOf "((select a)") 0).
  reflexivity.
Defined.

(** ** The formatter and its printer *)

Lemma appendTokenWith_strict g b :
  (forall q token level,
      g (set_strictCommentPlacement b q) token level = g q token level) ->
  forall token p level parent lp,
    SqlPrinter.appendTokenWith g (set_strictCommentPlacement b p) token level parent lp
    = SqlPrinter.appendTokenWith g p token level parent lp.
Proof.
  intros Hg token.
  induction token as [ty txt ct kts its IHk IHi] using token_induction.
  intros p level parent lp.
  assert (EK : forall lvl lp0,
    fold_left (fun lp1 child =>
      SqlPrinter.appendTokenWith g (set_strictCommentPlacement b p) child lvl (Some ct) lp1)
      kts lp0
    = fold_left (fun lp1 child => SqlPrinter.appendTokenWith g p child lvl (Some ct) lp1)
        kts lp0).
  { intros lvl lp0. apply fold_left_ext_Forall.
    eapply Forall_impl; [|exact IHk]. intros child Hc a. apply Hc. }
  assert (EI : forall lvl lp0,
    fold_left (fun lp1 child =>
      SqlPrinter.appendTokenWith g (set_strictCommentPlacement b p) child lvl (Some ct) lp1)
      its lp0
    = fold_left (fun lp1 child => SqlPrinter.appendTokenWith g p child lvl (Some ct) lp1)
        its lp0).
  { intros lvl lp0. apply fold_left_ext_Forall.
    eapply Forall_impl; [|exact IHi]. intros child Hc a. apply Hc. }
  cbn [SqlPrinter.appendTokenWith].
  rewrite !EK, !EI.
  unfold SqlPrinter.handleCteOnelineToken.
  change (SqlPrinter.onelinePrinter (set_strictCommentPlacement b p))
    with (set_strictCommentPlacement b (SqlPrinter.onelinePrinter p)).
  rewrite Hg. reflexivity.
Qed.

Lemma printWith_strict g b :
  (forall q token level,
      g (set_strictCommentPlacement b q) token level = g q token level) ->
  forall p token level,
    SqlPrinter.printWith g (set_strictCommentPlacement b p) token level
    = SqlPrinter.printWith g p token level.
Proof.
  intros Hg p token level. unfold SqlPrinter.printWith.
  rewrite (@appendTokenWith_strict g b Hg). reflexivity.
Qed.

Lemma print_strict b p token level :
  SqlPrinter.print (set_strictCommentPlacement b p) token level
  = SqlPrinter.print p token level.
Proof.
  unfold SqlPrinter.print. apply printWith_strict.
  intros q token' level'. unfold SqlPrinter.printOneline.
  apply printWith_strict. reflexivity.
Qed.

Lemma new_withStrictCommentPlacement options b f :
  SqlFormatter.new options = Ok f ->
  SqlFormatter.new (withStrictCommentPlacement b options)
  = Ok (SqlFormatter.mk (SqlFormatter.parser f)
          (set_strictCommentPlacement (SqlPrinter.orElse b false)
             (SqlFormatter.printer f))).
Proof.
  unfold SqlFormatter.new, SqlFormatter.newWith. cbn [withStrictCommentPlacement SqlFormatterOptions.preset].
  destruct (SqlFormatter.truthyPreset (SqlFormatterOptions.preset options)) as [name|];
    [destruct (PRESETS name)|]; intros H; inversion H; reflexivity.
Qed.

Lemma preparePrinter_strict `{C : SqlFormatter.Collaborators} b p sql :
  SqlFormatter.preparePrinter (set_strictCommentPlacement b p) sql
  = set_strictCommentPlacement b (SqlFormatter.preparePrinter p sql).
Proof.
  unfold SqlFormatter.preparePrinter.
  cbn [set_strictCommentPlacement SqlPrinter.cteOnelineDependency].
  destruct (_ && _); reflexivity.
Qed.

(** X12: the option [strictCommentPlacement] has no effect on the result
    of [format].  It is not among the options of the lowering stage, and
    the printer stores it and hands it to the one-line printer but never
    reads it. *)
Theorem X12_format_ignores_strictCommentPlacement :
  forall (C : SqlFormatter.Collaborators) (options : SqlFormatterOptions.t)
         (b : option bool) (f : SqlFormatter.t) (sql : SqlFormatter.SqlComponent),
    SqlFormatter.new options = Ok f ->
    exists f',
      SqlFormatter.new (withStrictCommentPlacement b options) = Ok f'
      /\ fst (SqlFormatter.format f' sql) = fst (SqlFormatter.format f sql).
Proof.
  intros C options b f sql Hnew.
  eexists. split; [apply new_withStrictCommentPlacement; exact Hnew|].
  unfold SqlFormatter.format. cbn [SqlFormatter.parser SqlFormatter.printer].
  destruct (SqlFormatter.SqlPrintTokenParser_parse (SqlFormatter.parser f) sql)
    as [[token ps]| |]; cbn [fst]; try reflexivity.
  now rewrite preparePrinter_strict, print_strict.
Qed.

Lemma X12_format_ignores_strictCommentPlacement_witness :
  exists f',
    SqlFormatter.new
      (withStrictCommentPlacement (Some true) (Lowered.dependencyOptions " " 2)) = Ok f'
    /\ fst (SqlFormatter.format (C := Lowered.collaborators) f' Lowered.enrichedSelect)
       = fst (SqlFormatter.format (C := Lowered.collaborators)
                dependencyFormatter Lowered.enrichedSelect).
Proof.
  apply (@X12_format_ignores_strictCommentPlacement Lowered.collaborators
           (Lowered.dependencyOptions " " 2) (Some true) dependencyFormatter
           Lowered.enrichedSelect).
  reflexivity.
Defined.

Section FormatState.

Context {C : SqlFormatter.Collaborators}.

Lemma format_state this sql :
  snd (SqlFormatter.format this sql) = this
  \/ snd (SqlFormatter.format this sql)
     = SqlFormatter.mk (SqlFormatter.parser this)
         (SqlFormatter.preparePrinter (SqlFormatter.printer this) sql).
Proof.
  unfold SqlFormatter.format.
  destruct (SqlFormatter.SqlPrintTokenParser_parse (SqlFormatter.parser this) sql)
    as [[token ps]| |]; auto.
Qed.

Lemma preparePrinter_off p sql :
  SqlPrinter.cteOnelineDependency p = false ->
  SqlFormatter.preparePrinter p sql = p.
Proof. intros H. unfold SqlFormatter.preparePrinter. now rewrite H. Qed.

Lemma format_keeps_formatter this sql :
  SqlPrinter.cteOnelineDependency (SqlFormatter.printer this) = false
  \/ SqlFormatter.instanceofSimpleSelectQuery sql = false ->
  snd (SqlFormatter.format this sql) = this.
Proof.
  intros H. destruct (format_state this sql) as [E|E]; [exact E|].
  rewrite E. replace (SqlFormatter.preparePrinter (SqlFormatter.printer this) sql)
    with (SqlFormatter.printer this); [now destruct this|].
  unfold SqlFormatter.preparePrinter.
  destruct H as [-> | ->]; [reflexivity|now rewrite andb_false_r].
Qed.

Lemma formatAll_off this history :
  SqlPrinter.cteOnelineDependency (SqlFormatter.printer this) = false ->
  formatAll this history = this.
Proof.
  intros H. unfold formatAll. induction history as [|sql history IH]; [reflexivity|].
  cbn [fold_left]. rewrite format_keeps_formatter by auto. exact IH.
Qed.

Lemma preparePrinter_reset p sql :
  resetDependencyState (SqlFormatter.preparePrinter p sql) = resetDependencyState p.
Proof.
  unfold SqlFormatter.preparePrinter. destruct (_ && _); reflexivity.
Qed.

Lemma preparePrinter_dependency_flag p sql :
  SqlPrinter.cteOnelineDependency (SqlFormatter.preparePrinter p sql)
  = SqlPrinter.cteOnelineDependency p.
Proof.
  unfold SqlFormatter.preparePrinter. destruct (_ && _); reflexivity.
Qed.

Lemma formatAll_invariant this history :
  SqlFormatter.parser (formatAll this history) = SqlFormatter.parser this
  /\ resetDependencyState (SqlFormatter.printer (formatAll this history))
     = resetDependencyState (SqlFormatter.printer this).
Proof.
  unfold formatAll. revert this.
  induction history as [|sql history IH]; intros this; [split; reflexivity|].
  cbn [fold_left]. destruct (IH (snd (SqlFormatter.format this sql))) as [Hp Hr].
  rewrite Hp, Hr.
  destruct (format_state this sql) as [E|E]; rewrite E; [split; reflexivity|].
  cbn [SqlFormatter.parser SqlFormatter.printer].
  split; [reflexivity|apply preparePrinter_reset].
Qed.

Lemma preparePrinter_of_reset p p' sql :
  resetDependencyState p' = resetDependencyState p ->
  SqlFormatter.instanceofSimpleSelectQuery sql = true ->
  SqlPrinter.cteOnelineDependency p = true ->
  SqlFormatter.preparePrinter p' sql = SqlFormatter.preparePrinter p sql.
Proof.
  intros Hr Hs Hd.
  assert (Hd' : SqlPrinter.cteOnelineDependency p' = true).
  { change (SqlPrinter.cteOnelineDependency (resetDependencyState p') = true).
    now rewrite Hr. }
  rewrite !preparePrinter_dependency by assumption.
  destruct p, p'. unfold resetDependencyState, SqlPrinter.set_importComments,
    SqlPrinter.set_cteOneline in *. cbn in *. inversion Hr; subst. reflexivity.
Qed.

End FormatState.

(** X13: without [cteOnelineDependency], [format] leaves the formatter
    as it was: earlier calls do not change what a call returns. *)
Theorem X13_format_without_dependency_mode_is_stateless :
  forall (C : SqlFormatter.Collaborators) (this : SqlFormatter.t)
         (history : list SqlFormatter.SqlComponent) (sql : SqlFormatter.SqlComponent),
    SqlPrinter.cteOnelineDependency (SqlFormatter.printer this) = false ->
    formatAll this history = this
    /\ SqlFormatter.format (formatAll this history) sql = SqlFormatter.format this sql.
Proof.
  intros C this history sql H.
  rewrite formatAll_off by assumption. split; reflexivity.
Qed.

(** X14: for a [SimpleSelectQuery] the result of [format] does not depend
    on the calls made before, also in dependency mode: the two printer
    fields that [format] leaves behind are assigned again before the
    query is printed. *)
Theorem X14_format_of_SimpleSelectQuery_ignores_history :
  forall (C : SqlFormatter.Collaborators) (this : SqlFormatter.t)
         (history : list SqlFormatter.SqlComponent) (sql : SqlFormatter.SqlComponent),
    SqlFormatter.instanceofSimpleSelectQuery sql = true ->
    fst (SqlFormatter.format (formatAll this history) sql)
    = fst (SqlFormatter.format this sql).
Proof.
  intros C this history sql Hs.
  destruct (SqlPrinter.cteOnelineDependency (SqlFormatter.printer this)) eqn:Hd.
  - destruct (formatAll_invariant this history) as [Hp Hr].
    unfold SqlFormatter.format. rewrite Hp.
    rewrite (preparePrinter_of_reset _ Hr Hs Hd).
    destruct (SqlFormatter.SqlPrintTokenParser_parse (SqlFormatter.parser this) sql)
      as [[token ps]| |]; reflexivity.
  - now rewrite formatAll_off.
Qed.

Lemma X13_format_without_dependency_mode_is_stateless_witness :
  formatAll (C := Lowered.collaborators)
    (Lowered.formatterOf (Lowered.prettyOptions " " 2))
    [Lowered.enrichedSelect; Lowered.unionQuery]
  = Lowered.formatterOf (Lowered.prettyOptions " " 2)
  /\ SqlFormatter.format (C := Lowered.collaborators)
       (formatAll (C := Lowered.collaborators)
          (Lowered.formatterOf (Lowered.prettyOptions " " 2))
          [Lowered.enrichedSelect; Lowered.unionQuery])
       Lowered.unionQuery
     = SqlFormatter.format (C := Lowered.collaborators)
         (Lowered.formatterOf (Lowered.prettyOptions " " 2)) Lowered.unionQuery.
Proof.
  apply (@X13_format_without_dependency_mode_is_stateless Lowered.collaborators).
  reflexivity.
Defined.

Lemma X14_format_of_SimpleSelectQuery_ignores_history_witness :
  fst (SqlFormatter.format (C := Lowered.collaborators)
         (formatAll (C := Lowered.collaborators) dependencyFormatter
            [Lowered.unionQuery; Lowered.enrichedSelect; Lowered.unionQuery])
         Lowered.enrichedSelect)
  = fst (SqlFormatter.format (C := Lowered.collaborators)
           dependencyFormatter Lowered.enrichedSelect).
Proof.
  apply (@X14_format_of_SimpleSelectQuery_ignores_history Lowered.collaborators).
  reflexivity.
Defined.

Lemma new_cteOnelineSet options f :
  SqlFormatter.new options = Ok f ->
  SqlPrinter.cteOnelineSet (SqlFormatter.printer f) = []
  /\ SqlPrinter.importComments (SqlFormatter.printer f) = [].
Proof.
  unfold SqlFormatter.new, SqlFormatter.newWith.
  destruct (SqlFormatter.truthyPreset (SqlFormatterOptions.preset options)) as [name|];
    [destruct (PRESETS name)|]; intros H; inversion H;
    cbn; destruct (SqlFormatterOptions.cteOnelineDependency options) as [[|]|];
    split; reflexivity.
Qed.

(** X15: the set [cteOnelineSet] that the constructor creates in
    dependency mode is never filled.  After any number of [format] calls
    it is empty, so whether a common table is printed on one line is
    decided by the flag [cteOneline] alone. *)
Theorem X15_cteOnelineSet_stays_empty :
  forall (C : SqlFormatter.Collaborators) (options : SqlFormatterOptions.t)
         (f : SqlFormatter.t) (history : list SqlFormatter.SqlComponent)
         (token : SqlPrintToken),
    SqlFormatter.new options = Ok f ->
    SqlPrinter.cteOnelineSet (SqlFormatter.printer (formatAll f history)) = []
    /\ SqlPrinter.shouldFormatCteOneline (SqlFormatter.printer (formatAll f history)) token
       = SqlPrinter.cteOneline (SqlFormatter.printer (formatAll f history)).
Proof.
  intros C options f history token Hnew.
  assert (Hset : SqlPrinter.cteOnelineSet (SqlFormatter.printer (formatAll f history)) = []).
  { destruct (formatAll_invariant f history) as [_ Hr].
    change (SqlPrinter.cteOnelineSet
              (resetDependencyState (SqlFormatter.printer (formatAll f history))) = []).
    rewrite Hr. apply (new_cteOnelineSet _ Hnew). }
  split; [exact Hset|].
  unfold SqlPrinter.shouldFormatCteOneline. rewrite Hset.
  destruct (SqlPrinter.cteOneline _); [reflexivity|].
  destruct (negb _); [reflexivity|].
  now destruct (SqlPrinter.extractCteNameFromToken token).
Qed.

Lemma X15_cteOnelineSet_stays_empty_witness :
  SqlPrinter.cteOnelineSet
    (SqlFormatter.printer
       (formatAll (C := Lowered.collaborators) dependencyFormatter
          [Lowered.enrichedSelect; Lowered.unionQuery])) = []
  /\ SqlPrinter.shouldFormatCteOneline
       (SqlFormatter.printer
          (formatAll (C := Lowered.collaborators) dependencyFormatter
             [Lowered.enrichedSelect; Lowered.unionQuery])) Lowered.enriched
     = SqlPrinter.cteOneline
         (SqlFormatter.printer
            (formatAll (C := Lowered.collaborators) dependencyFormatter
               [Lowered.enrichedSelect; Lowered.unionQuery])).
Proof.
  apply (@X15_cteOnelineSet_stays_empty Lowered.collaborators
           (Lowered.dependencyOptions " " 2)).
  reflexivity.
Defined.

(** X16: in dependency mode, when the dependency tracer throws on a
    [SimpleSelectQuery], [format] does not fail: the query is printed with
    one-line common tables and without import comments. *)
Theorem X16_tracer_failure_is_swallowed :
  forall (C : SqlFormatter.Collaborators) (this : SqlFormatter.t)
         (sql : SqlFormatter.SqlComponent) (token : SqlPrintToken)
         (ps : SqlFormatter.Params),
    SqlPrinter.cteOnelineDependency (SqlFormatter.printer this) = true ->
    SqlFormatter.instanceofSimpleSelectQuery sql = true ->
    isOk (SqlFormatter.CTEDependencyTracer_buildGraph sql) = false ->
    SqlFormatter.SqlPrintTokenParser_parse (SqlFormatter.parser this) sql
    = Ok (token, ps) ->
    SqlFormatter.format this sql
    = (Ok (SqlFormatter.mkFormatted
             (SqlPrinter.print
                (SqlPrinter.set_importComments []
                   (SqlPrinter.set_cteOneline true (SqlFormatter.printer this)))
                token 0) ps),
       SqlFormatter.mk (SqlFormatter.parser this)
         (SqlPrinter.set_importComments []
            (SqlPrinter.set_cteOneline true (SqlFormatter.printer this)))).
Proof.
  intros C this sql token ps Hd Hs Hg Hp.
  unfold SqlFormatter.format. rewrite Hp.
  rewrite preparePrinter_dependency by assumption.
  unfold SqlFormatter.findDirectlyReferencedCtes.
  destruct (SqlFormatter.CTEDependencyTracer_buildGraph sql); [discriminate Hg| |];
    reflexivity.
Qed.

Lemma X16_tracer_failure_is_swallowed_witness :
  isOk (fst (SqlFormatter.format (C := Lowered.collaborators) dependencyFormatter
               (Lowered.mkComponent Lowered.enrichedSelectToken [] true
                  (Throw (Error "Circular reference detected"))))) = true.
Proof.
  rewrite (@X16_tracer_failure_is_swallowed Lowered.collaborators dependencyFormatter
             (Lowered.mkComponent Lowered.enrichedSelectToken [] true
                (Throw (Error "Circular reference detected")))
             Lowered.enrichedSelectToken [] eq_refl eq_refl eq_refl eq_refl).
  reflexivity.
Defined.

(** ** RawSqlClient: presets and column names *)

Lemma getPresetFromProvider_valid provider preset :
  RawSqlClient.getPresetFromProvider provider = Some preset ->
  In preset VALID_PRESETS.
Proof.
  unfold RawSqlClient.getPresetFromProvider.
  destruct provider as [p|]; [|discriminate].
  destruct (String.eqb p EmptyString); [discriminate|].
  repeat match goal with
         | |- (if ?b then _ else _) = _ -> _ => destruct b
         end; intros H; inversion H; simpl; auto.
Qed.

(** X17: whatever the database provider, [getPresetFromProvider] returns
    no preset or one of the valid ones, so building the formatter for the
    final SQL never throws "Invalid preset". *)
Theorem X17_formatter_for_any_provider :
  forall (provider : option string),
    (forall preset, RawSqlClient.getPresetFromProvider provider = Some preset ->
                    In preset VALID_PRESETS)
    /\ isOk (RawSqlClient.newFormatterFor provider) = true.
Proof.
  intros provider. split; [apply getPresetFromProvider_valid|].
  unfold RawSqlClient.newFormatterFor.
  destruct (RawSqlClient.getPresetFromProvider provider) as [preset|] eqn:E.
  - apply getPresetFromProvider_valid in E.
    destruct (PRESETS_valid E) as [config Hc].
    unfold SqlFormatter.new, SqlFormatter.newWith. cbn [SqlFormatterOptions.preset].
    unfold SqlFormatter.truthyPreset.
    destruct (String.eqb preset EmptyString); [reflexivity|].
    rewrite Hc. reflexivity.
  - reflexivity.
Qed.

Lemma X17_formatter_for_any_provider_witness :
  In "postgres" VALID_PRESETS
  /\ isOk (RawSqlClient.newFormatterFor (Some "PostgreSQL")) = true.
Proof.
  destruct (X17_formatter_for_any_provider (Some "PostgreSQL")) as [Hvalid Hnew].
  split; [apply Hvalid; reflexivity|exact Hnew].
Defined.

(** X18: for a mapping value whose [column] and [from], where present,
    are strings, [extractColumnName] returns a string: the value itself
    when it is a string; otherwise a non-empty [column]; otherwise a
    non-empty [from]; otherwise the key. *)
Theorem X18_extractColumnName_returns_a_name :
  forall (key : string) (value : RawSqlClient.JsValue),
    stringOrMissing (RawSqlClient.columnOf value) ->
    stringOrMissing (RawSqlClient.fromOf value) ->
    exists s,
      RawSqlClient.extractColumnName key value = RawSqlClient.JString s
      /\ (value = RawSqlClient.JString s
          \/ (RawSqlClient.isString value = false
              /\ ((s <> EmptyString
                   /\ RawSqlClient.columnOf value = RawSqlClient.JString s)
                  \/ (s <> EmptyString
                      /\ RawSqlClient.truthy (RawSqlClient.columnOf value) = false
                      /\ RawSqlClient.fromOf value = RawSqlClient.JString s)
                  \/ (s = key
                      /\ RawSqlClient.truthy (RawSqlClient.columnOf value) = false
                      /\ RawSqlClient.truthy (RawSqlClient.fromOf value) = false)))).
Proof.
  intros key value Hc Hf. unfold RawSqlClient.extractColumnName.
  destruct value as [s|column from|b];
    [ exists s; split; [reflexivity|now left] | | ].
  2: { exists key. split; [reflexivity|]. right. split; [reflexivity|].
       right. right. auto. }
  cbn [RawSqlClient.isString RawSqlClient.columnOf RawSqlClient.fromOf] in *.
  assert (Hcol : exists c, column = RawSqlClient.JString c \/ column = RawSqlClient.JUndefined).
  { destruct Hc as [Hc | ->]; [|exists EmptyString; now right].
    destruct column as [c| |]; try discriminate Hc. exists c. now left. }
  assert (Hfrom : exists f, from = RawSqlClient.JString f \/ from = RawSqlClient.JUndefined).
  { destruct Hf as [Hf | ->]; [|exists EmptyString; now right].
    destruct from as [f| |]; try discriminate Hf. exists f. now left. }
  destruct Hcol as (c & [-> | ->]); destruct Hfrom as (f & [-> | ->]);
    unfold RawSqlClient.isColumnConfig, RawSqlClient.JUndefined;
    cbn [RawSqlClient.isString RawSqlClient.truthy orb];
    try (destruct (String.eqb c EmptyString) eqn:Ec);
    try (destruct (String.eqb f EmptyString) eqn:Ef);
    cbn [negb];
    try apply String.eqb_neq in Ec; try apply String.eqb_neq in Ef;
    eexists; (split; [reflexivity|]); right; (split; [reflexivity|]);
    first [ left; split; [assumption|reflexivity]
          | right; left; split; [assumption|split; reflexivity]
          | right; right; split; [reflexivity|split; reflexivity] ].
Qed.

Lemma X18_extractColumnName_returns_a_name_witness :
  exists s,
    RawSqlClient.extractColumnName "email"
      (RawSqlClient.JObject (RawSqlClient.JString EmptyString)
         (RawSqlClient.JString "email_addr"))
    = RawSqlClient.JString s.
Proof.
  destruct (@X18_extractColumnName_returns_a_name "email"
              (RawSqlClient.JObject (RawSqlClient.JString EmptyString)
                 (RawSqlClient.JString "email_addr"))
              (or_introl eq_refl) (or_introl eq_refl)) as (s & H & _).
  exists s. exact H.
Defined.

(** ** RawSqlClient: the file cache *)

Section CacheFacts.

Variable T : Type.
Abbreviation Cache := (RawSqlClient.Cache T).
Abbreviation Entry := (RawSqlClient.CacheEntry T).

Lemma get_set key entry (cache : Cache) :
  RawSqlClient.get (RawSqlClient.set key entry cache) key = Some entry.
Proof.
  unfold RawSqlClient.get.
  induction cache as [|[k e] rest IH]; simpl.
  - now rewrite String.eqb_refl.
  - destruct (String.eqb k key) eqn:E; simpl.
    + now rewrite String.eqb_refl.
    + rewrite E. exact IH.
Qed.

Lemma keys_set key entry (cache : Cache) :
  keys (RawSqlClient.set key entry cache)
  = if RawSqlClient.has cache key then keys cache else keys cache ++ [key].
Proof.
  unfold RawSqlClient.has, RawSqlClient.get, keys.
  induction cache as [|[k e] rest IH]; simpl; [reflexivity|].
  destruct (String.eqb k key) eqn:E; simpl.
  - apply String.eqb_eq in E. now subst.
  - rewrite IH. now destruct (find _ rest).
Qed.

Lemma has_In key (cache : Cache) :
  RawSqlClient.has cache key = true <-> In key (keys cache).
Proof.
  unfold RawSqlClient.has, RawSqlClient.get, keys.
  induction cache as [|[k e] rest IH]; simpl; [split; [discriminate|tauto]|].
  destruct (String.eqb k key) eqn:E; simpl.
  - apply String.eqb_eq in E. split; auto.
  - apply String.eqb_neq in E. rewrite IH. split; [auto|intros [H|H]; congruence].
Qed.

Lemma size_set key entry (cache : Cache) :
  RawSqlClient.size (RawSqlClient.set key entry cache)
  = if RawSqlClient.has cache key then RawSqlClient.size cache
    else S (RawSqlClient.size cache).
Proof.
  unfold RawSqlClient.size.
  rewrite <- (length_map fst (RawSqlClient.set key entry cache)).
  fold (keys (RawSqlClient.set key entry cache)). rewrite keys_set.
  destruct (RawSqlClient.has cache key); unfold keys;
    rewrite ?length_app, length_map; simpl; lia.
Qed.

Lemma NoDup_set key entry (cache : Cache) :
  NoDup (keys cache) -> NoDup (keys (RawSqlClient.set key entry cache)).
Proof.
  intros H. rewrite keys_set.
  destruct (RawSqlClient.has cache key) eqn:E; [exact H|].
  apply NoDup_app; [exact H|repeat constructor; auto|].
  intros k Hk [<-|[]]. apply has_In in Hk. congruence.
Qed.

Lemma keys_delete key (cache : Cache) :
  keys (RawSqlClient.delete key cache)
  = filter (fun k => negb (String.eqb k key)) (keys cache).
Proof.
  unfold keys, RawSqlClient.delete.
  induction cache as [|[k e] rest IH]; simpl; [reflexivity|].
  destruct (String.eqb k key); simpl; now rewrite IH.
Qed.

Lemma has_delete key (cache : Cache) :
  RawSqlClient.has (RawSqlClient.delete key cache) key = false.
Proof.
  apply not_true_is_false. rewrite has_In, keys_delete, filter_In.
  intros [_ H]. now rewrite String.eqb_refl in H.
Qed.

Lemma get_delete_other key other (cache : Cache) :
  other <> key ->
  RawSqlClient.get (RawSqlClient.delete key cache) other = RawSqlClient.get cache other.
Proof.
  intros Hne. unfold RawSqlClient.get, RawSqlClient.delete.
  induction cache as [|[k e] rest IH]; simpl; [reflexivity|].
  destruct (String.eqb k key) eqn:E; simpl.
  - apply String.eqb_eq in E. subst k.
    replace (String.eqb key other) with false
      by (symmetry; apply String.eqb_neq; congruence).
    exact IH.
  - destruct (String.eqb k other); [reflexivity|exact IH].
Qed.

Lemma insertByTimestamp_perm kv (l : Cache) :
  Permutation (RawSqlClient.insertByTimestamp kv l) (kv :: l).
Proof.
  induction l as [|kv' l IH]; simpl; [reflexivity|].
  destruct (_ <=? _)%Z; [reflexivity|].
  rewrite IH. apply perm_swap.
Qed.

Lemma sortByTimestamp_perm (cache : Cache) :
  Permutation (RawSqlClient.sortByTimestamp cache) cache.
Proof.
  induction cache as [|kv l IH]; simpl; [reflexivity|].
  rewrite insertByTimestamp_perm. now constructor.
Qed.

Lemma insertByTimestamp_sorted kv (l : Cache) :
  StronglySorted (@olderOrEqual T) l ->
  StronglySorted (@olderOrEqual T) (RawSqlClient.insertByTimestamp kv l).
Proof.
  induction 1 as [|kv' l Hs IH Hall]; simpl; [repeat constructor|].
  destruct (_ <=? _)%Z eqn:E.
  - apply Z.leb_le in E. constructor; [now constructor|].
    constructor; [exact E|].
    eapply Forall_impl; [|exact Hall]. unfold olderOrEqual. intros; lia.
  - apply Z.leb_gt in E. constructor; [exact IH|].
    eapply Permutation_Forall; [symmetry; apply insertByTimestamp_perm|].
    constructor; [unfold olderOrEqual; lia|exact Hall].
Qed.

Lemma sortByTimestamp_sorted (cache : Cache) :
  StronglySorted (@olderOrEqual T) (RawSqlClient.sortByTimestamp cache).
Proof.
  induction cache as [|kv l IH]; simpl; [constructor|].
  now apply insertByTimestamp_sorted.
Qed.

Lemma StronglySorted_app_le (l1 l2 : Cache) :
  StronglySorted (@olderOrEqual T) (l1 ++ l2) ->
  forall a b, In a l1 -> In b l2 -> olderOrEqual a b.
Proof.
  induction l1 as [|x l1 IH]; intros H a b Ha Hb; [contradiction|].
  simpl in H. inversion H as [|? ? Hs Hall]; subst.
  destruct Ha as [<-|Ha].
  - rewrite Forall_forall in Hall. apply Hall. apply in_or_app. now right.
  - now apply IH.
Qed.

Lemma fold_delete (doomed : Cache) :
  forall cache : Cache,
    fold_left (fun cache kv => RawSqlClient.delete (fst kv) cache) doomed cache
    = filter (fun kv => negb (includes (keys doomed) (fst kv))) cache.
Proof.
  induction doomed as [|d doomed IH]; intros cache; simpl.
  - symmetry. apply forallb_filter_id. now apply forallb_forall.
  - rewrite IH. unfold RawSqlClient.delete.
    induction cache as [|kv cache IHc]; simpl; [reflexivity|].
    destruct (String.eqb (fst kv) (fst d)) eqn:E; simpl.
    + exact IHc.
    + unfold includes at 1. fold (includes (keys doomed) (fst kv)).
      destruct (includes (keys doomed) (fst kv)); simpl; now rewrite IHc.
Qed.

Lemma targetSizeFor_le maxSize : RawSqlClient.targetSizeFor maxSize <= maxSize.
Proof.
  unfold RawSqlClient.targetSizeFor.
  apply Nat.Div0.div_le_upper_bound. lia.
Qed.

Lemma evictCacheIfNeeded_unfold options (cache : Cache) :
  RawSqlClient.evictCacheIfNeeded options cache
  = if overLimit options cache
    then filter (fun kv => negb (includes (evictedKeys options cache) (fst kv))) cache
    else cache.
Proof.
  unfold RawSqlClient.evictCacheIfNeeded, overLimit. fold (maxSizeOf options).
  destruct ((maxSizeOf options =? 0)%nat
            || (RawSqlClient.size cache <=? maxSizeOf options)%nat) eqn:E;
    [reflexivity|]. cbn [negb].
  apply orb_false_elim in E as [_ E]. apply Nat.leb_gt in E.
  pose proof (targetSizeFor_le (maxSizeOf options)).
  destruct (_ <=? 0)%nat eqn:E0; [apply Nat.leb_le in E0; lia|].
  apply fold_delete.
Qed.

Lemma includes_In xs x : includes xs x = true <-> In x xs.
Proof.
  unfold includes. rewrite existsb_exists. split.
  - intros (y & Hy & E). apply String.eqb_eq in E. now subst.
  - intros H. exists x. split; [exact H|apply String.eqb_refl].
Qed.

Lemma NoDup_keys_unique (l : Cache) k a b :
  NoDup (keys l) -> In (k, a) l -> In (k, b) l -> a = b.
Proof.
  unfold keys. induction l as [|[k' e] l IH]; simpl; [contradiction|].
  intros Hnd [Ha|Ha] [Hb|Hb]; inversion Hnd as [|? ? Hnot Hnd']; subst.
  - congruence.
  - inversion Ha; subst. exfalso. apply Hnot. apply (in_map fst) in Hb. exact Hb.
  - inversion Hb; subst. exfalso. apply Hnot. apply (in_map fst) in Ha. exact Ha.
  - now apply IH.
Qed.

Lemma Permutation_filter_length {A} (f : A -> bool) (l l' : list A) :
  Permutation l l' -> List.length (filter f l) = List.length (filter f l').
Proof.
  induction 1; simpl; try congruence.
  - destruct (f x); simpl; congruence.
  - destruct (f x), (f y); reflexivity.
Qed.

(** The sorted entries, split at the number to remove: the evicted ones
    and the survivors. *)
Lemma evicted_split options (cache : Cache) :
  NoDup (keys cache) ->
  let sorted := RawSqlClient.sortByTimestamp cache in
  let n := entriesToRemove options cache in
  (forall kv, In kv (firstn n sorted) -> includes (evictedKeys options cache) (fst kv) = true)
  /\ (forall kv, In kv (skipn n sorted) -> includes (evictedKeys options cache) (fst kv) = false).
Proof.
  intros Hnd sorted n. split.
  - intros kv H. apply includes_In. unfold evictedKeys, keys. now apply in_map.
  - intros kv H. apply not_true_is_false. rewrite includes_In.
    unfold evictedKeys, keys. fold sorted. fold n. intros Hin.
    assert (Hs : NoDup (keys sorted)).
    { unfold keys. eapply Permutation_NoDup; [|exact Hnd].
      apply Permutation_map. symmetry. apply sortByTimestamp_perm. }
    unfold keys in Hs. rewrite <- (firstn_skipn n sorted), map_app in Hs.
    assert (Hdis : forall k, In k (map fst (firstn n sorted)) ->
                             ~ In k (map fst (skipn n sorted))).
    { revert Hs. generalize (map fst (firstn n sorted)) (map fst (skipn n sorted)).
      intros l1 l2. induction l1 as [|x l1 IH]; simpl; [contradiction|].
      intros Hnd' k [<-|Hk].
      - inversion Hnd' as [|? ? Hnot _]; subst. intros Hk. apply Hnot.
        apply in_or_app. now right.
      - inversion Hnd'; subst. now apply IH. }
    apply (Hdis _ Hin). now apply in_map.
Qed.

End CacheFacts.

Lemma filter_none {A} (f : A -> bool) (l : list A) :
  (forall x, In x l -> f x = false) -> filter f l = [].
Proof.
  induction l as [|x l IH]; intros H; simpl; [reflexivity|].
  rewrite (H x) by now left. apply IH. intros y Hy. apply H. now right.
Qed.

Lemma evictCacheIfNeeded_NoDup (T : Type) options (cache : RawSqlClient.Cache T) :
  NoDup (keys cache) ->
  NoDup (keys (RawSqlClient.evictCacheIfNeeded options cache)).
Proof.
  intros Hnd. rewrite evictCacheIfNeeded_unfold.
  destruct (overLimit options cache); [|exact Hnd].
  unfold keys.
  replace (map fst (filter (fun kv : string * RawSqlClient.CacheEntry T =>
                              negb (includes (evictedKeys options cache) (fst kv)))
                      cache))
    with (filter (fun k => negb (includes (evictedKeys options cache) k))
            (map fst cache))
    by apply filter_map_swap.
  now apply NoDup_filter.
Qed.

Lemma evictCacheIfNeeded_over_limit (T : Type) options (cache : RawSqlClient.Cache T) :
  NoDup (keys cache) ->
  overLimit options cache = true ->
  RawSqlClient.size (RawSqlClient.evictCacheIfNeeded options cache)
  = RawSqlClient.targetSizeFor (maxSizeOf options).
Proof.
  intros Hnd Eo. rewrite evictCacheIfNeeded_unfold, Eo.
  unfold overLimit in Eo. apply negb_true_iff, orb_false_elim in Eo as [_ E1].
  apply Nat.leb_gt in E1.
  pose proof (targetSizeFor_le (maxSizeOf options)) as Ht.
  destruct (@evicted_split T options cache Hnd) as [Hfirst Hskip].
  set (f := fun kv : string * RawSqlClient.CacheEntry T =>
              negb (includes (evictedKeys options cache) (fst kv))) in *.
  unfold RawSqlClient.size.
  rewrite (@Permutation_filter_length _ f _ _
             (Permutation_sym (@sortByTimestamp_perm T cache))).
  rewrite <- (firstn_skipn (entriesToRemove options cache)
                (RawSqlClient.sortByTimestamp cache)) at 1.
  rewrite filter_app, length_app.
  rewrite filter_none
    by (intros kv Hkv; unfold f; now rewrite (Hfirst kv Hkv)).
  rewrite forallb_filter_id
    by (apply forallb_forall; intros kv Hkv; unfold f; now rewrite (Hskip kv Hkv)).
  rewrite length_skipn.
  rewrite (Permutation_length (@sortByTimestamp_perm T cache)).
  unfold entriesToRemove, RawSqlClient.size in *. simpl. lia.
Qed.

Lemma within_limit (T : Type) options (cache : RawSqlClient.Cache T) :
  overLimit options cache = false ->
  maxSizeOf options <> 0 ->
  RawSqlClient.size cache <= maxSizeOf options.
Proof.
  intros Eo Hne. unfold overLimit in Eo.
  apply negb_false_iff, orb_prop in Eo as [E|E].
  - apply Nat.eqb_eq in E. contradiction.
  - now apply Nat.leb_le in E.
Qed.

(** X19: [evictCacheIfNeeded] leaves a cache alone that has no limit
    ([cacheMaxSize] 0) or is within its limit: the result is the cache
    itself.  A cache that is over its limit is cut down to
    [Math.floor(maxSize * 0.9)] entries, that is to the number [n] with
    [10 n <= 9 maxSize < 10 (n + 1)].  Either way each key still occurs
    once, and a limited cache is within its limit afterwards. *)
Theorem X19_eviction_size :
  forall (T : Type) (options : RawSqlClient.Options) (cache : RawSqlClient.Cache T),
    NoDup (keys cache) ->
    (overLimit options cache = false ->
     RawSqlClient.evictCacheIfNeeded options cache = cache)
    /\ (overLimit options cache = true ->
        10 * RawSqlClient.size (RawSqlClient.evictCacheIfNeeded options cache)
        <= 9 * maxSizeOf options
        /\ 9 * maxSizeOf options
           < 10 * (RawSqlClient.size (RawSqlClient.evictCacheIfNeeded options cache) + 1))
    /\ NoDup (keys (RawSqlClient.evictCacheIfNeeded options cache))
    /\ (maxSizeOf options <> 0 ->
        RawSqlClient.size (RawSqlClient.evictCacheIfNeeded options cache)
        <= maxSizeOf options).
Proof.
  intros T options cache Hnd.
  split; [|split; [|split]].
  - intros Eo. now rewrite evictCacheIfNeeded_unfold, Eo.
  - intros Eo. rewrite evictCacheIfNeeded_over_limit by assumption.
    unfold RawSqlClient.targetSizeFor.
    pose proof (Nat.div_mod_eq (9 * maxSizeOf options) 10) as Hdiv.
    pose proof (Nat.mod_upper_bound (9 * maxSizeOf options) 10) as Hmod.
    lia.
  - now apply evictCacheIfNeeded_NoDup.
  - intros Hne. destruct (overLimit options cache) eqn:Eo.
    + rewrite evictCacheIfNeeded_over_limit by assumption.
      apply targetSizeFor_le.
    + rewrite evictCacheIfNeeded_unfold, Eo. now apply within_limit.
Qed.

Lemma X19_eviction_size_witness :
  RawSqlClient.evictCacheIfNeeded twoEntries oneFile = oneFile
  /\ (10 * RawSqlClient.size (RawSqlClient.evictCacheIfNeeded twoEntries threeFiles)
      <= 9 * 2
      /\ 9 * 2
         < 10 * (RawSqlClient.size
                   (RawSqlClient.evictCacheIfNeeded twoEntries threeFiles) + 1))
  /\ NoDup (keys (RawSqlClient.evictCacheIfNeeded twoEntries threeFiles))
  /\ RawSqlClient.size (RawSqlClient.evictCacheIfNeeded twoEntries threeFiles) <= 2.
Proof.
  assert (Hone : NoDup (keys oneFile))
    by (repeat constructor; simpl; intuition discriminate).
  assert (Hthree : NoDup (keys threeFiles))
    by (repeat constructor; simpl; intuition discriminate).
  destruct (@X19_eviction_size string twoEntries oneFile Hone) as (Hsame & _).
  destruct (@X19_eviction_size string twoEntries threeFiles Hthree)
    as (_ & Hcut & Hkeys & Hbound).
  split; [apply Hsame; reflexivity|].
  split; [apply Hcut; reflexivity|].
  split; [exact Hkeys|].
  apply Hbound. vm_compute. discriminate.
Defined.

(** X20: [evictCacheIfNeeded] removes the oldest entries.  An entry that
    stays is an entry of the cache as it was, and no entry that is
    removed has a later timestamp than one that stays. *)
Theorem X20_eviction_removes_the_oldest :
  forall (T : Type) (options : RawSqlClient.Options) (cache : RawSqlClient.Cache T)
         (kept gone : string * RawSqlClient.CacheEntry T),
    NoDup (keys cache) ->
    In kept (RawSqlClient.evictCacheIfNeeded options cache) ->
    In gone cache ->
    ~ In gone (RawSqlClient.evictCacheIfNeeded options cache) ->
    In kept cache
    /\ (RawSqlClient.timestamp (snd gone) <= RawSqlClient.timestamp (snd kept))%Z.
Proof.
  intros T options cache kept gone Hnd Hkept Hgone Hnot.
  rewrite evictCacheIfNeeded_unfold in *.
  destruct (overLimit options cache); [|contradiction].
  apply filter_In in Hkept as [Hkin Hkf].
  split; [exact Hkin|].
  assert (Hgf : includes (evictedKeys options cache) (fst gone) = true).
  { destruct (includes (evictedKeys options cache) (fst gone)) eqn:E; [reflexivity|].
    exfalso. apply Hnot. apply filter_In. split; [exact Hgone|now rewrite E]. }
  apply negb_true_iff in Hkf.
  destruct (@evicted_split T options cache Hnd) as [Hfirst Hskip].
  set (sorted := RawSqlClient.sortByTimestamp cache) in *.
  set (n := entriesToRemove options cache) in *.
  assert (Hperm : forall kv, In kv cache <-> In kv sorted).
  { intros kv. split; apply Permutation_in;
      [symmetry|]; apply sortByTimestamp_perm. }
  assert (Hk2 : In kept (skipn n sorted)).
  { apply Hperm in Hkin. rewrite <- (firstn_skipn n sorted) in Hkin.
    apply in_app_or in Hkin as [H|H]; [|exact H].
    apply Hfirst in H. congruence. }
  assert (Hg1 : In gone (firstn n sorted)).
  { apply Hperm in Hgone. rewrite <- (firstn_skipn n sorted) in Hgone.
    apply in_app_or in Hgone as [H|H]; [exact H|].
    apply Hskip in H. congruence. }
  apply (@StronglySorted_app_le T (firstn n sorted) (skipn n sorted));
    [rewrite firstn_skipn; apply sortByTimestamp_sorted|assumption|assumption].
Qed.

Lemma X20_eviction_removes_the_oldest_witness :
  In ("a.sql", RawSqlClient.mkEntry "select a" 30%Z) threeFiles
  /\ (10 <= 30)%Z.
Proof.
  apply (@X20_eviction_removes_the_oldest string twoEntries threeFiles
           ("a.sql", RawSqlClient.mkEntry "select a" 30%Z)
           ("b.sql", RawSqlClient.mkEntry "select b" 10%Z)).
  - repeat constructor; simpl; intuition discriminate.
  - vm_compute. left. reflexivity.
  - simpl. right. left. reflexivity.
  - vm_compute. intros [H|[]]. discriminate H.
Defined.

(** X21: [checkFileCache] returns content only when caching is enabled,
    the file exists and the timestamp stored with the content is the
    file's current [mtimeMs]; the cache is not changed by a hit. *)
Theorem X21_cache_hit_is_fresh :
  forall (T : Type) (options : RawSqlClient.Options) (fs : RawSqlClient.FileSystem)
         (cache cache' : RawSqlClient.Cache T) (path : string) (t : T),
    RawSqlClient.checkFileCache options fs cache path = (Some t, cache') ->
    cache' = cache
    /\ RawSqlClient.enableFileCache options = true
    /\ RawSqlClient.existsSync fs path = true
    /\ exists entry,
         RawSqlClient.get cache path = Some entry
         /\ RawSqlClient.content entry = t
         /\ RawSqlClient.timestamp entry = RawSqlClient.mtimeMs fs path.
Proof.
  intros T options fs cache cache' path t.
  unfold RawSqlClient.checkFileCache.
  destruct (RawSqlClient.enableFileCache options); simpl; [|discriminate].
  destruct (RawSqlClient.has cache path); simpl; [|discriminate].
  destruct (RawSqlClient.existsSync fs path); simpl; [|discriminate].
  destruct (RawSqlClient.get cache path) as [entry|]; [|discriminate].
  destruct (Z.eqb_spec (RawSqlClient.timestamp entry) (RawSqlClient.mtimeMs fs path));
    [|discriminate].
  intros H. injection H as <- <-. repeat split; eauto.
Qed.

Lemma X21_cache_hit_is_fresh_witness :
  oneFile = oneFile
  /\ RawSqlClient.enableFileCache twoEntries = true
  /\ RawSqlClient.existsSync sqlFiles "c.sql" = true
  /\ exists entry,
       RawSqlClient.get oneFile "c.sql" = Some entry
       /\ RawSqlClient.content entry = "select c"
       /\ RawSqlClient.timestamp entry = RawSqlClient.mtimeMs sqlFiles "c.sql".
Proof.
  apply (@X21_cache_hit_is_fresh string twoEntries sqlFiles oneFile oneFile
           "c.sql" "select c").
  reflexivity.
Defined.

(** X22: when [checkFileCache] returns [undefined] with caching enabled,
    the cache has no entry for the path afterwards (an entry for a
    deleted or modified file is removed), and the entries of all other
    paths are untouched; with caching disabled the cache is untouched. *)
Theorem X22_cache_miss_drops_only_the_stale_entry :
  forall (T : Type) (options : RawSqlClient.Options) (fs : RawSqlClient.FileSystem)
         (cache cache' : RawSqlClient.Cache T) (path : string),
    RawSqlClient.checkFileCache options fs cache path = (None, cache') ->
    (RawSqlClient.enableFileCache options = true ->
     RawSqlClient.has cache' path = false)
    /\ (forall other, other <> path ->
          RawSqlClient.get cache' other = RawSqlClient.get cache other)
    /\ (RawSqlClient.enableFileCache options = false -> cache' = cache).
Proof.
  intros T options fs cache cache' path.
  unfold RawSqlClient.checkFileCache.
  destruct (RawSqlClient.enableFileCache options); simpl.
  - destruct (RawSqlClient.has cache path) eqn:Eh; simpl.
    + assert (Hdel : (None : option T, RawSqlClient.delete path cache) = (None, cache') ->
                     (true = true -> RawSqlClient.has cache' path = false)
                     /\ (forall other, other <> path ->
                           RawSqlClient.get cache' other = RawSqlClient.get cache other)
                     /\ (true = false -> cache' = cache)).
      { intros H. injection H as <-. split; [|split].
        - intros _. apply has_delete.
        - intros other Hne. now apply get_delete_other.
        - discriminate. }
      destruct (RawSqlClient.existsSync fs path); simpl; [|exact Hdel].
      unfold RawSqlClient.has in Eh.
      destruct (RawSqlClient.get cache path) as [entry|]; [|discriminate].
      destruct (RawSqlClient.timestamp entry =? RawSqlClient.mtimeMs fs path)%Z;
        [discriminate|exact Hdel].
    + intros H. injection H as <-. split; [|split]; auto; discriminate.
  - intros H. injection H as <-. split; [|split]; auto; discriminate.
Qed.

Lemma X22_cache_miss_drops_only_the_stale_entry_witness :
  (RawSqlClient.enableFileCache twoEntries = true ->
   RawSqlClient.has [("a.sql", RawSqlClient.mkEntry "select a" 30%Z)] "gone.sql" = false)
  /\ (forall other, other <> "gone.sql" ->
        RawSqlClient.get [("a.sql", RawSqlClient.mkEntry "select a" 30%Z)] other
        = RawSqlClient.get twoFiles other)
  /\ (RawSqlClient.enableFileCache twoEntries = false ->
      [("a.sql", RawSqlClient.mkEntry "select a" 30%Z)] = twoFiles).
Proof.
  apply (@X22_cache_miss_drops_only_the_stale_entry string twoEntries sqlFiles
           twoFiles [("a.sql", RawSqlClient.mkEntry "select a" 30%Z)] "gone.sql").
  reflexivity.
Defined.

Lemma evictCacheIfNeeded_within_limit (T : Type) options (cache : RawSqlClient.Cache T) :
  overLimit options cache = false ->
  RawSqlClient.evictCacheIfNeeded options cache = cache.
Proof. intros H. now rewrite evictCacheIfNeeded_unfold, H. Qed.

(** X23: with caching enabled, content stored by [setCacheEntry] for an
    existing file is what [checkFileCache] returns next, provided the
    cache is unlimited or was below its limit. *)
Theorem X23_stored_entry_is_served :
  forall (T : Type) (options : RawSqlClient.Options) (fs : RawSqlClient.FileSystem)
         (cache : RawSqlClient.Cache T) (path : string) (t : T),
    RawSqlClient.enableFileCache options = true ->
    RawSqlClient.existsSync fs path = true ->
    maxSizeOf options = 0 \/ RawSqlClient.size cache < maxSizeOf options ->
    exists cache',
      RawSqlClient.setCacheEntry options fs cache path t = Ok cache'
      /\ RawSqlClient.checkFileCache options fs cache' path = (Some t, cache').
Proof.
  intros T options fs cache path t Hen Hex Hroom.
  unfold RawSqlClient.setCacheEntry, RawSqlClient.statSync.
  rewrite Hen, Hex. simpl.
  set (entry := RawSqlClient.mkEntry t (RawSqlClient.mtimeMs fs path)).
  rewrite evictCacheIfNeeded_within_limit.
  2:{ unfold overLimit. apply negb_false_iff, orb_true_iff.
      destruct Hroom as [H0|Hlt]; [left; now apply Nat.eqb_eq|right].
      apply Nat.leb_le. rewrite size_set.
      destruct (RawSqlClient.has cache path); lia. }
  eexists. split; [reflexivity|].
  unfold RawSqlClient.checkFileCache, RawSqlClient.has.
  rewrite Hen, Hex, get_set. simpl.
  now rewrite Z.eqb_refl.
Qed.

Lemma X23_stored_entry_is_served_witness :
  exists cache',
    RawSqlClient.setCacheEntry twoEntries sqlFiles oneFile "a.sql" "select a"
    = Ok cache'
    /\ RawSqlClient.checkFileCache twoEntries sqlFiles cache' "a.sql"
       = (Some "select a", cache').
Proof.
  apply (@X23_stored_entry_is_served string twoEntries sqlFiles oneFile
           "a.sql" "select a").
  - reflexivity.
  - reflexivity.
  - right. vm_compute. lia.
Defined.

Lemma set_absent (T : Type) key entry (cache : RawSqlClient.Cache T) :
  RawSqlClient.has cache key = false ->
  RawSqlClient.set key entry cache = cache ++ [(key, entry)].
Proof.
  unfold RawSqlClient.has, RawSqlClient.get.
  induction cache as [|kv rest IH]; simpl; [reflexivity|].
  destruct (String.eqb (fst kv) key); simpl; [discriminate|].
  intros H. now rewrite IH.
Qed.

Lemma has_filter_out (T : Type) (doomed : list string) key (cache : RawSqlClient.Cache T) :
  includes doomed key = true ->
  RawSqlClient.has
    (filter (fun kv => negb (includes doomed (fst kv))) cache) key = false.
Proof.
  intros Hin.
  destruct (RawSqlClient.has (filter (fun kv => negb (includes doomed (fst kv))) cache) key)
    eqn:E; [|reflexivity].
  apply has_In in E. unfold keys in E. apply in_map_iff in E as [kv [Hk Hkv]].
  apply filter_In in Hkv as [_ Hf]. rewrite Hk, Hin in Hf. discriminate.
Qed.

Lemma sorted_head_is_oldest (T : Type) (cache : RawSqlClient.Cache T) kv :
  NoDup (keys cache) ->
  In kv cache ->
  (forall other, In other cache -> fst other <> fst kv ->
     (RawSqlClient.timestamp (snd kv) < RawSqlClient.timestamp (snd other))%Z) ->
  exists rest, RawSqlClient.sortByTimestamp cache = kv :: rest.
Proof.
  intros Hnd Hin Hold.
  pose proof (@sortByTimestamp_perm T cache) as Hperm.
  pose proof (@sortByTimestamp_sorted T cache) as Hsorted.
  destruct (RawSqlClient.sortByTimestamp cache) as [|h rest].
  - apply Permutation_nil in Hperm. subst. contradiction.
  - exists rest. f_equal.
    assert (Hh : In h cache)
      by (eapply Permutation_in; [exact Hperm|now left]).
    assert (Hk : In kv (h :: rest))
      by (eapply Permutation_in; [symmetry; exact Hperm|exact Hin]).
    destruct Hk as [Hk|Hk]; [exact Hk|].
    apply StronglySorted_inv in Hsorted as [_ Hall].
    rewrite Forall_forall in Hall. specialize (Hall kv Hk).
    unfold olderOrEqual in Hall.
    destruct (string_dec (fst h) (fst kv)) as [Heq|Hne].
    + destruct h as [hk he], kv as [kk ke]. simpl in *. subst hk.
      f_equal. eapply NoDup_keys_unique; eauto.
    + specialize (Hold h Hh Hne). lia.
Qed.

(** X24: entries are ranked by the modification time of their file, not
    by when they were stored or used.  When the cache is full and the file
    just stored is older than every cached file, [setCacheEntry] evicts
    the new entry at once, and the next [checkFileCache] for it misses. *)
Lemma X24_older_file_is_evicted_at_once (T : Type) options fs
    (cache : RawSqlClient.Cache T) path t :
  NoDup (keys cache) ->
  RawSqlClient.enableFileCache options = true ->
  RawSqlClient.existsSync fs path = true ->
  maxSizeOf options <> 0 ->
  RawSqlClient.size cache = maxSizeOf options ->
  RawSqlClient.has cache path = false ->
  (forall kv, In kv cache ->
     (RawSqlClient.mtimeMs fs path < RawSqlClient.timestamp (snd kv))%Z) ->
  exists cache',
    RawSqlClient.setCacheEntry options fs cache path t = Ok cache'
    /\ RawSqlClient.has cache' path = false
    /\ RawSqlClient.checkFileCache options fs cache' path = (None, cache').
Proof.
  intros Hnd Hen Hex Hmax Hfull Habsent Hnewer.
  unfold RawSqlClient.setCacheEntry, RawSqlClient.statSync.
  rewrite Hen, Hex. simpl.
  set (entry := RawSqlClient.mkEntry t (RawSqlClient.mtimeMs fs path)).
  set (stored := RawSqlClient.set path entry cache).
  assert (Hstored : stored = cache ++ [(path, entry)]) by now apply set_absent.
  assert (Hnd' : NoDup (keys stored)) by now apply NoDup_set.
  assert (Hsize : RawSqlClient.size stored = S (maxSizeOf options)).
  { unfold stored. now rewrite size_set, Habsent, Hfull. }
  assert (Hover : overLimit options stored = true).
  { unfold overLimit. rewrite Hsize. apply negb_true_iff, orb_false_iff. split.
    - now apply Nat.eqb_neq.
    - apply Nat.leb_gt. lia. }
  assert (Hhead : exists rest, RawSqlClient.sortByTimestamp stored = (path, entry) :: rest).
  { apply sorted_head_is_oldest; [exact Hnd'| |].
    - rewrite Hstored. apply in_or_app. right. now left.
    - intros other Hin Hne. rewrite Hstored in Hin.
      apply in_app_or in Hin as [Hin|[<-|[]]]; [|now elim Hne].
      simpl. now apply Hnewer. }
  destruct Hhead as [rest Hrest].
  assert (Hgone : includes (evictedKeys options stored) path = true).
  { destruct (@evicted_split T options stored Hnd') as [Hfirst _].
    apply (Hfirst (path, entry)). rewrite Hrest.
    unfold entriesToRemove. rewrite Hsize.
    pose proof (targetSizeFor_le (maxSizeOf options)).
    destruct (S (maxSizeOf options) - RawSqlClient.targetSizeFor (maxSizeOf options))
      eqn:E; [lia|]. now left. }
  eexists. split; [reflexivity|].
  assert (Hhas : RawSqlClient.has (RawSqlClient.evictCacheIfNeeded options stored) path = false).
  { rewrite evictCacheIfNeeded_unfold, Hover. now apply has_filter_out. }
  split; [exact Hhas|].
  unfold RawSqlClient.checkFileCache. rewrite Hen, Hhas. reflexivity.
Qed.

Lemma X24_older_file_is_evicted_at_once_witness :
  exists cache',
    RawSqlClient.setCacheEntry twoEntries sqlFiles twoFiles "old.sql" "select 0"
    = Ok cache'
    /\ RawSqlClient.has cache' "old.sql" = false
    /\ RawSqlClient.checkFileCache twoEntries sqlFiles cache' "old.sql"
       = (None, cache').
Proof.
  apply (@X24_older_file_is_evicted_at_once string twoEntries sqlFiles twoFiles
           "old.sql" "select 0").
  - repeat constructor; simpl; intuition discriminate.
  - reflexivity.
  - reflexivity.
  - vm_compute. lia.
  - reflexivity.
  - reflexivity.
  - intros kv [<-|[<-|[]]]; simpl; lia.
Defined.

(** X25: [setCacheEntry] keeps each key once and keeps a limited cache
    within [cacheMaxSize]. *)
Lemma X25_setCacheEntry_keeps_the_cache_bounded (T : Type) options fs
    (cache cache' : RawSqlClient.Cache T) path t :
  NoDup (keys cache) ->
  (maxSizeOf options <> 0 -> RawSqlClient.size cache <= maxSizeOf options) ->
  RawSqlClient.setCacheEntry options fs cache path t = Ok cache' ->
  NoDup (keys cache')
  /\ (maxSizeOf options <> 0 -> RawSqlClient.size cache' <= maxSizeOf options).
Proof.
  intros Hnd Hsize. unfold RawSqlClient.setCacheEntry, RawSqlClient.statSync.
  destruct (RawSqlClient.enableFileCache options).
  - destruct (RawSqlClient.existsSync fs path); simpl; [|discriminate].
    intros H. injection H as <-.
    set (stored := RawSqlClient.set path _ cache).
    assert (Hnd' : NoDup (keys stored)) by now apply NoDup_set.
    split; [now apply evictCacheIfNeeded_NoDup|].
    intros Hne. destruct (overLimit options stored) eqn:Eo.
    + rewrite evictCacheIfNeeded_over_limit by assumption.
      apply targetSizeFor_le.
    + rewrite evictCacheIfNeeded_unfold, Eo. now apply within_limit.
  - intros H. injection H as <-. now split.
Qed.

Lemma X25_setCacheEntry_keeps_the_cache_bounded_witness :
  NoDup (keys [("a.sql", RawSqlClient.mkEntry "select a" 30%Z)])
  /\ (maxSizeOf twoEntries <> 0 ->
      RawSqlClient.size [("a.sql", RawSqlClient.mkEntry "select a" 30%Z)]
      <= maxSizeOf twoEntries).
Proof.
  apply (@X25_setCacheEntry_keeps_the_cache_bounded string twoEntries sqlFiles
           twoFiles [("a.sql", RawSqlClient.mkEntry "select a" 30%Z)]
           "old.sql" "select 0").
  - repeat constructor; simpl; intuition discriminate.
  - intros _. vm_compute. lia.
  - reflexivity.
Defined.
